(** * Udyam Registration Portal: validation, sanitisation and schema fallback

    A shallow embedding of the validation service
    ([backend/src/services/validation.service.ts]), the submission endpoint
    ([backend/src/server.ts]), the schema provider of the front end
    ([frontend/src/app/page.tsx], [schema/src/index.ts]) and the step-2
    extractor ([scraper/src/scrape-step2.ts]), followed by the properties
    proved about them. *)

From Stdlib Require Import ZArith NArith List String Ascii Bool Lia Permutation.
From stdpp Require Import base option list gmap.

Local Open Scope N_scope.

(** ** JavaScript strings

    A JavaScript string is a sequence of UTF-16 code units.  Regular
    expressions without the [u] flag, [String.prototype.length] and
    [String.prototype.trim] all work on code units. *)

Module JS.

Abbreviation jsstring := (list N).

(** [str "abc"] is the string literal ["abc"] (ASCII source text). *)
Definition str (s : string) : jsstring :=
  map N_of_ascii (list_ascii_of_string s).

(** ECMAScript WhiteSpace and LineTerminator code points: what [\s] matches
    and what [trim] strips. *)
Definition is_whitespace (c : N) : bool :=
  ((9 <=? c) && (c <=? 13)) || (c =? 32) || (c =? 160) || (c =? 5760)
  || ((8192 <=? c) && (c <=? 8202)) || (c =? 8232) || (c =? 8233)
  || (c =? 8239) || (c =? 8287) || (c =? 12288) || (c =? 65279).

(** [\w] without the [u] flag: [A-Za-z0-9_]. *)
Definition is_word_char (c : N) : bool :=
  ((97 <=? c) && (c <=? 122)) || ((65 <=? c) && (c <=? 90))
  || ((48 <=? c) && (c <=? 57)) || (c =? 95).

Fixpoint trimStart (s : jsstring) : jsstring :=
  match s with
  | c :: rest => if is_whitespace c then trimStart rest else s
  | [] => []
  end.

Definition trimEnd (s : jsstring) : jsstring := rev (trimStart (rev s)).

Definition trim (s : jsstring) : jsstring := trimEnd (trimStart s).

(** Truthiness of a string operand of [||]: the empty string is falsy. *)
Definition truthy_str (s : jsstring) : bool :=
  match s with [] => false | _ => true end.

End JS.

Import JS.

(** ** Regular expressions

    The fragment of ECMAScript regular expressions used by the repository,
    with the backtracking semantics of the language specification: a matcher
    takes a position and a continuation, and alternatives are tried in
    priority order. *)

Module Regex.

Inductive class_item : Type :=
| CChar (c : N)             (* a single character *)
| CRange (lo hi : N)        (* lo-hi *)
| CWord                     (* \w *)
| CSpace.                   (* \s *)

Inductive regex : Type :=
| Eps
| Chr (c : N)                                  (* a literal character *)
| CharSet (neg : bool) (items : list class_item)  (* [...] and [^...] *)
| AssertStart                                  (* ^ *)
| AssertEnd                                    (* $ *)
| WordBoundary                                 (* \b *)
| Seq (a b : regex)
| Alt (a b : regex)                            (* a|b *)
| Rep (min : nat) (max : option nat) (r : regex)  (* greedy r{min,max} *)
| NegLookahead (r : regex).                    (* (?!r) *)

(** A position in the input: the characters before it (nearest first) and
    the characters after it. *)
Record mpos : Type := MPos { before : list N; after : list N }.

(** Canonicalize of the specification for patterns without the [u] flag.
    With [ignoreCase] a character is mapped to its upper case; a character
    outside ASCII never canonicalizes to an ASCII one, and every pattern
    character of the repository is ASCII, so only the ASCII letters are
    folded here. *)
Definition canonicalize (ignoreCase : bool) (c : N) : N :=
  if ignoreCase && (97 <=? c) && (c <=? 122) then c - 32 else c.

Definition lower (c : N) : N :=
  if (65 <=? c) && (c <=? 90) then c + 32 else c.

Definition in_range (lo hi c : N) : bool := (lo <=? c) && (c <=? hi).

Definition item_matches (ic : bool) (ch : N) (it : class_item) : bool :=
  match it with
  | CChar c => canonicalize ic c =? canonicalize ic ch
  | CRange lo hi =>
      in_range lo hi ch
      || (ic && (in_range lo hi (canonicalize true ch) || in_range lo hi (lower ch)))
  | CWord => is_word_char ch
  | CSpace => is_whitespace ch
  end.

Definition set_matches (ic : bool) (neg : bool) (items : list class_item) (ch : N) : bool :=
  xorb neg (existsb (item_matches ic ch) items).

Definition is_word_at (l : list N) : bool :=
  match l with c :: _ => is_word_char c | [] => false end.

Definition advance (x : mpos) (ch : N) (rest : list N) : mpos :=
  {| before := ch :: before x; after := rest |}.

(** RepeatMatcher of the specification for a greedy quantifier, over the
    matcher [m] of the quantified atom and the continuation [k].  An
    iteration made once the minimum is exhausted must consume input, so
    [min] plus the length of the remaining input bounds the number of
    iterations; [fuel] starts above that bound. *)
Fixpoint rep_loop (m : mpos -> (mpos -> option mpos) -> option mpos)
  (k : mpos -> option mpos) (fuel : nat) (min : nat) (max : option nat) (x : mpos)
  {struct fuel} : option mpos :=
  match fuel with
  | O => None
  | S fuel' =>
      match max with
      | Some O => k x
      | _ =>
          let d := fun y : mpos =>
            if (Nat.eqb min 0) && (Nat.eqb (length (after y)) (length (after x)))
            then None
            else rep_loop m k fuel' (Nat.pred min) (option_map Nat.pred max) y in
          if Nat.eqb min 0 then
            match m x d with
            | Some z => Some z
            | None => k x
            end
          else m x d
      end
  end.

(** The matcher of a pattern: from a position and a continuation to the
    end position of the match, if any. *)
Fixpoint matcher (ic : bool) (r : regex) (x : mpos) (k : mpos -> option mpos)
  {struct r} : option mpos :=
  match r with
  | Eps => k x
  | Chr c =>
      match after x with
      | ch :: rest =>
          if canonicalize ic ch =? canonicalize ic c then k (advance x ch rest) else None
      | [] => None
      end
  | CharSet neg items =>
      match after x with
      | ch :: rest =>
          if set_matches ic neg items ch then k (advance x ch rest) else None
      | [] => None
      end
  | AssertStart => match before x with [] => k x | _ => None end
  | AssertEnd => match after x with [] => k x | _ => None end
  | WordBoundary =>
      if xorb (is_word_at (before x)) (is_word_at (after x)) then k x else None
  | Seq a b => matcher ic a x (fun y => matcher ic b y k)
  | Alt a b =>
      match matcher ic a x k with
      | Some z => Some z
      | None => matcher ic b x k
      end
  | Rep min max r' =>
      rep_loop (matcher ic r') k (S (min + length (after x))) min max x
  | NegLookahead r' =>
      match matcher ic r' x Some with
      | Some _ => None
      | None => k x
      end
  end.

(** A matcher is local when it calls its continuation only at positions at
    or after its own: every matcher of a pattern is, which is what bounds
    the iterations of a quantifier. *)
Definition local_matcher (m : mpos -> (mpos -> option mpos) -> option mpos) : Prop :=
  forall x k k',
    (forall y, (length (after y) <= length (after x))%nat -> k y = k' y) ->
    m x k = m x k'.

(** Reading [n] characters of one class: what [[...]{n}] does. *)
Fixpoint take_class (ic neg : bool) (items : list class_item) (n : nat) (x : mpos)
  : option mpos :=
  match n with
  | O => Some x
  | S n' =>
      match after x with
      | ch :: rest =>
          if set_matches ic neg items ch then take_class ic neg items n' (advance x ch rest)
          else None
      | [] => None
      end
  end.

(** A compiled regular-expression literal: its source text, syntax tree and
    flags. *)
Record RegExp : Type := {
  source : string;
  ast : regex;
  ignoreCase : bool;
  global : bool
}.

(** One match attempt at position [x]. *)
Definition exec_at (re : RegExp) (x : mpos) : option mpos :=
  matcher (ignoreCase re) (ast re) x Some.

(** The leftmost position at or after [x] where the pattern matches. *)
Fixpoint search (re : RegExp) (bef aft : list N) : option (mpos * mpos) :=
  match exec_at re (MPos bef aft) with
  | Some y => Some (MPos bef aft, y)
  | None =>
      match aft with
      | c :: rest => search re (c :: bef) rest
      | [] => None
      end
  end.

(** [re.test(s)] for a pattern without the [g] flag. *)
Definition test (re : RegExp) (s : jsstring) : bool :=
  match search re [] s with Some _ => true | None => false end.

(** [s.replace(re, repl)] for a pattern with the [g] flag and a replacement
    text without [$] patterns.  [skip] counts the characters of the current
    match that are still to be dropped; after an empty match the search
    resumes one character further. *)
Fixpoint replace_from (re : RegExp) (repl : jsstring) (bef aft : list N) (skip : nat)
  {struct aft} : jsstring :=
  match skip with
  | S n =>
      match aft with
      | c :: rest => replace_from re repl (c :: bef) rest n
      | [] => []
      end
  | O =>
      match exec_at re (MPos bef aft) with
      | Some y =>
          repl ++
          match aft with
          | [] => []
          | c :: rest =>
              match (length aft - length (after y))%nat with
              | O => c :: replace_from re repl (c :: bef) rest 0
              | S n => replace_from re repl (c :: bef) rest n
              end
          end
      | None =>
          match aft with
          | c :: rest => c :: replace_from re repl (c :: bef) rest 0
          | [] => []
          end
      end
  end.

Definition replace (re : RegExp) (repl : jsstring) (s : jsstring) : jsstring :=
  replace_from re repl [] s 0.

(** Helpers to write patterns. *)
Definition lit (s : string) : regex :=
  fold_right (fun c r => Seq (Chr c) r) Eps (str s).

Definition digit : regex := CharSet false [CRange 48 57].
Definition upper_letter : regex := CharSet false [CRange 65 90].
Definition exactly (n : nat) (r : regex) : regex := Rep n (Some n) r.
Definition star (r : regex) : regex := Rep 0 None r.
Definition plus (r : regex) : regex := Rep 1 None r.

End Regex.

Import Regex.

(** ** Pattern registry ([validation.service.ts], [server.ts]) *)

Definition panRegex : RegExp :=
  {| source := "^[A-Z]{5}[0-9]{4}[A-Z]{1}$";
     ast := Seq AssertStart
              (Seq (exactly 5 upper_letter)
                 (Seq (exactly 4 digit) (Seq (exactly 1 upper_letter) AssertEnd)));
     ignoreCase := false; global := false |}.

Definition aadhaarRegex : RegExp :=
  {| source := "^[2-9][0-9]{11}$";
     ast := Seq AssertStart
              (Seq (CharSet false [CRange 50 57]) (Seq (exactly 11 digit) AssertEnd));
     ignoreCase := false; global := false |}.

Definition mobileRegex : RegExp :=
  {| source := "^[6-9][0-9]{9}$";
     ast := Seq AssertStart
              (Seq (CharSet false [CRange 54 57]) (Seq (exactly 9 digit) AssertEnd));
     ignoreCase := false; global := false |}.

Definition otpRegex : RegExp :=
  {| source := "^[0-9]{6}$";
     ast := Seq AssertStart (Seq (exactly 6 digit) AssertEnd);
     ignoreCase := false; global := false |}.

Definition pincodeRegex : RegExp :=
  {| source := "^[0-9]{6}$";
     ast := Seq AssertStart (Seq (exactly 6 digit) AssertEnd);
     ignoreCase := false; global := false |}.

(** The three patterns of [sanitizeInput]. *)
Definition scriptElementRegex : RegExp :=
  {| source := "<script\b[^<]*(?:(?!<\/script>)<[^<]*)*<\/script>";
     ast := Seq (lit "<script")
              (Seq WordBoundary
                 (Seq (star (CharSet true [CChar 60]))
                    (Seq (star (Seq (NegLookahead (lit "</script>"))
                                  (Seq (Chr 60) (star (CharSet true [CChar 60])))))
                       (lit "</script>"))));
     ignoreCase := true; global := true |}.

Definition javascriptSchemeRegex : RegExp :=
  {| source := "javascript:"; ast := lit "javascript:";
     ignoreCase := true; global := true |}.

Definition eventHandlerRegex : RegExp :=
  {| source := "on\w+\s*=";
     ast := Seq (lit "on")
              (Seq (plus (CharSet false [CWord]))
                 (Seq (star (CharSet false [CSpace])) (Chr 61)));
     ignoreCase := true; global := true |}.

Definition sanitizeString (value : jsstring) : jsstring :=
  trim (replace eventHandlerRegex []
          (replace javascriptSchemeRegex []
             (replace scriptElementRegex [] value))).

(** ** The formats in the words of the specification

    These follow the prose of the pattern table, not the regular
    expressions; the properties below compare the two. *)

Module Format.

Definition is_digit (c : N) : bool := (48 <=? c) && (c <=? 57).
Definition is_upper (c : N) : bool := (65 <=? c) && (c <=? 90).

(** ``12 digits, first digit 2-9''. *)
Definition aadhaar_format (s : jsstring) : bool :=
  (length s =? 12)%nat && forallb is_digit s
  && match s with c :: _ => (50 <=? c) && (c <=? 57) | [] => false end.

(** ``5 letters, 4 digits, 1 letter, all uppercase''. *)
Definition pan_format (s : jsstring) : bool :=
  (length s =? 10)%nat && forallb is_upper (take 5 s)
  && forallb is_digit (take 4 (drop 5 s)) && forallb is_upper (drop 9 s).

(** ``6 digits'' (OTP and pincode). *)
Definition six_digit_format (s : jsstring) : bool :=
  (length s =? 6)%nat && forallb is_digit s.

End Format.

Import Format.

(** ** JavaScript values and objects *)

Module Value.

(** The values a JSON request body can hold, and [undefined].  The payload
    of a number is never inspected by the code below. *)
#[local] Set Warnings "-register-all".
Inductive value : Type :=
| VUndefined
| VNull
| VBool (b : bool)
| VNum (n : Z)
| VStr (s : jsstring)
| VArr (items : list value)
| VObj (props : gmap jsstring value).
#[local] Set Warnings "register-all".

Definition is_undefined (v : value) : bool :=
  match v with VUndefined => true | _ => false end.

(** [o[key]] on an object without inherited data properties of that name. *)
Definition get (o : gmap jsstring value) (key : jsstring) : value :=
  default VUndefined (o !! key).

(** [key in o]. *)
Definition has (o : gmap jsstring value) (key : jsstring) : bool :=
  match o !! key with Some _ => true | None => false end.

(** [o[key] = v] on an ordinary object created by [{}].  Every key creates
    or overwrites an own property, except [__proto__]: that name resolves
    to the accessor inherited from [Object.prototype], whose setter changes
    the prototype (for an object or [null]) or does nothing (for a
    primitive) and never creates an own property. *)
Definition assign (o : gmap jsstring value) (key : jsstring) (v : value)
  : gmap jsstring value :=
  if decide (key = str "__proto__") then o else <[key := v]> o.

(** [Object.entries(o)]: the own enumerable properties. *)
Definition entries (o : gmap jsstring value) : list (jsstring * value) :=
  map_to_list o.

End Value.

Import Value.

(** ** Zod schemas (the part of zod 3 the repository uses) *)

Module Zod.

Inductive issue_code : Type :=
| invalid_type | invalid_string | too_small | too_big | custom.

Record issue : Type := {
  code : issue_code;
  path : list jsstring;
  message : jsstring
}.

Inductive string_check : Type :=
| CkRegex (re : RegExp) (msg : jsstring)   (* .regex(re, msg) *)
| CkMin (n : nat) (msg : jsstring)          (* .min(n, msg) *)
| CkMax (n : nat) (msg : jsstring).         (* .max(n, msg) *)

Inductive schema : Type :=
| ZString (checks : list string_check)                               (* z.string()... *)
| ZBoolean                                                     (* z.boolean() *)
| ZRefine (inner : schema) (pred : value -> bool) (msg : jsstring).  (* .refine(pred, msg) *)

(** [z.object(shape)]: the fields in declaration order. *)
Definition shape : Type := list (jsstring * schema).

(** getParsedType, as the name used in messages. *)
Definition parsedType (v : value) : jsstring :=
  match v with
  | VUndefined => str "undefined"
  | VNull => str "null"
  | VBool _ => str "boolean"
  | VNum _ => str "number"
  | VStr _ => str "string"
  | VArr _ => str "array"
  | VObj _ => str "object"
  end.

(** The default error map for a type mismatch. *)
Definition invalid_type_issue (p : list jsstring) (expected : jsstring) (v : value) : issue :=
  {| code := invalid_type; path := p;
     message := match v with
                | VUndefined => str "Required"
                | _ => str "Expected " ++ expected ++ str ", received " ++ parsedType v
                end |}.

(** The outcome of parsing one value: the issues raised, and the parsed
    value unless parsing aborted. *)
Record parsed : Type := { issues : list issue; output : option value }.

Definition check_issues (p : list jsstring) (s : jsstring) (c : string_check) : list issue :=
  match c with
  | CkRegex re msg =>
      if test re s then [] else [{| code := invalid_string; path := p; message := msg |}]
  | CkMin n msg =>
      if (length s <? n)%nat then [{| code := too_small; path := p; message := msg |}] else []
  | CkMax n msg =>
      if (n <? length s)%nat then [{| code := too_big; path := p; message := msg |}] else []
  end.

Fixpoint parse (sch : schema) (p : list jsstring) (v : value) : parsed :=
  match sch with
  | ZString checks =>
      match v with
      | VStr s => {| issues := flat_map (check_issues p s) checks; output := Some v |}
      | _ => {| issues := [invalid_type_issue p (str "string") v]; output := None |}
      end
  | ZBoolean =>
      match v with
      | VBool _ => {| issues := []; output := Some v |}
      | _ => {| issues := [invalid_type_issue p (str "boolean") v]; output := None |}
      end
  | ZRefine inner pred msg =>
      let r := parse inner p v in
      match output r with
      | None => r
      | Some out =>
          if pred out then r
          else {| issues := issues r ++ [{| code := custom; path := p; message := msg |}];
                  output := Some out |}
      end
  end.

(** One entry of the object parser: the key, the outcome for its value, and
    whether the key is present in the input. *)
Definition parse_pairs (sh : shape) (p : list jsstring) (data : gmap jsstring value)
  : list (jsstring * parsed * bool) :=
  map (fun '(key, sch) => (key, parse sch (p ++ [key]) (get data key), has data key)) sh.

(** The object built from the parsed pairs; keys outside the shape are
    stripped (the default [unknownKeys] policy). *)
Definition final_object (pairs : list (jsstring * parsed * bool)) : gmap jsstring value :=
  foldl (fun final '(key, r, alwaysSet) =>
           match output r with
           | Some val =>
               if negb (bool_decide (key = str "__proto__"))
                  && (negb (is_undefined val) || alwaysSet)
               then <[key := val]> final else final
           | None => final
           end) ∅ pairs.

Definition parse_object (sh : shape) (p : list jsstring) (v : value) : parsed :=
  match v with
  | VObj data =>
      let pairs := parse_pairs sh p data in
      {| issues := flat_map (fun '(_, r, _) => issues r) pairs;
         output := if forallb (fun '(_, r, _) => bool_decide (is_Some (output r))) pairs
                   then Some (VObj (final_object pairs)) else None |}
  | _ => {| issues := [invalid_type_issue p (str "object") v]; output := None |}
  end.

(** The result of [safeParse]; [parse] throws the [ZodError] instead of
    returning it.  A failure always carries at least one issue: zod throws
    a plain [Error] should none have been recorded. *)
Inductive parse_result : Type :=
| Success (data : value)
| ZodError (first : issue) (rest : list issue)
| PlainError.

Definition errors (first : issue) (rest : list issue) : list issue := first :: rest.

Definition handleResult (r : parsed) : parse_result :=
  match issues r, output r with
  | [], Some data => Success data
  | i :: rest, _ => ZodError i rest
  | [], None => PlainError
  end.

Definition safeParse (sh : shape) (v : value) : parse_result :=
  handleResult (parse_object sh [] v).

End Zod.

Import Zod.

(** ** The validation service ([validation.service.ts]) *)

Module ValidationService.

Definition is_true (val : value) : bool :=
  match val with VBool true => true | _ => false end.

Definition aadhaarSchema : shape :=
  [ (str "aadhaarNumber",
     ZString [CkRegex aadhaarRegex
                (str "Invalid Aadhaar format. Must be 12 digits starting with 2-9")]) ].

Definition panSchema : shape :=
  [ (str "panNumber",
     ZString [CkRegex panRegex (str "Invalid PAN format. Expected: ABCDE1234F")]) ].

Definition otpSchema : shape :=
  [ (str "otp", ZString [CkRegex otpRegex (str "Invalid OTP format. Must be 6 digits")]) ].

Definition pincodeSchema : shape :=
  [ (str "pincode",
     ZString [CkRegex pincodeRegex (str "Invalid PIN code format. Must be 6 digits")]) ].

Definition submissionSchema : shape :=
  [ (str "aadhaarNumber", ZString [CkRegex aadhaarRegex (str "Invalid Aadhaar format")]);
    (str "entrepreneurName",
     ZString [CkMin 1 (str "Entrepreneur name is required"); CkMax 100 (str "Name too long")]);
    (str "consent", ZRefine ZBoolean is_true (str "Consent is required"));
    (str "otp", ZString [CkRegex otpRegex (str "Invalid OTP format")]);
    (str "otpVerified", ZRefine ZBoolean is_true (str "OTP must be verified"));
    (str "organisationType", ZString [CkMin 1 (str "Organisation type is required")]);
    (str "panNumber", ZString [CkRegex panRegex (str "Invalid PAN format")]);
    (str "panHolderName",
     ZString [CkMin 1 (str "PAN holder name is required"); CkMax 100 (str "Name too long")]);
    (str "dob", ZString [CkMin 1 (str "Date of birth is required")]);
    (str "panConsent", ZRefine ZBoolean is_true (str "PAN consent is required"));
    (str "pincode", ZString [CkRegex pincodeRegex (str "Invalid PIN code format")]);
    (str "state", ZString [CkMin 1 (str "State is required")]);
    (str "city", ZString [CkMin 1 (str "City is required")]) ].

(** [{ valid: true, data }], [{ valid: false, error }] or
    [{ valid: false, error, details }]. *)
Inductive validation_result : Type :=
| Valid (data : value)
| Invalid (error : jsstring) (details : option (list issue)).

Definition valid (r : validation_result) : bool :=
  match r with Valid _ => true | Invalid _ _ => false end.

(** The common body of the four single-field validators:
    [try { schema.parse({ key: x }) } catch ...]. *)
Definition validate_field (sch : shape) (key : jsstring) (x : value) : validation_result :=
  match safeParse sch (VObj {[ key := x ]}) with
  | Success result => Valid result
  | ZodError first rest => Invalid (message first) None
  | PlainError => Invalid (str "Validation failed") None
  end.

Definition validateAadhaar (aadhaarNumber : value) : validation_result :=
  validate_field aadhaarSchema (str "aadhaarNumber") aadhaarNumber.

Definition validatePAN (panNumber : value) : validation_result :=
  validate_field panSchema (str "panNumber") panNumber.

Definition validateOTP (otp : value) : validation_result :=
  validate_field otpSchema (str "otp") otp.

Definition validatePincode (pincode : value) : validation_result :=
  validate_field pincodeSchema (str "pincode") pincode.

Definition validateSubmission (data : value) : validation_result :=
  match safeParse submissionSchema data with
  | Success result => Valid result
  | ZodError first rest => Invalid (str "Validation failed") (Some (errors first rest))
  | PlainError => Invalid (str "Validation failed") None
  end.

(** [sanitizeInput] for an object [data]: every entry is copied into a
    fresh object, string values after the three removals and [trim]. *)
Definition sanitizeValue (v : value) : value :=
  match v with
  | VStr s => VStr (sanitizeString s)
  | _ => v
  end.

Definition sanitizeInput (data : gmap jsstring value) : gmap jsstring value :=
  foldl (fun sanitized '(key, v) => assign sanitized key (sanitizeValue v))
        ∅ (entries data).

End ValidationService.

Import ValidationService.

(** ** The HTTP endpoints of the back end ([server.ts]) *)

Module Server.

(** JavaScript truthiness, for the [!x] guards. *)
Definition truthy (v : value) : bool :=
  match v with
  | VUndefined | VNull | VBool false => false
  | VNum n => negb (n =? 0)%Z
  | VStr s => truthy_str s
  | _ => true
  end.

Inductive body : Type :=
| FieldOk (valid : bool) (message : jsstring)            (* { valid, message } *)
| FieldError (valid : bool) (error : jsstring)           (* { valid, error } *)
| RequiredError (error : jsstring)                       (* { error } *)
| ValidationFailed (error : jsstring) (details : list issue)       (* { error, details } *)
| NotStored (stored : bool) (message : jsstring) (data : value)    (* { stored, message, data } *)
| StoredOk (stored : bool) (id : value) (message : jsstring)       (* { stored, id, message } *)
| InternalError (error : jsstring) (message : jsstring)            (* { error, message } *)
| Document (data : value).

Record response : Type := { status : nat; json : body }.

(** [POST /validate/pan]. *)
Definition validate_pan (reqBody : gmap jsstring value) : response :=
  let panNumber := get reqBody (str "panNumber") in
  if negb (truthy panNumber) then
    {| status := 400; json := RequiredError (str "PAN number is required") |}
  else
    match validatePAN panNumber with
    | Valid _ => {| status := 200; json := FieldOk true (str "PAN format is valid") |}
    | Invalid error _ => {| status := 400; json := FieldError false error |}
    end.

(** [POST /validate/aadhaar]. *)
Definition validate_aadhaar (reqBody : gmap jsstring value) : response :=
  let aadhaarNumber := get reqBody (str "aadhaarNumber") in
  if negb (truthy aadhaarNumber) then
    {| status := 400; json := RequiredError (str "Aadhaar number is required") |}
  else
    match validateAadhaar aadhaarNumber with
    | Valid _ => {| status := 200; json := FieldOk true (str "Aadhaar format is valid") |}
    | Invalid error _ => {| status := 400; json := FieldError false error |}
    end.

(** The schema declared inside the [/submit] handler. *)
Definition submissionSchema : shape :=
  [ (str "aadhaarNumber", ZString [CkRegex aadhaarRegex (str "Invalid Aadhaar format")]);
    (str "entrepreneurName", ZString [CkMin 1 (str "Entrepreneur name is required")]);
    (str "consent", ZRefine ZBoolean is_true (str "Consent is required"));
    (str "otp", ZString [CkRegex otpRegex (str "Invalid OTP format")]);
    (str "otpVerified", ZRefine ZBoolean is_true (str "OTP must be verified"));
    (str "organisationType", ZString [CkMin 1 (str "Organisation type is required")]);
    (str "panNumber", ZString [CkRegex panRegex (str "Invalid PAN format")]);
    (str "panHolderName", ZString [CkMin 1 (str "PAN holder name is required")]);
    (str "dob", ZString [CkMin 1 (str "Date of birth is required")]);
    (str "panConsent", ZRefine ZBoolean is_true (str "PAN consent is required"));
    (str "pincode", ZString [CkRegex pincodeRegex (str "Invalid PIN code format")]);
    (str "state", ZString [CkMin 1 (str "State is required")]);
    (str "city", ZString [CkMin 1 (str "City is required")]) ].

(** The persistence sink.  [getPrisma()] yields [null] (no client) or a
    client whose [udyamSubmission.create] stores a row and returns it, or
    throws an error [e] of which only [e.message] is read. *)
Inductive create_result : Type :=
| Saved (row : gmap jsstring value)
| CreateThrows (e_message : option jsstring).

Record PrismaClient : Type := {
  create : gmap jsstring value -> create_result
}.

(** The [data] argument of [create]. *)
Definition create_data (data : gmap jsstring value) : gmap jsstring value :=
  list_to_map
    [ (str "aadhaarNumber", get data (str "aadhaarNumber"));
      (str "entrepreneurName", get data (str "entrepreneurName"));
      (str "consent", get data (str "consent"));
      (str "otp", get data (str "otp"));
      (str "otpVerified", get data (str "otpVerified"));
      (str "organisationType", get data (str "organisationType"));
      (str "panNumber", get data (str "panNumber"));
      (str "panHolderName", get data (str "panHolderName"));
      (str "dob", get data (str "dob"));
      (str "panConsent", get data (str "panConsent"));
      (str "pincode", get data (str "pincode"));
      (str "state", get data (str "state"));
      (str "city", get data (str "city"));
      (str "status", VStr (str "pending")) ].

Definition props_of (v : value) : gmap jsstring value :=
  match v with VObj o => o | _ => ∅ end.

(** [e?.message || fallback]. *)
Definition message_or (e_message : option jsstring) (fallback : jsstring) : jsstring :=
  match e_message with
  | Some m => if truthy_str m then m else fallback
  | None => fallback
  end.

(** [POST /submit]: the request body and the outcome of [getPrisma()]. *)
Definition submit (reqBody : value) (client : option PrismaClient) : response :=
  match safeParse submissionSchema reqBody with
  | ZodError first rest =>
      {| status := 400;
         json := ValidationFailed (str "Validation failed") (errors first rest) |}
  | PlainError =>
      {| status := 500;
         json := InternalError (str "Internal server error")
                   (str "Validation failed but no issues detected.") |}
  | Success data =>
      match client with
      | None =>
          {| status := 202;
             json := NotStored false
                       (str "Database not configured. Data accepted for validation only.")
                       data |}
      | Some client =>
          match create client (create_data (props_of data)) with
          | Saved saved =>
              {| status := 200;
                 json := StoredOk true (get saved (str "id"))
                           (str "Udyam registration submitted successfully") |}
          | CreateThrows e =>
              {| status := 500;
                 json := InternalError (str "Internal server error")
                           (message_or e (str "Failed to store submission")) |}
          end
      end
  end.

(** [GET /scraped-schema/:step].  [file] is the state of
    [schema/generated/step<step>.json]: absent, or present with a content
    that [JSON.parse] turns into a value or rejects with an error message. *)
Inductive file_content : Type :=
| Json (data : value)
| Malformed (e_message : option jsstring).

Definition scraped_schema (file : option file_content) : response :=
  match file with
  | None => {| status := 404; json := RequiredError (str "Scraped schema not found") |}
  | Some (Json data) => {| status := 200; json := Document data |}
  | Some (Malformed e) =>
      {| status := 500;
         json := RequiredError (message_or e (str "Failed to read scraped schema")) |}
  end.

(** [POST /validate/otp]. *)
Definition validate_otp (reqBody : gmap jsstring value) : response :=
  let otp := get reqBody (str "otp") in
  if negb (truthy otp) then
    {| status := 400; json := RequiredError (str "OTP is required") |}
  else
    match validateOTP otp with
    | Valid _ => {| status := 200; json := FieldOk true (str "OTP format is valid") |}
    | Invalid error _ => {| status := 400; json := FieldError false error |}
    end.

(** [POST /validate/pincode]. *)
Definition validate_pincode (reqBody : gmap jsstring value) : response :=
  let pincode := get reqBody (str "pincode") in
  if negb (truthy pincode) then
    {| status := 400; json := RequiredError (str "PIN code is required") |}
  else
    match validatePincode pincode with
    | Valid _ => {| status := 200; json := FieldOk true (str "PIN code format is valid") |}
    | Invalid error _ => {| status := 400; json := FieldError false error |}
    end.

End Server.

(** ** The shared form schema ([schema/src/index.ts]) *)

Module Schema.

Inductive FieldType : Type :=
| text | number | select | radio | checkbox | date | tel | email | password | otp.

Record FormOption : Type := { opt_label : jsstring; opt_value : jsstring }.

Record FieldValidation : Type := {
  required : option bool;
  minLength : option nat;
  maxLength : option nat;
  pattern : option string;
  helpText : option jsstring
}.

Record FormField : Type := {
  id : jsstring;
  name : jsstring;
  label : jsstring;
  placeholder : option jsstring;
  type : FieldType;
  options : option (list FormOption);
  validation : option FieldValidation
}.

Record FormSchema : Type := {
  title : jsstring;
  step : Z;
  fields : list FormField
}.

Definition step1Schema : FormSchema :=
  {| title := str "Udyam Registration - Step 1 (Aadhaar & OTP)";
     step := 1;
     fields :=
       [ {| id := str "aadhaarNumber"; name := str "aadhaarNumber";
            label := str "Aadhaar Number";
            placeholder := Some (str "Enter 12-digit Aadhaar");
            type := tel; options := None;
            validation := Some {| required := Some true; minLength := Some 12%nat;
                                  maxLength := Some 12%nat;
                                  pattern := Some (source aadhaarRegex);
                                  helpText := Some (str "12 digits; must start with 2-9") |} |};
         {| id := str "mobileNumber"; name := str "mobileNumber";
            label := str "Mobile Number (linked to Aadhaar)";
            placeholder := Some (str "Enter 10-digit mobile");
            type := tel; options := None;
            validation := Some {| required := Some true; minLength := Some 10%nat;
                                  maxLength := Some 10%nat;
                                  pattern := Some (source mobileRegex);
                                  helpText := None |} |};
         {| id := str "otp"; name := str "otp"; label := str "OTP";
            placeholder := Some (str "Enter 6-digit OTP");
            type := otp; options := None;
            validation := Some {| required := Some true; minLength := Some 6%nat;
                                  maxLength := Some 6%nat;
                                  pattern := Some (source otpRegex);
                                  helpText := None |} |} ] |}.

Definition step2Schema : FormSchema :=
  {| title := str "Udyam Registration - Step 2 (PAN Validation)";
     step := 2;
     fields :=
       [ {| id := str "panNumber"; name := str "panNumber"; label := str "PAN Number";
            placeholder := Some (str "ABCDE1234F");
            type := text; options := None;
            validation := Some {| required := Some true; minLength := Some 10%nat;
                                  maxLength := Some 10%nat;
                                  pattern := Some (source panRegex);
                                  helpText := Some (str "Format: [A-Z]{5}[0-9]{4}[A-Z]") |} |};
         {| id := str "pincode"; name := str "pincode"; label := str "PIN Code";
            placeholder := Some (str "6-digit PIN");
            type := tel; options := None;
            validation := Some {| required := Some false; minLength := Some 6%nat;
                                  maxLength := Some 6%nat;
                                  pattern := Some "^[0-9]{6}$"%string;
                                  helpText := None |} |};
         {| id := str "state"; name := str "state"; label := str "State";
            placeholder := None; type := text; options := None;
            validation := Some {| required := Some false; minLength := None;
                                  maxLength := None; pattern := None; helpText := None |} |};
         {| id := str "city"; name := str "city"; label := str "City";
            placeholder := None; type := text; options := None;
            validation := Some {| required := Some false; minLength := None;
                                  maxLength := None; pattern := None; helpText := None |} |} ] |}.

End Schema.

(** ** The schema provider of the front end ([page.tsx]) *)

Module Frontend.

(** An awaited promise: fulfilled with a value, or rejected. *)
Inductive awaited (A : Type) : Type :=
| Fulfilled (a : A)
| Rejected.
Arguments Fulfilled {A} a.
Arguments Rejected {A}.

(** The value [fetchSchema] resolves to, typed [FormSchema] by the source:
    one of the two static schemas, or whatever document [r.json()] gave
    (the cast is unchecked). *)
Inductive document : Type :=
| Static (s : Schema.FormSchema)
| Scraped (doc : value).

(** The [Response] of [fetch]: its status and what [r.json()] resolves to. *)
Record Response : Type := {
  r_status : nat;
  r_json : awaited document
}.

Definition ok (r : Response) : bool :=
  (200 <=? r_status r)%nat && (r_status r <=? 299)%nat.

(** The body of the [try] block: [Some doc] when it returns, [None] when
    control falls out of it. *)
Definition try_scraped (fetched : awaited Response) : awaited (option document) :=
  match fetched with
  | Rejected => Rejected
  | Fulfilled r =>
      if ok r then
        match r_json r with
        | Fulfilled doc => Fulfilled (Some doc)
        | Rejected => Rejected
        end
      else Fulfilled None
  end.

(** [fetchSchema(step)], given the outcome of
    [fetch(BACKEND_URL/scraped-schema/step)]. *)
Definition fetchSchema (fetched : awaited Response) (step : Z) : awaited document :=
  match try_scraped fetched with
  | Fulfilled (Some doc) => Fulfilled doc
  | Fulfilled None | Rejected =>
      Fulfilled (Static (if (step =? 1)%Z then Schema.step1Schema else Schema.step2Schema))
  end.

(** The extraction endpoint as seen from the front end: unreachable, or
    answering from the cache file of the step. *)
Definition as_document (b : Server.body) : document :=
  match b with
  | Server.Document v => Scraped v
  | Server.RequiredError e => Scraped (VObj {[ str "error" := VStr e ]})
  | _ => Scraped VUndefined
  end.

Definition fetch_backend (reachable : bool) (cache : option Server.file_content)
  : awaited Response :=
  if reachable then
    let res := Server.scraped_schema cache in
    Fulfilled {| r_status := Server.status res;
                 r_json := Fulfilled (as_document (Server.json res)) |}
  else Rejected.

(** The rate limiter sits in front of every route of the back end
    ([app.use(limiter)]): to a client over its limit it answers 429 with
    the configured message and the handler is not reached. *)
Definition too_many_requests : Response :=
  {| r_status := 429;
     r_json :=
       Fulfilled
         (Scraped
            (VObj {[ str "error" :=
                       VStr (str "Too many requests from this IP, please try again later.");
                     str "retryAfter" := VStr (str "15 minutes") ]})) |}.

(** The back end as the front end meets it: unreachable, or the limiter
    followed by the handler of [/scraped-schema/:step]. *)
Definition fetch_limited (reachable over_limit : bool) (cache : option Server.file_content)
  : awaited Response :=
  if reachable then
    if over_limit then Fulfilled too_many_requests else fetch_backend true cache
  else Rejected.

End Frontend.

(** ** The step-2 extractor ([scrape-step2.ts]) *)

Module ScrapeStep2.

Record validation : Type := {
  required : option bool;
  minLength : option Z;
  maxLength : option Z;
  pattern : option jsstring;
  helpText : option jsstring
}.

Record field : Type := {
  id : jsstring;
  name : jsstring;
  label : jsstring;
  placeholder : option jsstring;
  type : jsstring;
  validation_of : option validation
}.

Record schema_document : Type := {
  title : jsstring;
  step : Z;
  fields : list field
}.

Definition createFallback : schema_document :=
  {| title := str "Udyam Registration - Step 2 (PAN Validation)";
     step := 2;
     fields :=
       [ {| id := str "panNumber"; name := str "panNumber"; label := str "PAN Number";
            placeholder := Some (str "ABCDE1234F"); type := str "text";
            validation_of :=
              Some {| required := Some true; minLength := Some 10%Z; maxLength := Some 10%Z;
                      pattern := Some (str "^[A-Z]{5}[0-9]{4}[A-Z]{1}$");
                      helpText := Some (str "Format: [A-Z]{5}[0-9]{4}[A-Z]") |} |};
         {| id := str "pincode"; name := str "pincode"; label := str "PIN Code";
            placeholder := Some (str "6-digit PIN"); type := str "tel";
            validation_of :=
              Some {| required := None; minLength := Some 6%Z; maxLength := Some 6%Z;
                      pattern := Some (str "^[0-9]{6}$"); helpText := None |} |};
         {| id := str "state"; name := str "state"; label := str "State";
            placeholder := None; type := str "text"; validation_of := None |};
         {| id := str "city"; name := str "city"; label := str "City";
            placeholder := None; type := str "text"; validation_of := None |} ] |}.

(** The outcome of [document.querySelector(`label[for="${id}"]`)].  The
    selector is built from the id as it is, so the call throws where that
    text is not a valid selector (an id that holds a double quote);
    otherwise it returns [null] or the label, of which [innerText] is
    read. *)
Inductive label_query : Type :=
| InvalidSelector
| NoLabel
| Label (innerText : jsstring).

(** What the page evaluation reads of an [input] or [select] element. *)
Record element : Type := {
  tagName : jsstring;
  el_id : jsstring;                         (* el.id, empty when there is none *)
  el_type : jsstring;                       (* el.type, empty when falsy *)
  attr_name : option jsstring;              (* el.getAttribute("name") *)
  attr_placeholder : option jsstring;       (* el.getAttribute("placeholder") *)
  el_placeholder : jsstring;                (* el.placeholder, empty when falsy:
                                               a select has no such property *)
  has_required : bool;                      (* el.hasAttribute("required") *)
  el_maxLength : Z;                         (* el.maxLength *)
  el_pattern : jsstring;                    (* el.pattern, empty when falsy *)
  label_for : label_query;                  (* querySelector on label[for=id] *)
  previous : option (jsstring * jsstring)   (* tagName and innerText of the previous sibling *)
}.

(** [a || d] for an attribute value [a] that is a string or [null]. *)
Definition or_else (a : option jsstring) (d : jsstring) : jsstring :=
  match a with
  | Some s => if truthy_str s then s else d
  | None => d
  end.

Definition or_undefined (s : jsstring) : option jsstring :=
  if truthy_str s then Some s else None.

(** [getLabel(el)]; [None] when [querySelector] throws. *)
Definition getLabel (el : element) : option jsstring :=
  match (if truthy_str (el_id el) then label_for el else NoLabel) with
  | InvalidSelector => None
  | Label lab => Some (trim lab)
  | NoLabel =>
      Some match previous el with
           | Some (tag, txt) =>
               if bool_decide (tag = str "LABEL") then trim txt
               else or_else (attr_placeholder el) (or_else (attr_name el) (el_id el))
           | None => or_else (attr_placeholder el) (or_else (attr_name el) (el_id el))
           end
  end.

(** [Array.prototype.filter] with a callback that may throw: the callback
    runs on every element in order, and the first throw ends the call. *)
Fixpoint array_filter {A : Type} (keep : A -> option bool) (l : list A) : option (list A) :=
  match l with
  | [] => Some []
  | x :: l' =>
      b ← keep x;
      kept ← array_filter keep l';
      Some (if b : bool then x :: kept else kept)
  end.

Definition whitespaceRun : RegExp :=
  {| source := "\s+"; ast := plus (CharSet false [CSpace]);
     ignoreCase := false; global := true |}.

Section Evaluate.

(** [String.prototype.toLowerCase] and [Array.prototype.sort] are taken
    from the engine. *)
Variable toLowerCase : jsstring -> jsstring.
Variable sort : (field -> field -> Z) -> list field -> list field.

Definition slug (label : jsstring) : jsstring :=
  toLowerCase (replace whitespaceRun (str "_") label).

Definition toField (el : element) : option field :=
  label ← getLabel el;
  Some
  {| id := if truthy_str (el_id el) then el_id el else or_else (attr_name el) (slug label);
     name := or_else (attr_name el) (if truthy_str (el_id el) then el_id el else slug label);
     label := label;
     placeholder := or_undefined (or_else (attr_placeholder el) []);
     type := if truthy_str (el_type el) then el_type el
             else if bool_decide (tagName el = str "SELECT") then str "select" else str "text";
     validation_of :=
       Some {| required := Some (has_required el);
               minLength := None;
               maxLength := if (0 <? el_maxLength el)%Z then Some (el_maxLength el) else None;
               pattern := or_undefined (el_pattern el);
               helpText := None |} |}.

Definition panWord : RegExp :=
  {| source := "\bpan\b"; ast := Seq WordBoundary (Seq (lit "pan") WordBoundary);
     ignoreCase := false; global := false |}.

Definition pinCode : RegExp :=
  {| source := "pin\s*code|pincode";
     ast := Alt (Seq (lit "pin") (Seq (star (CharSet false [CSpace])) (lit "code")))
                (lit "pincode");
     ignoreCase := false; global := false |}.

Definition stateWord : RegExp :=
  {| source := "state"; ast := lit "state"; ignoreCase := false; global := false |}.

Definition cityOrDistrict : RegExp :=
  {| source := "city|district"; ast := Alt (lit "city") (lit "district");
     ignoreCase := false; global := false |}.

(** The keyword relevance filter. *)
Definition relevant (el : element) : option bool :=
  label ← getLabel el;
  let txt := toLowerCase (label ++ str " " ++ el_placeholder el) in
  Some (test panWord txt || test pinCode txt || test stateWord txt
        || test cityOrDistrict txt).

Fixpoint starts_with (sub s : jsstring) : bool :=
  match sub, s with
  | [], _ => true
  | a :: sub', b :: s' => (a =? b) && starts_with sub' s'
  | _ :: _, [] => false
  end.

Fixpoint includes (s sub : jsstring) : bool :=
  starts_with sub s || match s with [] => false | _ :: s' => includes s' sub end.

(** The comparator that moves PAN first. *)
Definition panFirst (a b : field) : Z :=
  if includes (toLowerCase (label a)) (str "pan") then (-1)%Z
  else if includes (toLowerCase (label b)) (str "pan") then 1%Z else 0%Z.

(** The body of [page.evaluate], on the elements selected by
    [querySelectorAll("input, select")]; [None] when it throws. *)
Definition evaluate (inputs : list element) : option (list field) :=
  kept ← array_filter relevant inputs;
  result ← mapM toField kept;
  Some (take 6 (sort panFirst result)).

(** [navigate]: the first [goto], and the second one if the first throws. *)
Definition navigate (first second : bool) : bool := first || second.

(** [run]: the document written to [schema/generated/step2.json], or
    [None] when navigation or the page evaluation throws and nothing is
    written. *)
Definition run (first second : bool) (inputs : list element) : option schema_document :=
  if navigate first second then
    fields ← evaluate inputs;
    Some (if (1 <=? length fields)%nat
          then {| title := str "Udyam Registration (scraped)"; step := 2; fields := fields |}
          else createFallback)
  else None.

End Evaluate.

(** An engine for examples: ASCII lower-casing and a stable insertion sort. *)
Definition ascii_toLowerCase (s : jsstring) : jsstring := map lower s.

Fixpoint insert_by (cmp : field -> field -> Z) (x : field) (l : list field) : list field :=
  match l with
  | [] => [x]
  | y :: l' => if (cmp x y <=? 0)%Z then x :: l else y :: insert_by cmp x l'
  end.

Definition insertion_sort (cmp : field -> field -> Z) (l : list field) : list field :=
  foldr (insert_by cmp) [] l.

End ScrapeStep2.

(** ** The step-1 extractor ([scrape.ts]) *)

Module ScrapeStep1.

Record validation : Type := {
  required : bool;
  maxLength : option Z;
  pattern : option jsstring
}.

Record field : Type := {
  id : jsstring;
  name : jsstring;
  label : jsstring;
  placeholder : option jsstring;
  type : jsstring;
  options : option (list Schema.FormOption);
  validation_of : validation
}.

Record schema_document : Type := {
  title : jsstring;
  step : Z;
  fields : list field
}.

(** What the page evaluation reads of an [input] or [select] element. *)
Record element : Type := {
  tagName : jsstring;
  el_id : jsstring;                         (* i.id, empty when there is none *)
  el_type : jsstring;                       (* i.type, empty when falsy *)
  attr_name : option jsstring;              (* i.getAttribute("name") *)
  attr_aria_label : option jsstring;        (* i.getAttribute("aria-label") *)
  attr_placeholder : option jsstring;       (* i.getAttribute("placeholder") *)
  has_required : bool;                      (* i.hasAttribute("required") *)
  el_maxLength : Z;                         (* i.maxLength *)
  el_pattern : jsstring;                    (* i.pattern, empty when falsy *)
  label_for : ScrapeStep2.label_query;      (* querySelector on label[for=id] *)
  previous : option (jsstring * jsstring);  (* tagName and innerText of the previous sibling *)
  el_options : list (jsstring * jsstring)   (* text and value of each of i.options *)
}.

(** [i.name]: the property reflects the attribute, empty when absent. *)
Definition el_name (i : element) : jsstring := default [] (attr_name i).

(** [getLabelFor(input)]; [None] when [querySelector] throws. *)
Definition getLabelFor (input : element) : option jsstring :=
  match (if truthy_str (el_id input) then label_for input else ScrapeStep2.NoLabel) with
  | ScrapeStep2.InvalidSelector => None
  | ScrapeStep2.Label lbl => Some (trim lbl)
  | ScrapeStep2.NoLabel =>
      let attrs :=
        ScrapeStep2.or_else (attr_aria_label input)
          (ScrapeStep2.or_else (attr_placeholder input)
             (ScrapeStep2.or_else (attr_name input) (el_id input))) in
      Some match previous input with
           | Some (tag, txt) => if bool_decide (tag = str "LABEL") then trim txt else attrs
           | None => attrs
           end
  end.

(** The types left out: [["hidden", "submit", "button", "image"]]. *)
Definition skipped_types : list jsstring :=
  [str "hidden"; str "submit"; str "button"; str "image"].

Definition kept (i : element) : bool := negb (bool_decide (el_type i ∈ skipped_types)).

(** [navigateWithRetry(page, url, attempts)]: [goto i] tells whether the
    [i]-th call of [page.goto] returns; the result tells whether the
    function returns ([true]) or throws the last error ([false]). *)
Fixpoint retry_from (goto : nat -> bool) (attempts i remaining : nat) : bool :=
  match remaining with
  | O => true
  | S remaining' =>
      if goto i then true
      else if (i =? attempts - 1)%nat then false
      else retry_from goto attempts (S i) remaining'
  end.

Definition navigateWithRetry (goto : nat -> bool) (attempts : nat) : bool :=
  retry_from goto attempts 0 attempts.

Section Evaluate.

Variable toLowerCase : jsstring -> jsstring.

Definition slug (label : jsstring) : jsstring :=
  toLowerCase (replace ScrapeStep2.whitespaceRun (str "_") label).

Definition mapped (i : element) : option field :=
  label ← getLabelFor i;
  let opt :=
    if bool_decide (tagName i = str "SELECT")
    then Some (map (fun o => {| Schema.opt_label := o.1; Schema.opt_value := o.2 |})
                 (el_options i))
    else None in
  Some
  {| id := if truthy_str (el_id i) then el_id i
           else if truthy_str (el_name i) then el_name i else slug label;
     name := ScrapeStep2.or_else (attr_name i)
               (if truthy_str (el_id i) then el_id i else slug label);
     label := label;
     placeholder := ScrapeStep2.or_undefined (ScrapeStep2.or_else (attr_placeholder i) []);
     type := if truthy_str (el_type i) then el_type i
             else if bool_decide (tagName i = str "SELECT") then str "select" else str "text";
     options := opt;
     validation_of :=
       {| required := has_required i;
          maxLength := if (0 <? el_maxLength i)%Z then Some (el_maxLength i) else None;
          pattern := ScrapeStep2.or_undefined (el_pattern i) |} |}.

(** The body of [page.evaluate], on the elements selected by
    [querySelectorAll("input, select")]; [None] when it throws. *)
Definition evaluate (all : list element) : option (list field) :=
  let inputs := filter (fun i => kept i = true) all in
  mapM mapped (take 20 inputs).

(** [run]: the document written to [schema/generated/step1.json], or
    [None] when navigation or the page evaluation throws and nothing is
    written. *)
Definition run (goto : nat -> bool) (all : list element) : option schema_document :=
  if navigateWithRetry goto 2 then
    fields ← evaluate all;
    Some {| title := str "Udyam Registration (scraped)"; step := 1; fields := fields |}
  else None.

End Evaluate.

End ScrapeStep1.

(** ** The form page ([page.tsx]) *)

Module Page.

(** What the form hands to [onChange]: [e.target.value] of a text input or
    [e.target.checked] of a checkbox. *)
Inductive input_value : Type :=
| Text (s : jsstring)
| Checked (b : bool).

Definition to_value (v : input_value) : value :=
  match v with Text s => VStr s | Checked b => VBool b end.

(** The component state read and written by the handlers. *)
Record state : Type := {
  values : gmap jsstring value;
  fieldErrors : gmap jsstring jsstring;
  error : value;                            (* a string or [null] *)
  message : value;                          (* a string or [null] *)
  loading : bool
}.

Definition set_values (f : gmap jsstring value -> gmap jsstring value) (st : state) : state :=
  {| values := f (values st); fieldErrors := fieldErrors st; error := error st;
     message := message st; loading := loading st |}.

Definition set_fieldErrors (f : gmap jsstring jsstring -> gmap jsstring jsstring)
  (st : state) : state :=
  {| values := values st; fieldErrors := f (fieldErrors st); error := error st;
     message := message st; loading := loading st |}.

Definition set_error (e : value) (st : state) : state :=
  {| values := values st; fieldErrors := fieldErrors st; error := e;
     message := message st; loading := loading st |}.

Definition set_message (m : value) (st : state) : state :=
  {| values := values st; fieldErrors := fieldErrors st; error := error st;
     message := m; loading := loading st |}.

Definition set_loading (b : bool) (st : state) : state :=
  {| values := values st; fieldErrors := fieldErrors st; error := error st;
     message := message st; loading := b |}.

(** The property names every object inherits from [Object.prototype]; all
    of them are truthy. *)
Definition object_prototype_names : list jsstring :=
  [ str "constructor"; str "hasOwnProperty"; str "isPrototypeOf";
    str "propertyIsEnumerable"; str "toLocaleString"; str "toString"; str "valueOf";
    str "__proto__"; str "__defineGetter__"; str "__defineSetter__";
    str "__lookupGetter__"; str "__lookupSetter__" ].

(** Truthiness of [fieldErrors[name]]. *)
Definition has_field_error (errors : gmap jsstring jsstring) (name : jsstring) : bool :=
  match errors !! name with
  | Some m => truthy_str m
  | None => bool_decide (name ∈ object_prototype_names)
  end.

(** [name === 'consent' ? value : value && value.length > 0]. *)
Definition filled (name : jsstring) (v : input_value) : bool :=
  if bool_decide (name = str "consent") then Server.truthy (to_value v)
  else match v with
       | Text s => truthy_str s && (0 <? length s)%nat
       | Checked _ => false                (* [undefined > 0] *)
       end.

Definition aadhaarStart : RegExp :=
  {| source := "^[2-9]"; ast := Seq AssertStart (CharSet false [CRange 50 57]);
     ignoreCase := false; global := false |}.

(** The real-time Aadhaar check, on a truthy [value]. *)
Definition check_aadhaar (name : jsstring) (v : input_value) (st : state) : state :=
  match v with
  | Text s =>
      if (0 <? length s)%nat && negb (length s =? 12)%nat then
        set_fieldErrors <[name := str "Aadhaar number must be exactly 12 digits"]> st
      else if (length s =? 12)%nat && negb (test aadhaarStart s) then
        set_fieldErrors <[name := str "Aadhaar number must start with 2-9"]> st
      else if (length s =? 12)%nat && test aadhaarRegex s then
        set_fieldErrors <[name := []]> st
      else st
  | Checked _ => st                         (* [value.length] is [undefined] *)
  end.

(** The real-time PAN check, on a truthy [value]. *)
Definition check_pan (name : jsstring) (v : input_value) (st : state) : state :=
  match v with
  | Text s =>
      if (0 <? length s)%nat && negb (length s =? 10)%nat then
        set_fieldErrors <[name := str "PAN must be exactly 10 characters"]> st
      else if (length s =? 10)%nat && negb (test panRegex s) then
        set_fieldErrors <[name := str "Invalid PAN format. Expected: ABCDE1234F"]> st
      else if (length s =? 10)%nat && test panRegex s then
        set_fieldErrors <[name := []]> st
      else st
  | Checked _ => st
  end.

(** [onChange(name, value)], up to the pincode lookup it may start.  The
    guards read [fieldErrors] and [error] of the render the handler belongs
    to; the updates apply in order. *)
Definition onChange (name : jsstring) (v : input_value) (st : state) : state :=
  let st1 := set_values <[name := to_value v]> st in
  let st2 :=
    if has_field_error (fieldErrors st) name
    then set_fieldErrors <[name := []]> st1 else st1 in
  let st3 :=
    if Server.truthy (error st)
       && (bool_decide (name = str "aadhaarNumber")
           || bool_decide (name = str "entrepreneurName")
           || bool_decide (name = str "consent"))
       && filled name v
    then set_error VNull st2 else st2 in
  let st4 :=
    if bool_decide (name = str "aadhaarNumber") && Server.truthy (to_value v)
    then check_aadhaar name v st3 else st3 in
  if bool_decide (name = str "panNumber") && Server.truthy (to_value v)
  then check_pan name v st4 else st4.

(** The pincode whose post office [onChange] looks up, if any. *)
Definition pincode_lookup (name : jsstring) (v : input_value) : option jsstring :=
  match v with
  | Text s =>
      if bool_decide (name = str "pincode") && truthy_str s && (length s =? 6)%nat
      then Some s else None
  | Checked _ => None
  end.

(** [v?.[0]] and [v?.key] for a key that no prototype defines. *)
Definition first_of (v : value) : value :=
  match v with
  | VArr (x :: _) => x
  | VStr (c :: _) => VStr [c]
  | VObj o => get o (str "0")
  | _ => VUndefined
  end.

Definition member (v : value) (key : jsstring) : value :=
  match v with VObj o => get o key | _ => VUndefined end.

Definition or_value (a b : value) : value := if Server.truthy a then a else b.

(** The continuation of the pincode lookup: [data] is what [r.json()]
    resolves to, [Rejected] a failed request or a body that is not JSON. *)
Definition autofill (data : Frontend.awaited value) (st : state) : state :=
  match data with
  | Frontend.Rejected => st
  | Frontend.Fulfilled data =>
      let post := first_of data in
      let office := first_of (member post (str "PostOffice")) in
      if Server.truthy office then
        set_values
          (fun v =>
             <[str "city" := or_value (member office (str "District")) (get v (str "city"))]>
               (<[str "state" := or_value (member office (str "State")) (get v (str "state"))]>
                  v))
          st
      else st
  end.

(** The [Response] of a request to the [/api] routes. *)
Record ApiResponse : Type := {
  api_ok : bool;
  api_json : Frontend.awaited value
}.

(** [errorData.key || fallback]; [None] when reading the property throws
    ([errorData] is [null]). *)
Definition member_or (errorData : value) (key : jsstring) (fallback : jsstring)
  : option value :=
  match errorData with
  | VUndefined | VNull => None
  | _ => Some (or_value (member errorData key) (VStr fallback))
  end.

(** [v.length !== n]. *)
Definition length_differs (v : value) (n : nat) : bool :=
  match v with
  | VStr s => negb (length s =? n)%nat
  | VArr l => negb (length l =? n)%nat
  | VObj o => match get o (str "length") with
              | VNum k => negb (k =? Z.of_nat n)%Z
              | _ => true
              end
  | _ => true
  end.

(** What a handler's [try] block yields: the state on [return], or a
    thrown error. *)
Definition finish (fallback : jsstring) (st0 : state) (r : option state) : state :=
  set_loading false
    (match r with
     | Some st => st
     | None => set_error (VStr fallback) st0
     end).

(** [await response.json()] followed by [setError(data.error || fallback)]. *)
Definition report (r : ApiResponse) (fallback : jsstring) (st : state) : option state :=
  match api_json r with
  | Frontend.Rejected => None
  | Frontend.Fulfilled errorData =>
      match member_or errorData (str "error") fallback with
      | Some e => Some (set_error e st)
      | None => None
      end
  end.

(** [validateAndNext()], given the outcomes of the two requests it may
    send. *)
Definition validateAndNext (aadhaarResponse otpResponse : Frontend.awaited ApiResponse)
  (st : state) : state :=
  let st0 := set_loading true (set_error VNull st) in
  let v := values st in
  finish (str "Network error during validation. Please try again.") st0
    (if negb (Server.truthy (get v (str "aadhaarNumber")))
        || negb (Server.truthy (get v (str "entrepreneurName")))
        || negb (Server.truthy (get v (str "consent")))
     then Some (set_error
                  (VStr (str "Please fill in all required fields and check the consent checkbox"))
                  st0)
     else
       match aadhaarResponse with
       | Frontend.Rejected => None
       | Frontend.Fulfilled aadhaarResponse =>
           if negb (api_ok aadhaarResponse)
           then report aadhaarResponse (str "Invalid Aadhaar format") st0
           else if Server.truthy (get v (str "otp")) then
             if length_differs (get v (str "otp")) 6
             then Some (set_error (VStr (str "OTP must be exactly 6 digits")) st0)
             else
               match otpResponse with
               | Frontend.Rejected => None
               | Frontend.Fulfilled otpResponse =>
                   if negb (api_ok otpResponse)
                   then report otpResponse (str "Invalid OTP format") st0
                   else
                     Some (set_message
                             (VStr (str "Your Aadhaar has been successfully verified. You can continue Pan Verification process."))
                             (set_values <[str "otpVerified" := VBool true]> st0))
               end
           else
             Some (set_message
                     (VStr (str "OTP has been sent to your registered mobile number. Please enter the 6-digit OTP."))
                     (set_values <[str "showOtpField" := VBool true]> st0))
       end).

(** The fields [submitForm] requires. *)
Definition pan_section : list jsstring :=
  [ str "organisationType"; str "panNumber"; str "panHolderName"; str "dob";
    str "panConsent"; str "pincode"; str "state"; str "city" ].

(** [submitForm()], given the outcomes of the two requests it may send. *)
Definition submitForm (panResponse response : Frontend.awaited ApiResponse)
  (st : state) : state :=
  let st0 := set_error VNull (set_loading true st) in
  let v := values st in
  finish (str "Network error during submission. Please try again.") st0
    (if existsb (fun key => negb (Server.truthy (get v key))) pan_section
     then Some (set_error
                  (VStr (str "Please fill in all required fields in PAN verification section"))
                  st0)
     else
       match panResponse with
       | Frontend.Rejected => None
       | Frontend.Fulfilled panResponse =>
           if negb (api_ok panResponse)
           then report panResponse (str "Invalid PAN format") st0
           else
             match response with
             | Frontend.Rejected => None
             | Frontend.Fulfilled response =>
                 match api_json response with
                 | Frontend.Rejected => None
                 | Frontend.Fulfilled result =>
                     if negb (api_ok response)
                     then option_map (fun e => set_error e st0)
                            (member_or result (str "error") (str "Submission failed"))
                     else option_map (fun m => set_message m st0)
                            (member_or result (str "message")
                               (str "Udyam registration submitted successfully!"))
                 end
             end
       end).

End Page.

(** ** Records and readings used by the properties *)

Module Fixtures.

(** The thirteen fields of a submission record, in declaration order. *)
Definition submission_fields : list jsstring :=
  [ str "aadhaarNumber"; str "entrepreneurName"; str "consent"; str "otp";
    str "otpVerified"; str "organisationType"; str "panNumber"; str "panHolderName";
    str "dob"; str "panConsent"; str "pincode"; str "state"; str "city" ].

(** The fully valid payload of the end-to-end property. *)
Definition example_submission : gmap jsstring value :=
  list_to_map
    [ (str "aadhaarNumber", VStr (str "234567890123"));
      (str "entrepreneurName", VStr (str "A"));
      (str "consent", VBool true);
      (str "otp", VStr (str "123456"));
      (str "otpVerified", VBool true);
      (str "organisationType", VStr (str "proprietary"));
      (str "panNumber", VStr (str "ABCDE1234F"));
      (str "panHolderName", VStr (str "A"));
      (str "dob", VStr (str "1990-01-01"));
      (str "panConsent", VBool true);
      (str "pincode", VStr (str "560011"));
      (str "state", VStr (str "Karnataka"));
      (str "city", VStr (str "Bangalore")) ].

(** The issues one declared field raises on a record. *)
Definition field_issues (data : gmap jsstring value) (key : jsstring) (sch : schema)
  : list issue :=
  issues (parse sch [key] (get data key)).

(** The entry reported for a consent flag that is not [true]: the refinement
    message for [false], zod's type error otherwise ([Required] when the
    flag is absent). *)
Definition consent_issue (data : gmap jsstring value) : issue :=
  match get data (str "consent") with
  | VBool _ =>
      {| code := custom; path := [str "consent"]; message := str "Consent is required" |}
  | v => invalid_type_issue [str "consent"] (str "boolean") v
  end.

(** A response that accepts the submission: stored, or acknowledged as not
    stored. *)
Definition accepted (r : Server.response) : bool :=
  match Server.json r with
  | Server.NotStored _ _ _ | Server.StoredOk _ _ _ => true
  | _ => false
  end.

(** A sink whose [create] throws. *)
Definition failing_client : Server.PrismaClient :=
  {| Server.create := fun _ => Server.CreateThrows (Some (str "Can't reach database server")) |}.

(** A sink that stores the row under a fixed identifier. *)
Definition storing_client : Server.PrismaClient :=
  {| Server.create := fun row => Server.Saved (<[str "id" := VStr (str "test-id-123")]> row) |}.

(** The valid payload with markup in the entrepreneur name. *)
Definition script_submission : gmap jsstring value :=
  <[str "entrepreneurName" := VStr (str "<script>alert(1)</script>John")]> example_submission.

End Fixtures.

Import Fixtures.

(** ** Further readings used by the properties *)

Module Readings.

(** A row as the submission endpoint builds it from well-formed values: the
    thirteen fields and the status marker. *)
Definition submission_row (aadhaar name otp org pan holder dob pincode state city : jsstring)
  : gmap jsstring value :=
  list_to_map
    [ (str "aadhaarNumber", VStr aadhaar);
      (str "entrepreneurName", VStr name);
      (str "consent", VBool true);
      (str "otp", VStr otp);
      (str "otpVerified", VBool true);
      (str "organisationType", VStr org);
      (str "panNumber", VStr pan);
      (str "panHolderName", VStr holder);
      (str "dob", VStr dob);
      (str "panConsent", VBool true);
      (str "pincode", VStr pincode);
      (str "state", VStr state);
      (str "city", VStr city);
      (str "status", VStr (str "pending")) ].

Definition well_formed_row (row : gmap jsstring value) : Prop :=
  exists aadhaar name otp org pan holder dob pincode state city,
    row = submission_row aadhaar name otp org pan holder dob pincode state city
    /\ aadhaar_format aadhaar = true /\ six_digit_format otp = true
    /\ pan_format pan = true /\ six_digit_format pincode = true
    /\ name <> [] /\ org <> [] /\ holder <> [] /\ dob <> [] /\ state <> [] /\ city <> [].

(** The issue of a name longer than a hundred code units. *)
Definition name_too_long (key : jsstring) (s : jsstring) : list issue :=
  if (100 <? length s)%nat
  then [{| code := too_big; path := [key]; message := str "Name too long" |}]
  else [].

(** The valid payload with an entrepreneur name of 101 code units. *)
Definition long_name_submission : gmap jsstring value :=
  <[str "entrepreneurName" := VStr (repeat 65 101)]> example_submission.

(** An input of the page labelled as the PAN field. *)
Definition pan_input : ScrapeStep2.element :=
  {| ScrapeStep2.tagName := str "INPUT"; ScrapeStep2.el_id := str "txtPan";
     ScrapeStep2.el_type := str "text"; ScrapeStep2.attr_name := Some (str "pan");
     ScrapeStep2.attr_placeholder := Some (str "Enter PAN");
     ScrapeStep2.el_placeholder := str "Enter PAN";
     ScrapeStep2.has_required := true; ScrapeStep2.el_maxLength := 10;
     ScrapeStep2.el_pattern := [];
     ScrapeStep2.label_for := ScrapeStep2.Label (str "PAN Number");
     ScrapeStep2.previous := None |}.

(** A labelled select whose only keyword sits in its placeholder attribute;
    a select has no [placeholder] property. *)
Definition region_select : ScrapeStep2.element :=
  {| ScrapeStep2.tagName := str "SELECT"; ScrapeStep2.el_id := str "ddlRegion";
     ScrapeStep2.el_type := str "select-one"; ScrapeStep2.attr_name := Some (str "region");
     ScrapeStep2.attr_placeholder := Some (str "Select State");
     ScrapeStep2.el_placeholder := [];
     ScrapeStep2.has_required := false; ScrapeStep2.el_maxLength := 0;
     ScrapeStep2.el_pattern := [];
     ScrapeStep2.label_for := ScrapeStep2.Label (str "Region");
     ScrapeStep2.previous := None |}.





(** A request of the page that was answered, with an ok status. *)
Definition answered_ok (r : Frontend.awaited Page.ApiResponse) : bool :=
  match r with
  | Frontend.Fulfilled r' => Page.api_ok r'
  | Frontend.Rejected => false
  end.

End Readings.

Import Readings.

(** Closes goals [c ∉ s] for a literal text [s]. *)
Ltac absent :=
  let Hin := fresh "Hin" in
  intros Hin; apply list_elem_of_In in Hin; vm_compute in Hin; intuition discriminate.

(** * Properties *)

(** ** Regular expressions *)

Section RegexFacts.

Variable ic : bool.

Lemma rep_loop_exact_class neg items k n : forall fuel x,
  (n < fuel)%nat ->
  rep_loop (matcher ic (CharSet neg items)) k fuel n (Some n) x
  = match take_class ic neg items n x with Some y => k y | None => None end.
Proof.
  induction n as [|n IH]; intros fuel x Hlt.
  - destruct fuel; [lia | reflexivity].
  - destruct fuel as [|fuel]; [lia |].
    cbn [rep_loop take_class matcher Nat.eqb Nat.pred option_map andb].
    destruct (after x) as [|ch rest]; [reflexivity |].
    destruct (set_matches ic neg items ch); [| reflexivity].
    apply IH. lia.
Qed.

Lemma matcher_exactly neg items n x k :
  matcher ic (exactly n (CharSet neg items)) x k
  = match take_class ic neg items n x with Some y => k y | None => None end.
Proof.
  unfold exactly. cbn [matcher]. apply rep_loop_exact_class. lia.
Qed.

Lemma take_class_spec neg items n : forall x,
  take_class ic neg items n x
  = if (n <=? length (after x))%nat && forallb (set_matches ic neg items) (take n (after x))
    then Some (MPos (rev (take n (after x)) ++ before x) (drop n (after x)))
    else None.
Proof.
  induction n as [|n IH]; intros [bef aft]; cbn [take_class after before].
  - reflexivity.
  - destruct aft as [|ch rest]; [reflexivity |].
    cbn [take drop forallb length].
    destruct (set_matches ic neg items ch); [| now rewrite andb_false_r].
    rewrite IH. cbn [after before advance andb].
    change (S n <=? S (length rest))%nat with (n <=? length rest)%nat.
    destruct ((n <=? length rest)%nat && forallb (set_matches ic neg items) (take n rest));
      [| reflexivity].
    cbn [rev]. now rewrite <- app_assoc.
Qed.

(** *** The fuel of the quantifier loop is enough *)

Lemma rep_loop_ext m k k' :
  local_matcher m ->
  forall fuel min max x,
    (forall y, (length (after y) <= length (after x))%nat -> k y = k' y) ->
    rep_loop m k fuel min max x = rep_loop m k' fuel min max x.
Proof.
  intros Hm. induction fuel as [|fuel IH]; intros min max x Hk; [reflexivity |].
  cbn [rep_loop].
  assert (Hd : m x (fun y : mpos =>
                      if Nat.eqb min 0 && Nat.eqb (length (after y)) (length (after x))
                      then None
                      else rep_loop m k fuel (Nat.pred min) (option_map Nat.pred max) y)
               = m x (fun y : mpos =>
                      if Nat.eqb min 0 && Nat.eqb (length (after y)) (length (after x))
                      then None
                      else rep_loop m k' fuel (Nat.pred min) (option_map Nat.pred max) y)).
  { apply Hm. intros y Hy.
    destruct (Nat.eqb min 0 && Nat.eqb (length (after y)) (length (after x)));
      [reflexivity |].
    apply IH. intros z Hz. apply Hk. lia. }
  rewrite Hd, (Hk x (le_n _)). reflexivity.
Qed.

Lemma matcher_local r : local_matcher (matcher ic r).
Proof.
  induction r as [| c | neg items | | | | a IHa b IHb | a IHa b IHb | min max r IH | r IH];
    intros x k k' Hk; cbn [matcher].
  - apply Hk. lia.
  - destruct x as [bef [|ch rest]]; cbn [after]; [reflexivity |].
    destruct (canonicalize ic ch =? canonicalize ic c); [| reflexivity].
    apply Hk. cbn. lia.
  - destruct x as [bef [|ch rest]]; cbn [after]; [reflexivity |].
    destruct (set_matches ic neg items ch); [| reflexivity].
    apply Hk. cbn. lia.
  - destruct (before x); [apply Hk; lia | reflexivity].
  - destruct (after x) eqn:Ha; [apply Hk; rewrite Ha; cbn; lia | reflexivity].
  - destruct (xorb _ _); [apply Hk; lia | reflexivity].
  - apply IHa. intros y Hy. apply IHb. intros z Hz. apply Hk. lia.
  - rewrite (IHa x k k' Hk), (IHb x k k' Hk). reflexivity.
  - now apply rep_loop_ext.
  - rewrite (Hk x (le_n _)). reflexivity.
Qed.

(** Any fuel above [min] plus the remaining length gives the same result:
    the loop never runs out. *)
Lemma rep_loop_fuel m k :
  local_matcher m ->
  forall fuel1 fuel2 min max x,
    (min + length (after x) < fuel1)%nat ->
    (min + length (after x) < fuel2)%nat ->
    rep_loop m k fuel1 min max x = rep_loop m k fuel2 min max x.
Proof.
  intros Hm. induction fuel1 as [|fuel1 IH]; intros fuel2 min max x H1 H2; [lia |].
  destruct fuel2 as [|fuel2]; [lia |].
  cbn [rep_loop].
  assert (Hd : m x (fun y : mpos =>
                      if Nat.eqb min 0 && Nat.eqb (length (after y)) (length (after x))
                      then None
                      else rep_loop m k fuel1 (Nat.pred min) (option_map Nat.pred max) y)
               = m x (fun y : mpos =>
                      if Nat.eqb min 0 && Nat.eqb (length (after y)) (length (after x))
                      then None
                      else rep_loop m k fuel2 (Nat.pred min) (option_map Nat.pred max) y)).
  { apply Hm. intros y Hy.
    destruct (Nat.eqb min 0 && Nat.eqb (length (after y)) (length (after x))) eqn:Hstay;
      [reflexivity |].
    apply andb_false_iff in Hstay as [Hmin | Hlen].
    - apply Nat.eqb_neq in Hmin. apply IH; lia.
    - apply Nat.eqb_neq in Hlen. apply IH; lia. }
  rewrite Hd. reflexivity.
Qed.

Lemma matcher_Rep_fuel min max r x k fuel :
  (min + length (after x) < fuel)%nat ->
  matcher ic (Rep min max r) x k = rep_loop (matcher ic r) k fuel min max x.
Proof.
  intros Hfuel. cbn [matcher]. apply rep_loop_fuel; [apply matcher_local | lia | exact Hfuel].
Qed.

(** A pattern that starts with [^] matches at the start of the input only. *)
Lemma search_anchored re r : ast re = Seq AssertStart r ->
  forall aft bef, bef <> [] -> search re bef aft = None.
Proof.
  intros Hre. induction aft as [|c aft IH]; intros bef Hbef;
    cbn [search]; unfold exec_at; rewrite Hre; cbn [matcher before];
    destruct bef as [|b bef]; try congruence.
  apply IH. discriminate.
Qed.

Lemma test_anchored re r s : ast re = Seq AssertStart r ->
  test re s = match matcher (ignoreCase re) r (MPos [] s) Some with
              | Some _ => true | None => false end.
Proof.
  intros Hre. unfold test. destruct s as [|c s]; cbn [search]; unfold exec_at;
    rewrite Hre; cbn [matcher before].
  - now destruct (matcher (ignoreCase re) r (MPos [] []) Some).
  - destruct (matcher (ignoreCase re) r (MPos [] (c :: s)) Some); [reflexivity |].
    now rewrite (search_anchored re r Hre).
Qed.

End RegexFacts.

Lemma set_matches_range lo hi c :
  set_matches false false [CRange lo hi] c = in_range lo hi c.
Proof.
  unfold set_matches. cbn. now rewrite !orb_false_r.
Qed.

Lemma forallb_ext_in_range lo hi (P : N -> bool) l :
  (forall c, P c = in_range lo hi c) ->
  forallb (set_matches false false [CRange lo hi]) l = forallb P l.
Proof.
  intros HP. induction l as [|c l IH]; [reflexivity |].
  cbn [forallb]. now rewrite set_matches_range, HP, IH.
Qed.

Lemma aadhaarRegex_format s : test aadhaarRegex s = aadhaar_format s.
Proof.
  rewrite (test_anchored aadhaarRegex _ s eq_refl).
  cbn [ignoreCase aadhaarRegex matcher after].
  unfold aadhaar_format.
  destruct s as [|c s]; [reflexivity |].
  rewrite set_matches_range. unfold in_range, digit.
  cbn [length forallb].
  destruct ((50 <=? c) && (c <=? 57)) eqn:Hc;
    [| now rewrite andb_false_r].
  rewrite matcher_exactly, take_class_spec. cbn [advance after before].
  rewrite (forallb_ext_in_range 48 57 is_digit) by reflexivity.
  assert (Hd : is_digit c = true).
  { unfold is_digit. apply andb_true_iff in Hc as [H1 H2].
    apply N.leb_le in H1. apply N.leb_le in H2.
    apply andb_true_iff; split; apply N.leb_le; lia. }
  rewrite Hd, andb_true_r. cbn [andb].
  change (S (length s) =? 12)%nat with (length s =? 11)%nat.
  destruct (length s =? 11)%nat eqn:Hlen.
  - apply Nat.eqb_eq in Hlen.
    rewrite take_ge, drop_ge by lia.
    replace (11 <=? length s)%nat with true by (symmetry; apply Nat.leb_le; lia).
    cbn [andb]. now destruct (forallb is_digit s).
  - apply Nat.eqb_neq in Hlen. cbn [andb].
    destruct (11 <=? length s)%nat eqn:Hle; [| reflexivity].
    apply Nat.leb_le in Hle. cbn [andb].
    destruct (forallb is_digit (take 11 s)); [| reflexivity].
    cbn [matcher after].
    destruct (drop 11 s) eqn:Hdrop; [| reflexivity].
    apply (f_equal length) in Hdrop. rewrite length_drop in Hdrop. cbn in Hdrop. lia.
Qed.

Lemma panRegex_format s : test panRegex s = pan_format s.
Proof.
  rewrite (test_anchored panRegex _ s eq_refl).
  cbn [ignoreCase panRegex matcher]. unfold upper_letter, digit, pan_format.
  rewrite matcher_exactly, take_class_spec. cbn [after before].
  rewrite (forallb_ext_in_range 65 90 is_upper) by reflexivity.
  destruct (length s =? 10)%nat eqn:Hlen.
  - apply Nat.eqb_eq in Hlen.
    replace (5 <=? length s)%nat with true by (symmetry; apply Nat.leb_le; lia).
    cbn [andb]. destruct (forallb is_upper (take 5 s)); [| reflexivity].
    rewrite matcher_exactly, take_class_spec. cbn [after before].
    rewrite (forallb_ext_in_range 48 57 is_digit) by reflexivity.
    replace (4 <=? length (drop 5 s))%nat with true
      by (symmetry; apply Nat.leb_le; rewrite length_drop; lia).
    cbn [andb]. destruct (forallb is_digit (take 4 (drop 5 s))); [| reflexivity].
    rewrite matcher_exactly, take_class_spec. cbn [after before].
    rewrite (forallb_ext_in_range 65 90 is_upper) by reflexivity.
    rewrite drop_drop. change (5 + 4)%nat with 9%nat.
    replace (1 <=? length (drop 9 s))%nat with true
      by (symmetry; apply Nat.leb_le; rewrite length_drop; lia).
    rewrite (take_ge (drop 9 s)) by (rewrite length_drop; lia).
    cbn [andb]. destruct (forallb is_upper (drop 9 s)); [| reflexivity].
    cbn [matcher after]. rewrite drop_drop, drop_ge by lia. reflexivity.
  - apply Nat.eqb_neq in Hlen. cbn [andb].
    destruct ((5 <=? length s)%nat && forallb is_upper (take 5 s)) eqn:H1; [| reflexivity].
    rewrite matcher_exactly, take_class_spec. cbn [after before].
    destruct ((4 <=? length (drop 5 s))%nat && _) eqn:H2; [| reflexivity].
    rewrite matcher_exactly, take_class_spec. cbn [after before].
    destruct ((1 <=? length (drop 4 (drop 5 s)))%nat && _) eqn:H3; [| reflexivity].
    cbn [matcher after].
    destruct (drop 1 (drop 4 (drop 5 s))) eqn:Hend; [| reflexivity].
    apply andb_true_iff in H1 as [H1 _]. apply Nat.leb_le in H1.
    apply (f_equal length) in Hend. rewrite !length_drop in Hend. cbn in Hend.
    apply andb_true_iff in H2 as [H2 _]. apply Nat.leb_le in H2.
    apply andb_true_iff in H3 as [H3 _]. apply Nat.leb_le in H3.
    rewrite !length_drop in *. lia.
Qed.

(** ** Single-field validators *)

Lemma validate_field_string key re msg s :
  validate_field [(key, ZString [CkRegex re msg])] key (VStr s)
  = if test re s
    then Valid (VObj (final_object
                        [(key, {| issues := []; output := Some (VStr s) |}, true)]))
    else Invalid msg None.
Proof.
  unfold validate_field, safeParse, parse_object, parse_pairs, get, has.
  cbn [map]. rewrite lookup_singleton_eq.
  cbn -[test final_object].
  destruct (test re s); reflexivity.
Qed.

(** C1. [validateAadhaar(s)] is valid exactly when [s] is twelve digits of
    which the first is 2-9; every other string, the empty one included, is
    invalid. *)
Theorem validateAadhaar_valid_iff_format (s : jsstring) :
  valid (validateAadhaar (VStr s)) = aadhaar_format s.
Proof.
  unfold validateAadhaar, aadhaarSchema.
  rewrite validate_field_string, <- aadhaarRegex_format.
  now destruct (test aadhaarRegex s).
Qed.

(** C9. A non-empty string that does not have the PAN format does not match
    the PAN pattern and is rejected by [validatePAN] with the message that
    names the expected format; the endpoint answers 400 with that message. *)
Theorem validatePAN_mismatch_message (s : jsstring) :
  s <> [] ->
  pan_format s = false ->
  test panRegex s = false
  /\ validatePAN (VStr s)
     = Invalid (str "Invalid PAN format. Expected: ABCDE1234F") None
  /\ Server.validate_pan {[ str "panNumber" := VStr s ]}
     = {| Server.status := 400;
          Server.json := Server.FieldError false
                           (str "Invalid PAN format. Expected: ABCDE1234F") |}.
Proof.
  intros Hne Hfmt. rewrite <- panRegex_format in Hfmt. split; [exact Hfmt |].
  assert (Hv : validatePAN (VStr s)
               = Invalid (str "Invalid PAN format. Expected: ABCDE1234F") None).
  { unfold validatePAN, panSchema. now rewrite validate_field_string, Hfmt. }
  split; [exact Hv |].
  unfold Server.validate_pan, get. rewrite lookup_singleton_eq.
  cbn [default from_option id]. rewrite Hv.
  destruct s; [congruence | reflexivity].
Qed.

Lemma validatePAN_mismatch_message_witness :
  validatePAN (VStr (str "ABCD1234EF"))
  = Invalid (str "Invalid PAN format. Expected: ABCDE1234F") None.
Proof.
  apply (validatePAN_mismatch_message (str "ABCD1234EF")); [discriminate | reflexivity].
Defined.

(** ** Object schemas *)

Lemma issues_parse_object (sh : shape) (p : list jsstring) data :
  issues (parse_object sh p (VObj data))
  = flat_map (fun '(key, sch) => issues (parse sch (p ++ [key]) (get data key))) sh.
Proof.
  unfold parse_object, parse_pairs. cbn [issues].
  induction sh as [|[key sch] sh IH]; [reflexivity |].
  cbn [map flat_map]. now rewrite IH.
Qed.

(** Every issue raised for a value carries the path it was parsed at. *)
Lemma parse_path sch : forall p v i, In i (issues (parse sch p v)) -> path i = p.
Proof.
  induction sch as [checks | | inner IH pred msg]; intros p v i Hin.
  - destruct v; cbn in Hin; try (destruct Hin as [<- | []]; reflexivity).
    apply in_flat_map in Hin as (c & _ & Hc).
    destruct c; cbn in Hc;
      match type of Hc with In _ (if ?b then _ else _) => destruct b end;
      cbn in Hc; try contradiction; destruct Hc as [<- | []]; reflexivity.
  - destruct v; cbn in Hin; try (destruct Hin as [<- | []]; reflexivity).
    destruct Hin.
  - cbn [parse] in Hin.
    destruct (output (parse inner p v)) as [out|] eqn:Hout; [| now apply IH in Hin].
    destruct (pred out); [now apply IH in Hin |].
    cbn [issues] in Hin. apply in_app_or in Hin as [Hin | [<- | []]];
      [now apply IH in Hin | reflexivity].
Qed.

(** A value that raises no issue is returned as it is, and is defined. *)
Lemma parse_clean sch : forall p v,
  issues (parse sch p v) = [] ->
  output (parse sch p v) = Some v /\ v <> VUndefined.
Proof.
  induction sch as [checks | | inner IH pred msg]; intros p v Hnil.
  - destruct v; cbn in Hnil; try discriminate. split; [reflexivity | discriminate].
  - destruct v; cbn in Hnil; try discriminate. split; [reflexivity | discriminate].
  - cbn [parse] in *.
    destruct (output (parse inner p v)) as [out|] eqn:Hout.
    + destruct (pred out).
      * now apply IH.
      * cbn [issues] in Hnil. now destruct (issues (parse inner p v)).
    + apply IH in Hnil as [Hsome _]. congruence.
Qed.

Lemma parse_output sch : forall p v out,
  output (parse sch p v) = Some out -> out = v.
Proof.
  induction sch as [checks | | inner IH pred msg]; intros p v out Hout.
  - destruct v; cbn in Hout; congruence.
  - destruct v; cbn in Hout; congruence.
  - cbn [parse] in Hout.
    destruct (output (parse inner p v)) as [out'|] eqn:Hinner.
    + destruct (pred out').
      * rewrite Hinner in Hout. injection Hout as <-. now apply IH in Hinner.
      * cbn [output] in Hout. injection Hout as <-. now apply IH in Hinner.
    + congruence.
Qed.

Lemma get_defined (data : gmap jsstring value) key :
  get data key <> VUndefined -> data !! key = Some (get data key).
Proof.
  unfold get. destruct (data !! key); [reflexivity | intros H; now elim H].
Qed.

Lemma is_undefined_false v : v <> VUndefined -> is_undefined v = false.
Proof. destruct v; [congruence | reflexivity ..]. Qed.

(** When no field raises an issue, the object built by the parser holds the
    declared keys with the values of the input and nothing else. *)
Lemma final_object_clean (sh : shape) (p : list jsstring) (data : gmap jsstring value) :
  (forall key sch, In (key, sch) sh ->
     key <> str "__proto__" /\ issues (parse sch (p ++ [key]) (get data key)) = []) ->
  forall k,
    final_object (parse_pairs sh p data) !! k
    = if decide (k ∈ sh.*1) then data !! k else None.
Proof.
  unfold final_object. intros Hsh k.
  match goal with
  | |- foldl ?f _ _ !! _ = _ =>
      enough (Hgen : forall acc : gmap jsstring value,
                foldl f acc (parse_pairs sh p data) !! k
                = if decide (k ∈ sh.*1) then data !! k else acc !! k)
  end.
  { rewrite Hgen. now rewrite lookup_empty. }
  induction sh as [|[key sch] sh IH]; intros acc.
  - cbn. destruct (decide (k ∈ [])) as [Hin | _]; [| reflexivity].
    now apply elem_of_nil in Hin.
  - cbn [parse_pairs map foldl fmap list_fmap fst].
    destruct (Hsh key sch (or_introl eq_refl)) as [Hkey Hnil].
    apply parse_clean in Hnil as [Hout Hdef]. rewrite Hout.
    rewrite (is_undefined_false _ Hdef).
    rewrite bool_decide_eq_false_2 by exact Hkey. cbn [negb andb orb].
    fold (parse_pairs sh p data).
    rewrite IH by (intros key' sch' Hin; apply Hsh; now right).
    destruct (decide (k ∈ sh.*1)) as [Hin | Hnin].
    + rewrite decide_True; [reflexivity |]. apply elem_of_cons. now right.
    + destruct (decide (k = key)) as [-> | Hne].
      * rewrite decide_True by (apply elem_of_cons; now left).
        rewrite lookup_insert_eq. symmetry. now apply get_defined.
      * rewrite lookup_insert_ne by congruence.
        rewrite decide_False; [reflexivity |].
        intros Hin. apply elem_of_cons in Hin as [? | ?]; congruence.
Qed.

Lemma output_parse_object_clean (sh : shape) (p : list jsstring)
  (data : gmap jsstring value) :
  (forall key sch, In (key, sch) sh ->
     issues (parse sch (p ++ [key]) (get data key)) = []) ->
  output (parse_object sh p (VObj data)) = Some (VObj (final_object (parse_pairs sh p data))).
Proof.
  intros Hsh. unfold parse_object. cbn [output].
  replace (forallb _ (parse_pairs sh p data)) with true; [reflexivity |].
  symmetry. apply forallb_forall. intros [[key r] b] Hin.
  unfold parse_pairs in Hin. apply in_map_iff in Hin as ([key' sch] & Heq & Hin).
  injection Heq as -> <- <-.
  apply Hsh in Hin. apply parse_clean in Hin as [-> _].
  apply bool_decide_eq_true. eauto.
Qed.

Lemma flat_map_nil {A B} (f : A -> list B) l :
  flat_map f l = [] <-> forall x, In x l -> f x = [].
Proof.
  induction l as [|a l IH]; cbn.
  - split; [intros _ x [] | reflexivity].
  - split.
    + intros H x [<- | Hin]; apply app_eq_nil in H as [Ha Hl]; [exact Ha |].
      now apply IH.
    + intros H. rewrite (H a (or_introl eq_refl)).
      cbn. apply IH. intros x Hin. apply H. now right.
Qed.

(** [safeParse] succeeds exactly on the objects whose declared fields all
    parse without issue. *)
Lemma safeParse_Success (sh : shape) v result :
  safeParse sh v = Success result <->
  exists data : gmap jsstring value,
    v = VObj data
    /\ (forall key sch, In (key, sch) sh -> issues (parse sch [key] (get data key)) = [])
    /\ result = VObj (final_object (parse_pairs sh [] data)).
Proof.
  unfold safeParse, handleResult. split.
  - intros H.
    destruct v as [| | | | | |data]; try (cbn in H; discriminate).
    exists data. split; [reflexivity |].
    destruct (issues (parse_object sh [] (VObj data))) eqn:Hiss; [| discriminate].
    rewrite issues_parse_object in Hiss.
    assert (Hall : forall key sch, In (key, sch) sh ->
                     issues (parse sch [key] (get data key)) = []).
    { intros key sch Hin.
      apply (proj1 (flat_map_nil _ _) Hiss (key, sch) Hin). }
    split; [exact Hall |].
    rewrite (output_parse_object_clean sh [] data Hall) in H. congruence.
  - intros (data & -> & Hall & ->).
    rewrite (output_parse_object_clean sh [] data Hall).
    rewrite issues_parse_object.
    replace (flat_map _ sh) with (@nil issue); [reflexivity |].
    symmetry. apply flat_map_nil. intros [key sch] Hin. now apply Hall.
Qed.

(** On an object, a failure carries the issues of all fields in order. *)
Lemma safeParse_ZodError (sh : shape) (data : gmap jsstring value) first rest :
  flat_map (fun '(key, sch) => issues (parse sch [key] (get data key))) sh = first :: rest ->
  safeParse sh (VObj data) = ZodError first rest.
Proof.
  intros H. unfold safeParse, handleResult.
  rewrite issues_parse_object. cbn [app]. now rewrite H.
Qed.

(** ** Submission validation *)

Lemma validateSubmission_object_invalid (data : gmap jsstring value) first rest :
  flat_map (fun '(key, sch) => field_issues data key sch) submissionSchema = first :: rest ->
  validateSubmission (VObj data)
  = Invalid (str "Validation failed") (Some (first :: rest)).
Proof.
  intros H. unfold validateSubmission.
  now rewrite (safeParse_ZodError submissionSchema data first rest H).
Qed.

(** The result for an object with an invalid field: the issues of all the
    fields, in declaration order. *)
Lemma validateSubmission_details (data : gmap jsstring value) key sch :
  In (key, sch) submissionSchema ->
  field_issues data key sch <> [] ->
  validateSubmission (VObj data)
  = Invalid (str "Validation failed")
      (Some (flat_map (fun '(key, sch) => field_issues data key sch) submissionSchema)).
Proof.
  intros Hin Hbad.
  destruct (flat_map (fun '(key, sch) => field_issues data key sch) submissionSchema)
    as [|first rest] eqn:Hd.
  - exfalso. apply Hbad.
    apply (proj1 (flat_map_nil _ _) Hd (key, sch) Hin).
  - now apply validateSubmission_object_invalid.
Qed.

Lemma field_issues_in_details (data : gmap jsstring value) key sch i :
  In (key, sch) submissionSchema ->
  In i (field_issues data key sch) ->
  In i (flat_map (fun '(key, sch) => field_issues data key sch) submissionSchema).
Proof.
  intros Hin Hi. apply in_flat_map. exists (key, sch). now split.
Qed.

Lemma field_issues_path (data : gmap jsstring value) key sch i :
  In i (field_issues data key sch) -> path i = [key].
Proof. apply parse_path. Qed.



Lemma consent_field_issues (data : gmap jsstring value) :
  data !! str "consent" <> Some (VBool true) ->
  field_issues data (str "consent") (ZRefine ZBoolean is_true (str "Consent is required"))
  = [consent_issue data].
Proof.
  intros Hne. unfold field_issues, consent_issue.
  destruct (get data (str "consent")) as [| |b| | | |] eqn:Hget; try reflexivity.
  destruct b; [| reflexivity].
  exfalso. apply Hne. rewrite <- Hget. apply get_defined. rewrite Hget. discriminate.
Qed.

(** C3. A record whose consent flag is [false] is invalid, whatever its
    other fields hold, and the details carry the consent-required error:
    ``Consent is required'' at path [consent].  A record whose flag is
    absent, or is not a boolean, is invalid as well, but the entry at path
    [consent] is then zod's type error (``Required'' for an absent flag)
    and the consent-required error is not among the details.  In each case
    the entry is the only one at that path, and the only one at all when
    every other field is valid. *)
Theorem validateSubmission_consent_required (data : gmap jsstring value) :
  data !! str "consent" <> Some (VBool true) ->
  exists details,
    validateSubmission (VObj data) = Invalid (str "Validation failed") (Some details)
    /\ In (consent_issue data) details
    /\ (forall i, In i details -> path i = [str "consent"] -> i = consent_issue data)
    /\ (data !! str "consent" = Some (VBool false) ->
        consent_issue data
        = {| code := custom; path := [str "consent"];
             message := str "Consent is required" |})
    /\ (data !! str "consent" = None ->
        consent_issue data
        = {| code := invalid_type; path := [str "consent"]; message := str "Required" |})
    /\ (data !! str "consent" <> Some (VBool false) ->
        consent_issue data
        = invalid_type_issue [str "consent"] (str "boolean") (get data (str "consent"))
        /\ ~ In {| code := custom; path := [str "consent"];
                   message := str "Consent is required" |} details)
    /\ ((forall key sch, In (key, sch) submissionSchema -> key <> str "consent" ->
           field_issues data key sch = []) ->
        details = [consent_issue data]).
Proof.
  intros Hne. pose proof (consent_field_issues data Hne) as Hc.
  assert (Hin : In (str "consent", ZRefine ZBoolean is_true (str "Consent is required"))
                   submissionSchema) by (cbn; tauto).
  assert (Hflag : data !! str "consent" <> Some (VBool false) ->
                  consent_issue data
                  = invalid_type_issue [str "consent"] (str "boolean")
                      (get data (str "consent"))).
  { intros Hnf. unfold consent_issue.
    destruct (get data (str "consent")) as [| |b| | | |] eqn:Hget; try reflexivity.
    exfalso. assert (Hb : data !! str "consent" = Some (VBool b))
      by (rewrite <- Hget; apply get_defined; rewrite Hget; discriminate).
    destruct b; [now apply Hne | now apply Hnf]. }
  assert (Honly : forall i,
            In i (flat_map (fun '(key, sch) => field_issues data key sch) submissionSchema) ->
            path i = [str "consent"] -> i = consent_issue data).
  { intros i Hi Hp. apply in_flat_map in Hi as ([key sch] & Hks & Hi).
    pose proof (field_issues_path data key sch i Hi) as Hpath.
    assert (key = str "consent") as -> by congruence.
    assert (sch = ZRefine ZBoolean is_true (str "Consent is required")) as ->.
    { cbn in Hks.
      repeat (destruct Hks as [Hks | Hks];
              [first [ injection Hks as Hs; exact (eq_sym Hs)
                     | injection Hks as Hk Hs; discriminate Hk ] |]).
      destruct Hks. }
    rewrite Hc in Hi. destruct Hi as [<- | []]. reflexivity. }
  eexists. split.
  { apply (validateSubmission_details data _ _ Hin). rewrite Hc. discriminate. }
  split.
  { apply (field_issues_in_details data _ _ _ Hin). rewrite Hc. now left. }
  split; [exact Honly |].
  split; [unfold consent_issue, get; intros ->; reflexivity |].
  split; [unfold consent_issue, get; intros ->; reflexivity |].
  split.
  { intros Hnf. split; [exact (Hflag Hnf) |]. intros Hi.
    apply Honly in Hi; [| reflexivity]. rewrite (Hflag Hnf) in Hi.
    unfold invalid_type_issue in Hi. discriminate. }
  intros Hothers. unfold submissionSchema. cbn [flat_map]. rewrite Hc.
  repeat match goal with
         | |- context [field_issues data ?k ?s] =>
             rewrite (Hothers k s ltac:(cbn; tauto) ltac:(discriminate))
         end.
  reflexivity.
Qed.

(** The valid example payload without its consent flag, and with the flag
    set to [false]. *)
Lemma validateSubmission_consent_required_witness :
  (exists details,
     validateSubmission (VObj (delete (str "consent") example_submission))
     = Invalid (str "Validation failed") (Some details)
     /\ In {| code := invalid_type; path := [str "consent"]; message := str "Required" |}
          details)
  /\ (exists details,
        validateSubmission (VObj (<[str "consent" := VBool false]> example_submission))
        = Invalid (str "Validation failed") (Some details)
        /\ In {| code := custom; path := [str "consent"];
                 message := str "Consent is required" |} details).
Proof.
  split.
  - destruct (validateSubmission_consent_required
                (delete (str "consent") example_submission))
      as (details & H1 & H2 & _ & _ & H3 & _).
    + vm_compute. discriminate.
    + exists details. split; [exact H1 |]. rewrite <- H3; [exact H2 | reflexivity].
  - destruct (validateSubmission_consent_required
                (<[str "consent" := VBool false]> example_submission))
      as (details & H1 & H2 & _ & H3 & _).
    + vm_compute. discriminate.
    + exists details. split; [exact H1 |]. rewrite <- H3; [exact H2 | reflexivity].
Defined.

(** C3, as worded, fails for a missing flag: the example payload without
    [consent] is rejected with the type error ``Required'' alone, and the
    consent-required error is not reported. *)
Lemma validateSubmission_missing_consent_reports_required :
  validateSubmission (VObj (delete (str "consent") example_submission))
  = Invalid (str "Validation failed")
      (Some [{| code := invalid_type; path := [str "consent"];
                message := str "Required" |}])
  /\ validateSubmission (VObj (<[str "consent" := VNull]> example_submission))
     = Invalid (str "Validation failed")
         (Some [{| code := invalid_type; path := [str "consent"];
                   message := str "Expected boolean, received null" |}]).
Proof. split; vm_compute; reflexivity. Qed.

(** ** The submission endpoint *)

Lemma submission_keys_ordinary key sch :
  In (key, sch) submissionSchema -> key <> str "__proto__".
Proof.
  cbn. intros H.
  repeat (destruct H as [H | H]; [injection H as <- <-; discriminate |]).
  destruct H.
Qed.

Lemma server_keys_ordinary key sch :
  In (key, sch) Server.submissionSchema -> key <> str "__proto__".
Proof.
  cbn. intros H.
  repeat (destruct H as [H | H]; [injection H as <- <-; discriminate |]).
  destruct H.
Qed.

(** The schema of the endpoint asks no more of a field than the schema of
    the service does. *)
Lemma server_schema_weaker key sch' :
  In (key, sch') Server.submissionSchema ->
  exists sch,
    In (key, sch) submissionSchema
    /\ forall v, issues (parse sch [key] v) = [] -> issues (parse sch' [key] v) = [].
Proof.
  cbn. intros H.
  repeat (destruct H as [H | H];
          [ injection H as <- <-; eexists; split;
            [ cbn; repeat first [left; reflexivity | right]
            | intros v Hv; destruct v; cbn in *; try congruence;
              repeat match goal with
                     | H : _ ++ _ = [] |- _ => apply app_eq_nil in H as [? ?]
                     end;
              repeat match goal with
                     | H : ?x = [] |- context [?x] => rewrite H
                     end; reflexivity ]
          | ]).
  destruct H.
Qed.

Lemma service_schema_fields : submissionSchema.*1 = submission_fields.
Proof. reflexivity. Qed.

Lemma server_schema_fields : Server.submissionSchema.*1 = submission_fields.
Proof. reflexivity. Qed.

Lemma validateSubmission_Valid v result :
  validateSubmission v = Valid result -> safeParse submissionSchema v = Success result.
Proof.
  unfold validateSubmission. destruct (safeParse submissionSchema v); congruence.
Qed.

(** What the parser returns for a record the service accepts, and that the
    endpoint's own schema returns the same. *)
Lemma accepted_record (data : gmap jsstring value) result :
  safeParse submissionSchema (VObj data) = Success result ->
  exists o : gmap jsstring value,
    result = VObj o
    /\ (forall k, o !! k = if decide (k ∈ submission_fields) then data !! k else None)
    /\ (forall k, k ∈ submission_fields -> is_Some (o !! k))
    /\ safeParse Server.submissionSchema (VObj data) = Success (VObj o).
Proof.
  intros H. apply safeParse_Success in H as (data' & Heq & Hall & ->).
  injection Heq as <-.
  set (o := final_object (parse_pairs submissionSchema [] data)).
  assert (Ho : forall k, o !! k = if decide (k ∈ submission_fields) then data !! k else None).
  { intros k. unfold o. rewrite final_object_clean.
    - now rewrite service_schema_fields.
    - intros key sch Hin. split; [now apply (submission_keys_ordinary key sch) |].
      now apply Hall. }
  assert (Hall' : forall key sch, In (key, sch) Server.submissionSchema ->
                    issues (parse sch [key] (get data key)) = []).
  { intros key sch' Hin. apply server_schema_weaker in Hin as (sch & Hin & Himp).
    apply Himp. now apply Hall. }
  exists o. split; [reflexivity |]. split; [exact Ho |]. split.
  - intros k Hk. rewrite Ho, decide_True by exact Hk.
    rewrite <- service_schema_fields in Hk.
    apply list_elem_of_fmap in Hk as ([key sch] & -> & Hin).
    apply list_elem_of_In in Hin. apply Hall in Hin. apply parse_clean in Hin as [_ Hdef].
    cbn [fst]. rewrite (get_defined _ _ Hdef). eauto.
  - apply safeParse_Success. exists data. split; [reflexivity |]. split; [exact Hall' |].
    f_equal. apply map_eq. intros k. rewrite Ho, final_object_clean.
    + now rewrite server_schema_fields.
    + intros key sch Hin. split; [now apply (server_keys_ordinary key sch) |].
      now apply Hall'.
Qed.

(** The row handed to the sink: the thirteen fields read from the validated
    data, and the status marker. *)
Lemma create_data_lookup (data : gmap jsstring value) k :
  Server.create_data data !! k
  = if decide (k = str "status") then Some (VStr (str "pending"))
    else if decide (k ∈ submission_fields) then Some (get data k) else None.
Proof.
  unfold Server.create_data.
  cbn [list_to_map foldr fst snd].
  destruct (decide (k ∈ submission_fields)) as [Hin | Hnin].
  - unfold submission_fields in Hin.
    repeat (apply elem_of_cons in Hin as [-> | Hin]; [reflexivity |]).
    now apply elem_of_nil in Hin.
  - destruct (decide (k = str "status")) as [-> | Hst]; [reflexivity |].
    unfold submission_fields in Hnin.
    repeat (apply not_elem_of_cons in Hnin as [? Hnin]).
    repeat (rewrite lookup_insert_ne by congruence).
    apply lookup_empty.
Qed.

Lemma create_data_accepted (o : gmap jsstring value) :
  (forall k, is_Some (o !! k) <-> k ∈ submission_fields) ->
  Server.create_data o = <[str "status" := VStr (str "pending")]> o.
Proof.
  intros Ho. apply map_eq. intros k. rewrite create_data_lookup.
  destruct (decide (k = str "status")) as [-> | Hst].
  - now rewrite lookup_insert_eq.
  - rewrite lookup_insert_ne by congruence.
    destruct (decide (k ∈ submission_fields)) as [Hin | Hnin].
    + apply Ho in Hin as [v Hv]. unfold get. now rewrite Hv.
    + destruct (o !! k) eqn:Hk; [| reflexivity].
      exfalso. apply Hnin, Ho. eauto.
Qed.

(** C10. When [validateSubmission] succeeds, the validated data is an object
    holding exactly the thirteen declared fields with the values of the
    input; every other key of the input is gone.  The endpoint echoes that
    same object when there is no sink, and the row it hands to the sink is
    that object with the [status] marker added. *)
Theorem validateSubmission_strips_undeclared_keys (v result : value) :
  validateSubmission v = Valid result ->
  exists (data o : gmap jsstring value),
    v = VObj data /\ result = VObj o
    /\ (forall k, is_Some (o !! k) <-> k ∈ submission_fields)
    /\ (forall k, k ∈ submission_fields -> o !! k = data !! k)
    /\ Server.submit v None
       = {| Server.status := 202;
            Server.json :=
              Server.NotStored false
                (str "Database not configured. Data accepted for validation only.")
                (VObj o) |}
    /\ forall client,
         Server.submit v (Some client)
         = match Server.create client (<[str "status" := VStr (str "pending")]> o) with
           | Server.Saved saved =>
               {| Server.status := 200;
                  Server.json :=
                    Server.StoredOk true (get saved (str "id"))
                      (str "Udyam registration submitted successfully") |}
           | Server.CreateThrows e =>
               {| Server.status := 500;
                  Server.json :=
                    Server.InternalError (str "Internal server error")
                      (Server.message_or e (str "Failed to store submission")) |}
           end.
Proof.
  intros Hvalid. apply validateSubmission_Valid in Hvalid.
  pose proof Hvalid as Hobj. apply safeParse_Success in Hobj as (data & -> & _).
  apply accepted_record in Hvalid as (o & -> & Ho & Hsome & Hserver).
  assert (Hdom : forall k, is_Some (o !! k) <-> k ∈ submission_fields).
  { intros k. split; [| apply Hsome].
    rewrite Ho. destruct (decide (k ∈ submission_fields)); [easy |].
    intros [? ?]; discriminate. }
  exists data, o. split; [reflexivity |]. split; [reflexivity |].
  split; [exact Hdom |]. split.
  { intros k Hk. now rewrite Ho, decide_True. }
  unfold Server.submit. rewrite Hserver. split; [reflexivity |].
  intros client. cbn [Server.props_of]. now rewrite (create_data_accepted o Hdom).
Qed.

(** The valid example payload with two keys the schema does not declare. *)
Lemma validateSubmission_strips_undeclared_keys_witness :
  exists o : gmap jsstring value,
    validateSubmission
      (VObj (<[str "mobileNumber" := VStr (str "9876543210")]>
               (<[str "isAdmin" := VBool true]> example_submission)))
    = Valid (VObj o)
    /\ o !! str "mobileNumber" = None /\ o !! str "isAdmin" = None
    /\ o !! str "panNumber" = Some (VStr (str "ABCDE1234F")).
Proof.
  destruct (validateSubmission_strips_undeclared_keys
              (VObj (<[str "mobileNumber" := VStr (str "9876543210")]>
                       (<[str "isAdmin" := VBool true]> example_submission)))
              (VObj example_submission))
    as (data & o & Hv & Hr & Hdom & Hval & _).
  - vm_compute. reflexivity.
  - injection Hr as <-. exists example_submission.
    split; [vm_compute; reflexivity |].
    repeat split; vm_compute; reflexivity.
Defined.

Lemma example_submission_parses :
  safeParse Server.submissionSchema (VObj example_submission)
  = Success (VObj example_submission).
Proof. vm_compute. reflexivity. Qed.

(** C7 (amended). A record that passes the validation of the endpoint is
    never answered with a validation error.  Without a sink the answer is
    the not-stored acknowledgment carrying the validated data; with a sink
    it is the stored answer when [create] returns, and the internal-error
    answer when [create] throws.  The example payload is such a record. *)
Theorem submit_valid_record (reqBody data : value) (client : option Server.PrismaClient) :
  safeParse Server.submissionSchema reqBody = Success data ->
  Server.status (Server.submit reqBody client) <> 400%nat
  /\ Server.submit reqBody client
     = match client with
       | None =>
           {| Server.status := 202;
              Server.json :=
                Server.NotStored false
                  (str "Database not configured. Data accepted for validation only.")
                  data |}
       | Some c =>
           match Server.create c (Server.create_data (Server.props_of data)) with
           | Server.Saved saved =>
               {| Server.status := 200;
                  Server.json :=
                    Server.StoredOk true (get saved (str "id"))
                      (str "Udyam registration submitted successfully") |}
           | Server.CreateThrows e =>
               {| Server.status := 500;
                  Server.json :=
                    Server.InternalError (str "Internal server error")
                      (Server.message_or e (str "Failed to store submission")) |}
           end
       end
  /\ (accepted (Server.submit reqBody client) = false <->
      exists c e, client = Some c
                  /\ Server.create c (Server.create_data (Server.props_of data))
                     = Server.CreateThrows e)
  /\ safeParse Server.submissionSchema (VObj example_submission)
     = Success (VObj example_submission).
Proof.
  intros Hparse. unfold Server.submit, accepted. rewrite Hparse.
  split; [| split; [reflexivity | split; [| exact example_submission_parses]]].
  - destruct client as [c|]; [| discriminate].
    destruct (Server.create c _); discriminate.
  - destruct client as [c|].
    + destruct (Server.create c _) as [saved | e] eqn:Hc; cbn [Server.json]; split.
      * discriminate.
      * intros (c' & e & Heq & Hthrow). injection Heq as <-. congruence.
      * intros _. eauto.
      * reflexivity.
    + cbn [Server.json]. split; [discriminate |].
      intros (c & e & Heq & _). discriminate.
Qed.

(** The example payload without a sink and with a sink that stores it. *)
Lemma submit_valid_record_witness :
  Server.submit (VObj example_submission) None
  = {| Server.status := 202;
       Server.json :=
         Server.NotStored false
           (str "Database not configured. Data accepted for validation only.")
           (VObj example_submission) |}
  /\ Server.status (Server.submit (VObj example_submission) (Some storing_client)) <> 400%nat.
Proof.
  split.
  - apply (submit_valid_record (VObj example_submission) (VObj example_submission) None).
    vm_compute. reflexivity.
  - apply (submit_valid_record (VObj example_submission) (VObj example_submission)
             (Some storing_client)).
    vm_compute. reflexivity.
Defined.

(** C7, as worded, fails: the example payload is neither stored nor
    acknowledged as not stored when the sink throws; the answer is 500. *)
Lemma submit_example_sink_failure :
  accepted (Server.submit (VObj example_submission) (Some failing_client)) = false
  /\ Server.submit (VObj example_submission) (Some failing_client)
     = {| Server.status := 500;
          Server.json := Server.InternalError (str "Internal server error")
                           (str "Can't reach database server") |}.
Proof. split; vm_compute; reflexivity. Qed.

(** C2 (the code does otherwise). The submission endpoint accepts the valid
    payload whose entrepreneur name carries a script element, and both the
    row handed to the sink and the data echoed without a sink hold that name
    as it was sent; [sanitizeString] would have reduced it to ``John''. *)
Theorem submit_stores_unsanitized :
  (forall client,
     Server.submit (VObj script_submission) (Some client)
     = match Server.create client
               (<[str "status" := VStr (str "pending")]> script_submission) with
       | Server.Saved saved =>
           {| Server.status := 200;
              Server.json :=
                Server.StoredOk true (get saved (str "id"))
                  (str "Udyam registration submitted successfully") |}
       | Server.CreateThrows e =>
           {| Server.status := 500;
              Server.json :=
                Server.InternalError (str "Internal server error")
                  (Server.message_or e (str "Failed to store submission")) |}
       end)
  /\ Server.submit (VObj script_submission) None
     = {| Server.status := 202;
          Server.json :=
            Server.NotStored false
              (str "Database not configured. Data accepted for validation only.")
              (VObj script_submission) |}
  /\ (<[str "status" := VStr (str "pending")]> script_submission) !! str "entrepreneurName"
     = Some (VStr (str "<script>alert(1)</script>John"))
  /\ sanitizeValue (VStr (str "<script>alert(1)</script>John")) = VStr (str "John").
Proof.
  assert (Hparse : safeParse Server.submissionSchema (VObj script_submission)
                   = Success (VObj script_submission)) by (vm_compute; reflexivity).
  assert (Hrow : Server.create_data script_submission
                 = <[str "status" := VStr (str "pending")]> script_submission)
    by (vm_compute; reflexivity).
  split; [| split; [| split]].
  - intros client. unfold Server.submit. rewrite Hparse. cbn [Server.props_of].
    now rewrite Hrow.
  - unfold Server.submit. now rewrite Hparse.
  - vm_compute. reflexivity.
  - vm_compute. reflexivity.
Qed.

(** ** Matching and replacing, in general *)

(** A successful match ends in the continuation, at a position at or after
    the start. *)
Lemma rep_loop_continues m k :
  (forall x k' z, m x k' = Some z ->
     exists y, after y `suffix_of` after x /\ k' y = Some z) ->
  forall fuel min max x z,
    rep_loop m k fuel min max x = Some z ->
    exists y, after y `suffix_of` after x /\ k y = Some z.
Proof.
  intros Hm. induction fuel as [|fuel IH]; intros min max x z H; [discriminate |].
  cbn [rep_loop] in H.
  assert (Hd : forall w,
             m x (fun y : mpos =>
                    if Nat.eqb min 0 && Nat.eqb (length (after y)) (length (after x))
                    then None
                    else rep_loop m k fuel (Nat.pred min) (option_map Nat.pred max) y)
             = Some w ->
             exists y, after y `suffix_of` after x /\ k y = Some w).
  { intros w Hw. apply Hm in Hw as (y & Hy & Hw).
    destruct (Nat.eqb min 0 && Nat.eqb (length (after y)) (length (after x)));
      [discriminate |].
    apply IH in Hw as (y' & Hy' & Hk). exists y'. split; [by etrans | exact Hk]. }
  destruct max as [[|max]|].
  - eauto.
  - destruct (Nat.eqb min 0); [| now apply Hd].
    destruct (m x _) as [w|] eqn:Hw; [injection H as ->; now apply Hd | eauto].
  - destruct (Nat.eqb min 0); [| now apply Hd].
    destruct (m x _) as [w|] eqn:Hw; [injection H as ->; now apply Hd | eauto].
Qed.

Lemma matcher_continues ic r : forall x k z,
  matcher ic r x k = Some z ->
  exists y, after y `suffix_of` after x /\ k y = Some z.
Proof.
  induction r as [| c | neg items | | | | a IHa b IHb | a IHa b IHb | min max r IH | r IH];
    intros x k z H; cbn [matcher] in H.
  - eauto.
  - destruct x as [bef [|ch rest]]; cbn [after] in *; [discriminate |].
    destruct (canonicalize ic ch =? canonicalize ic c); [| discriminate].
    eexists. split; [| exact H]. cbn. by apply suffix_cons_r.
  - destruct x as [bef [|ch rest]]; cbn [after] in *; [discriminate |].
    destruct (set_matches ic neg items ch); [| discriminate].
    eexists. split; [| exact H]. cbn. by apply suffix_cons_r.
  - destruct (before x); [eauto | discriminate].
  - destruct (after x) eqn:Ha; [| discriminate]. exists x. rewrite Ha. eauto.
  - destruct (xorb _ _); [eauto | discriminate].
  - apply IHa in H as (y & Hy & H). apply IHb in H as (y' & Hy' & H).
    exists y'. split; [by etrans | exact H].
  - destruct (matcher ic a x k) eqn:Ha; [injection H as ->; now apply IHa in Ha |].
    now apply IHb in H.
  - now apply (rep_loop_continues _ _ IH) in H.
  - destruct (matcher ic r x Some); [discriminate | eauto].
Qed.

(** A character that is not a letter is matched by itself only, with or
    without [ignoreCase]. *)
Lemma canonicalize_not_letter ic ch c :
  (c < 65 \/ 90 < c) -> (c < 97 \/ 122 < c) ->
  canonicalize ic ch = canonicalize ic c -> ch = c.
Proof.
  unfold canonicalize. intros H1 H2.
  destruct ic; cbn [andb]; [| easy].
  destruct ((97 <=? c) && (c <=? 122)) eqn:Hc.
  { apply andb_true_iff in Hc as [?%N.leb_le ?%N.leb_le]. lia. }
  destruct ((97 <=? ch) && (ch <=? 122)) eqn:Hch; [| easy].
  apply andb_true_iff in Hch as [?%N.leb_le ?%N.leb_le]. lia.
Qed.

Lemma matcher_Chr_head ic c x k z :
  matcher ic (Chr c) x k = Some z ->
  exists ch rest, after x = ch :: rest /\ canonicalize ic ch = canonicalize ic c.
Proof.
  cbn [matcher]. destruct (after x) as [|ch rest]; [discriminate |].
  destruct (canonicalize ic ch =? canonicalize ic c) eqn:Heq; [| discriminate].
  apply N.eqb_eq in Heq. eauto.
Qed.

(** A pattern that ends with a literal character which is not a letter
    matches only where that character occurs further on. *)
Lemma matcher_needs_char ic r c x k z :
  (c < 65 \/ 90 < c) -> (c < 97 \/ 122 < c) ->
  matcher ic (Seq r (Chr c)) x k = Some z -> c ∈ after x.
Proof.
  intros H1 H2 H. cbn [matcher] in H.
  apply matcher_continues in H as (y & Hy & H).
  apply matcher_Chr_head in H as (ch & rest & Ha & Hc).
  apply (canonicalize_not_letter ic ch c H1 H2) in Hc as ->.
  destruct Hy as [pre ->]. rewrite Ha. apply elem_of_app. right. apply elem_of_cons. now left.
Qed.

(** Where the pattern matches nowhere, [replace] returns its input. *)
Lemma replace_from_no_match re repl (P : jsstring -> Prop) :
  (forall c s, P (c :: s) -> P s) ->
  (forall bef aft, P aft -> exec_at re (MPos bef aft) = None) ->
  forall aft bef, P aft -> replace_from re repl bef aft 0 = aft.
Proof.
  intros Htail Hnone. induction aft as [|c aft IH]; intros bef HP;
    cbn [replace_from]; rewrite (Hnone _ _ HP); [reflexivity |].
  f_equal. apply IH. now apply Htail in HP.
Qed.

(** Characters that cannot start a match are copied. *)
Lemma replace_from_copy re repl (P : N -> Prop) :
  (forall bef c aft, P c -> exec_at re (MPos bef (c :: aft)) = None) ->
  forall w bef rest, Forall P w ->
    replace_from re repl bef (w ++ rest) 0
    = w ++ replace_from re repl (rev w ++ bef) rest 0.
Proof.
  intros Hnone. induction w as [|c w IH]; intros bef rest HP; [reflexivity |].
  apply Forall_cons in HP as [Hc HP].
  cbn [app replace_from]. rewrite (Hnone _ _ _ Hc). f_equal.
  rewrite (IH _ _ HP). cbn [rev]. now rewrite <- app_assoc.
Qed.

(** The characters of a match are dropped. *)
Lemma replace_from_skip re repl : forall w bef rest,
  replace_from re repl bef (w ++ rest) (length w)
  = replace_from re repl (rev w ++ bef) rest 0.
Proof.
  induction w as [|c w IH]; intros bef rest; [now destruct rest |].
  cbn [app length replace_from]. rewrite IH. cbn [rev]. now rewrite <- app_assoc.
Qed.

Lemma rep_loop_star_step m k fuel x :
  rep_loop m k (S fuel) 0 None x
  = match m x (fun y : mpos =>
                 if Nat.eqb (length (after y)) (length (after x)) then None
                 else rep_loop m k fuel 0 None y) with
    | Some z => Some z
    | None => k x
    end.
Proof. reflexivity. Qed.

Lemma matcher_CharSet_cons ic neg items x k ch rest :
  after x = ch :: rest ->
  matcher ic (CharSet neg items) x k
  = if set_matches ic neg items ch then k (advance x ch rest) else None.
Proof. intros Ha. cbn [matcher]. now rewrite Ha. Qed.

Lemma matcher_CharSet_nil ic neg items x k :
  after x = [] -> matcher ic (CharSet neg items) x k = None.
Proof. intros Ha. cbn [matcher]. now rewrite Ha. Qed.

(** A greedy [[...]*] takes the whole run of characters of the class when
    the rest of the pattern matches after it. *)
Lemma star_class_greedy ic neg items k z : forall w fuel x rest,
  after x = w ++ rest ->
  Forall (fun c => set_matches ic neg items c = true) w ->
  match rest with ch :: _ => set_matches ic neg items ch = false | [] => True end ->
  (length w < fuel)%nat ->
  k (MPos (rev w ++ before x) rest) = Some z ->
  rep_loop (matcher ic (CharSet neg items)) k fuel 0 None x = Some z.
Proof.
  induction w as [|c w IH]; intros fuel x rest Ha Hw Hrest Hfuel Hk.
  - destruct fuel as [|fuel]; [cbn in Hfuel; lia |].
    rewrite rep_loop_star_step. cbn [app] in Ha.
    assert (Hx : x = MPos (rev [] ++ before x) rest) by (destruct x; cbn in *; congruence).
    destruct rest as [|ch rest'].
    + rewrite (matcher_CharSet_nil _ _ _ _ _ Ha). now rewrite Hx.
    + rewrite (matcher_CharSet_cons _ _ _ _ _ _ _ Ha), Hrest. now rewrite Hx.
  - destruct fuel as [|fuel]; [cbn in Hfuel; lia |].
    apply Forall_cons in Hw as [Hc Hw].
    rewrite rep_loop_star_step. cbn [app] in Ha.
    rewrite (matcher_CharSet_cons _ _ _ _ _ _ _ Ha), Hc.
    cbn [advance after]. rewrite Ha. cbn [length].
    replace (Nat.eqb (length (w ++ rest)) (S (length (w ++ rest)))) with false
      by (symmetry; apply Nat.eqb_neq; lia).
    unfold advance.
    rewrite (IH fuel (MPos (c :: before x) (w ++ rest)) rest eq_refl Hw Hrest).
    + reflexivity.
    + cbn in Hfuel. lia.
    + cbn [before]. cbn [rev] in Hk. now rewrite <- app_assoc in Hk.
Qed.

Lemma matcher_Seq ic a b x k :
  matcher ic (Seq a b) x k = matcher ic a x (fun y => matcher ic b y k).
Proof. reflexivity. Qed.

Lemma matcher_star ic r x k :
  matcher ic (star r) x k
  = rep_loop (matcher ic r) k (S (length (after x))) 0 None x.
Proof. reflexivity. Qed.

(** A literal matches its own text. *)
Lemma matcher_lit_prefix ic (w : string) k : forall x rest,
  after x = str w ++ rest ->
  matcher ic (lit w) x k = k (MPos (rev (str w) ++ before x) rest).
Proof.
  unfold lit. induction (str w) as [|c l IH]; intros x rest Ha; cbn [fold_right matcher].
  - destruct x; cbn in *. now subst.
  - cbn [app] in Ha. rewrite Ha, N.eqb_refl.
    rewrite (IH (advance x c (l ++ rest)) rest eq_refl).
    cbn [advance before rev]. now rewrite <- app_assoc.
Qed.

(** Where a literal matches, each of its characters that is not a letter
    occurs in the rest of the input. *)
Lemma matcher_lit_needs ic (w : string) c k : forall x z,
  c ∈ str w -> (c < 65 \/ 90 < c) -> (c < 97 \/ 122 < c) ->
  matcher ic (lit w) x k = Some z -> c ∈ after x.
Proof.
  unfold lit. induction (str w) as [|c0 l IH]; intros x z Hin H1 H2 H.
  - now apply elem_of_nil in Hin.
  - cbn [fold_right matcher] in H.
    destruct x as [bef [|ch rest]]; cbn [after] in *; [discriminate |].
    destruct (canonicalize ic ch =? canonicalize ic c0) eqn:Heq; [| discriminate].
    apply elem_of_cons in Hin as [-> | Hin].
    + apply N.eqb_eq in Heq. apply canonicalize_not_letter in Heq as ->; [| easy ..].
      apply elem_of_cons. now left.
    + apply elem_of_cons. right.
      apply (IH (advance (MPos bef (ch :: rest)) ch rest) z Hin H1 H2 H).
Qed.

(** ** The sanitizer *)

Example sanitize_script_element :
  sanitizeString (str "<script>alert(1)</script>John") = str "John".
Proof. vm_compute. reflexivity. Qed.

(** The event-handler assignment goes, the surrounding tag text stays. *)
Example sanitize_event_handler :
  sanitizeString (str "John<img onerror=alert(1)>") = str "John<img alert(1)>".
Proof. vm_compute. reflexivity. Qed.

Example sanitize_javascript_scheme :
  sanitizeString (str "  javascript:alert(1) ") = str "alert(1)".
Proof. vm_compute. reflexivity. Qed.

Lemma not_lt_class c :
  c <> 60 -> set_matches true true [CChar 60] c = true.
Proof.
  intros Hc. unfold set_matches. cbn [existsb item_matches].
  destruct (canonicalize true 60 =? canonicalize true c) eqn:Heq; [| reflexivity].
  apply N.eqb_eq in Heq. symmetry in Heq.
  apply (canonicalize_not_letter true c 60) in Heq; [easy | |]; left; reflexivity.
Qed.

Lemma script_cannot_start bef aft :
  match aft with c :: _ => c <> 60 | [] => True end ->
  exec_at scriptElementRegex (MPos bef aft) = None.
Proof.
  intros Hc. unfold exec_at. cbn [ast scriptElementRegex ignoreCase].
  change (lit "<script") with (Seq (Chr 60) (lit "script")).
  rewrite !matcher_Seq.
  destruct (matcher true (Chr 60) (MPos bef aft) _) as [z|] eqn:Hm; [| reflexivity].
  apply matcher_Chr_head in Hm as (ch & rest & Ha & Heq). cbn [after] in Ha. subst aft.
  apply (canonicalize_not_letter true ch 60) in Heq; [easy | |]; left; reflexivity.
Qed.

Lemma matcher_WordBoundary ic x k :
  matcher ic WordBoundary x k
  = if xorb (is_word_at (before x)) (is_word_at (after x)) then k x else None.
Proof. reflexivity. Qed.

Lemma matcher_NegLookahead ic r x k :
  matcher ic (NegLookahead r) x k
  = match matcher ic r x Some with Some _ => None | None => k x end.
Proof. reflexivity. Qed.

Lemma script_element_matches bef body post :
  60 ∉ body ->
  exists b,
    exec_at scriptElementRegex
      (MPos bef (str "<script>" ++ body ++ str "</script>" ++ post))
    = Some (MPos b post).
Proof.
  intros Hbody. eexists. unfold exec_at. cbn [ast scriptElementRegex ignoreCase].
  change (str "<script>" ++ body ++ str "</script>" ++ post)
    with (str "<script" ++ (62 :: body) ++ str "</script>" ++ post).
  rewrite matcher_Seq.
  erewrite (matcher_lit_prefix true "<script"); [| cbn [after]; reflexivity].
  cbn [before]. rewrite matcher_Seq, matcher_WordBoundary.
  cbn [before after].
  change (is_word_at (rev (str "<script") ++ bef)) with true.
  change (is_word_at ((62 :: body) ++ str "</script>" ++ post)) with false.
  cbn [xorb]. rewrite matcher_Seq, matcher_star.
  apply (star_class_greedy true true [CChar 60] _ _ (62 :: body) _ _
           (str "</script>" ++ post)).
  - reflexivity.
  - apply Forall_cons. split; [reflexivity |].
    apply Forall_forall. intros c Hc. apply not_lt_class. intros ->. now apply Hbody.
  - reflexivity.
  - cbn [after]. rewrite length_app. lia.
  - cbn [before]. rewrite matcher_Seq, matcher_star, rep_loop_star_step.
    rewrite matcher_Seq, matcher_NegLookahead.
    erewrite (matcher_lit_prefix true "</script>" Some); [| cbn [after]; reflexivity].
    reflexivity.
Qed.

(** A script element between texts without [<] is removed with its
    content. *)
Lemma replace_script_element pre body post :
  60 ∉ pre -> 60 ∉ body -> 60 ∉ post ->
  replace scriptElementRegex []
    (pre ++ str "<script>" ++ body ++ str "</script>" ++ post)
  = pre ++ post.
Proof.
  intros Hpre Hbody Hpost. unfold replace.
  assert (Hcopy : forall w bef rest, 60 ∉ w ->
            replace_from scriptElementRegex [] bef (w ++ rest) 0
            = w ++ replace_from scriptElementRegex [] (rev w ++ bef) rest 0).
  { intros w bef rest Hw.
    apply (replace_from_copy scriptElementRegex [] (fun c => c <> 60)).
    - intros b c aft Hc. now apply script_cannot_start.
    - apply Forall_forall. intros c Hc ->. now apply Hw. }
  rewrite (Hcopy pre [] _ Hpre). f_equal.
  destruct (script_element_matches (rev pre ++ []) body post Hbody) as [b Hb].
  assert (Heq : str "<script>" ++ body ++ str "</script>" ++ post
                = 60 :: (str "script>" ++ body ++ str "</script>") ++ post).
  { change (str "<script>") with (60 :: str "script>"). cbn [app].
    now rewrite <- !app_assoc. }
  rewrite Heq in *. clear Heq.
  generalize dependent (str "script>" ++ body ++ str "</script>"). intros elt Hb.
  cbn [replace_from]. rewrite Hb. cbn [after app length].
  replace (S (length (elt ++ post)) - length post)%nat with (S (length elt))
    by (rewrite length_app; lia).
  rewrite replace_from_skip.
  rewrite <- (app_nil_r post) at 1. rewrite (Hcopy post _ [] Hpost).
  cbn [replace_from]. rewrite script_cannot_start by exact I. now rewrite app_nil_r.
Qed.

Lemma javascript_scheme_absent bef aft :
  58 ∉ aft -> exec_at javascriptSchemeRegex (MPos bef aft) = None.
Proof.
  intros Hno. unfold exec_at. cbn [ast javascriptSchemeRegex ignoreCase].
  destruct (matcher true (lit "javascript:") (MPos bef aft) Some) as [z|] eqn:Hm;
    [| reflexivity].
  exfalso. apply Hno.
  apply (matcher_lit_needs true "javascript:" 58 Some (MPos bef aft) z);
    [| left; reflexivity | left; reflexivity | exact Hm].
  apply list_elem_of_In. cbn. tauto.
Qed.

Lemma event_handler_absent bef aft :
  61 ∉ aft -> exec_at eventHandlerRegex (MPos bef aft) = None.
Proof.
  intros Hno. unfold exec_at. cbn [ast eventHandlerRegex ignoreCase].
  destruct (matcher true _ (MPos bef aft) Some) as [z|] eqn:Hm; [| reflexivity].
  exfalso. apply Hno.
  rewrite matcher_Seq in Hm. apply matcher_continues in Hm as (y & [p Hy] & Hm).
  rewrite matcher_Seq in Hm. apply matcher_continues in Hm as (y' & [p' Hy'] & Hm).
  apply matcher_needs_char in Hm; [| left; reflexivity | left; reflexivity].
  cbn [after] in Hy. rewrite Hy, Hy'. rewrite !elem_of_app. auto.
Qed.

Lemma replace_absent re repl c s :
  (forall bef aft, c ∉ aft -> exec_at re (MPos bef aft) = None) ->
  c ∉ s -> replace re repl s = s.
Proof.
  intros Hnone Hs. unfold replace.
  apply (replace_from_no_match re repl (fun aft => c ∉ aft)); [| exact Hnone | exact Hs].
  intros c' s' Hc Hin. apply Hc. apply elem_of_cons. now right.
Qed.

Lemma script_element_absent bef aft :
  60 ∉ aft -> exec_at scriptElementRegex (MPos bef aft) = None.
Proof.
  intros Hno. apply script_cannot_start. destruct aft as [|c aft]; [exact I |].
  intros ->. apply Hno. apply elem_of_cons. now left.
Qed.

(** Text without [<], [:] and [=] is only trimmed. *)
Lemma sanitizeString_plain s :
  60 ∉ s -> 58 ∉ s -> 61 ∉ s -> sanitizeString s = trim s.
Proof.
  intros H60 H58 H61. unfold sanitizeString.
  rewrite (replace_absent scriptElementRegex [] 60 s script_element_absent H60).
  rewrite (replace_absent javascriptSchemeRegex [] 58 s javascript_scheme_absent H58).
  now rewrite (replace_absent eventHandlerRegex [] 61 s event_handler_absent H61).
Qed.

(** A script element in otherwise plain text is removed with its content,
    whatever the content is short of a [<]. *)
Lemma sanitizeString_script_element pre body post :
  60 ∉ pre ++ post -> 58 ∉ pre ++ post -> 61 ∉ pre ++ post -> 60 ∉ body ->
  sanitizeString (pre ++ str "<script>" ++ body ++ str "</script>" ++ post)
  = trim (pre ++ post).
Proof.
  intros H60 H58 H61 Hbody. unfold sanitizeString.
  rewrite replace_script_element; [| | exact Hbody |].
  - rewrite (replace_absent javascriptSchemeRegex [] 58 _ javascript_scheme_absent H58).
    now rewrite (replace_absent eventHandlerRegex [] 61 _ event_handler_absent H61).
  - intros Hin. apply H60, elem_of_app. now left.
  - intros Hin. apply H60, elem_of_app. now right.
Qed.

Lemma assign_lookup_ne (o : gmap jsstring value) key v k :
  k <> key -> assign o key v !! k = o !! k.
Proof.
  intros Hne. unfold assign. destruct (decide (key = str "__proto__")); [reflexivity |].
  apply lookup_insert_ne. congruence.
Qed.

Lemma assign_lookup_eq (o : gmap jsstring value) key v :
  key <> str "__proto__" -> assign o key v !! key = Some v.
Proof.
  intros Hne. unfold assign. rewrite decide_False by exact Hne. apply lookup_insert_eq.
Qed.

Lemma assign_lookup_proto (o : gmap jsstring value) key v :
  assign o key v !! str "__proto__" = o !! str "__proto__".
Proof.
  unfold assign. destruct (decide (key = str "__proto__")) as [|Hne]; [reflexivity |].
  apply lookup_insert_ne. exact Hne.
Qed.

Lemma sanitize_entries_lookup (l : list (jsstring * value)) k :
  k <> str "__proto__" ->
  NoDup l.*1 ->
  forall acc : gmap jsstring value,
    foldl (fun sanitized '(key, v) => assign sanitized key (sanitizeValue v)) acc l !! k
    = match (list_to_map l : gmap jsstring value) !! k with
      | Some v => Some (sanitizeValue v)
      | None => acc !! k
      end.
Proof.
  intros Hk. induction l as [|[key v] l IH]; intros Hnd acc.
  - cbn. now rewrite lookup_empty.
  - cbn [foldl fmap list_fmap fst] in *. apply NoDup_cons in Hnd as [Hnin Hnd].
    rewrite (IH Hnd). cbn [list_to_map foldr fst snd].
    destruct (decide (k = key)) as [-> | Hne].
    + rewrite lookup_insert_eq.
      rewrite (proj1 (not_elem_of_list_to_map l key) Hnin).
      now apply assign_lookup_eq.
    + rewrite lookup_insert_ne by congruence.
      destruct (list_to_map l !! k); [reflexivity |].
      now apply assign_lookup_ne.
Qed.

(** Every field under an ordinary key is copied, strings after the removals
    and the trim, other values unchanged; no field is added. *)
Lemma sanitizeInput_lookup (data : gmap jsstring value) k :
  k <> str "__proto__" ->
  sanitizeInput data !! k = sanitizeValue <$> data !! k.
Proof.
  intros Hk. unfold sanitizeInput, entries.
  rewrite (sanitize_entries_lookup _ k Hk (NoDup_fst_map_to_list data)).
  rewrite list_to_map_to_list, lookup_empty. now destruct (data !! k).
Qed.

(** The result never has an own property [__proto__], whatever the input. *)
Lemma sanitizeInput_proto (data : gmap jsstring value) :
  sanitizeInput data !! str "__proto__" = None.
Proof.
  unfold sanitizeInput.
  rewrite <- (lookup_empty (M := gmap jsstring) (A := value) (str "__proto__")).
  generalize (∅ : gmap jsstring value) as acc.
  induction (entries data) as [|[key v] l IH]; intros acc; [reflexivity |].
  cbn [foldl]. rewrite IH. apply assign_lookup_proto.
Qed.

(** C5 (the code does otherwise). A record as [JSON.parse] builds it may
    hold a field named [__proto__]; [sanitizeInput] does not pass it
    through: the assignment to that key of the fresh object creates no
    property.  The other field of the same record is sanitized. *)
Theorem sanitizeInput_drops_proto_field :
  let data : gmap jsstring value :=
    {[ str "__proto__" := VNum 5; str "name" := VStr (str "<script>alert(1)</script>John") ]} in
  data !! str "__proto__" = Some (VNum 5)
  /\ sanitizeInput data !! str "__proto__" = None
  /\ sanitizeInput data = {[ str "name" := VStr (str "John") ]}.
Proof.
  cbv zeta. split; [vm_compute; reflexivity |].
  split; [apply sanitizeInput_proto |].
  vm_compute. reflexivity.
Qed.

(** ** The schema provider *)

Lemma fetchSchema_total (fetched : Frontend.awaited Frontend.Response) (step : Z) :
  exists doc, Frontend.fetchSchema fetched step = Frontend.Fulfilled doc.
Proof.
  unfold Frontend.fetchSchema.
  destruct (Frontend.try_scraped fetched) as [[doc|]|]; eauto.
Qed.

Lemma fetchSchema_static (reachable : bool) (cache : option Server.file_content) (step : Z) :
  reachable = false \/ cache = None ->
  Frontend.fetchSchema (Frontend.fetch_backend reachable cache) step
  = Frontend.Fulfilled
      (Frontend.Static (if (step =? 1)%Z then Schema.step1Schema else Schema.step2Schema)).
Proof.
  intros [-> | ->]; [reflexivity |]. destruct reachable; reflexivity.
Qed.

(** C6. With the extraction endpoint unreachable and no cached document,
    [fetchSchema(1)] resolves to the static step-1 schema, whose list of
    fields is not empty; and whatever the fetch does (network failure, any
    status, a body that is not JSON), [fetchSchema] resolves and never
    rejects. *)
Theorem fetchSchema_falls_back_to_static
  (reachable : bool) (cache : option Server.file_content) :
  reachable = false ->
  cache = None ->
  Frontend.fetchSchema (Frontend.fetch_backend reachable cache) 1
  = Frontend.Fulfilled (Frontend.Static Schema.step1Schema)
  /\ Schema.fields Schema.step1Schema <> []
  /\ forall fetched step, exists doc,
       Frontend.fetchSchema fetched step = Frontend.Fulfilled doc.
Proof.
  intros Hr Hc. split; [| split].
  - apply (fetchSchema_static reachable cache 1). now left.
  - discriminate.
  - apply fetchSchema_total.
Qed.

Lemma fetchSchema_falls_back_to_static_witness :
  Frontend.fetchSchema (Frontend.fetch_backend false None) 1
  = Frontend.Fulfilled (Frontend.Static Schema.step1Schema).
Proof.
  apply (fetchSchema_falls_back_to_static false None); reflexivity.
Defined.

(** ** The step-2 extractor *)

Lemma insert_by_permutation cmp x l :
  Permutation (ScrapeStep2.insert_by cmp x l) (x :: l).
Proof.
  induction l as [|y l IH]; cbn; [reflexivity |].
  destruct (cmp x y <=? 0)%Z; [reflexivity |].
  rewrite IH. apply perm_swap.
Qed.

Lemma insertion_sort_permutation cmp l :
  Permutation (ScrapeStep2.insertion_sort cmp l) l.
Proof.
  induction l as [|x l IH]; cbn; [reflexivity |].
  unfold ScrapeStep2.insertion_sort in IH. rewrite insert_by_permutation.
  now apply perm_skip.
Qed.

(** [filter] with a callback that may throw returns exactly when the
    callback returns on every element. *)
Lemma array_filter_Some {A : Type} (keep : A -> option bool) (l kept : list A) :
  ScrapeStep2.array_filter keep l = Some kept
  <-> Forall (fun x => is_Some (keep x)) l
      /\ kept = filter (fun x => keep x = Some true) l.
Proof.
  revert kept. induction l as [|x l IH]; intros kept; cbn [ScrapeStep2.array_filter].
  - split; [intros [= <-]; split; [constructor | reflexivity] | intros [_ ->]; reflexivity].
  - rewrite filter_cons, Forall_cons.
    destruct (keep x) as [b |] eqn:Hx; cbn [mbind option_bind].
    + destruct (ScrapeStep2.array_filter keep l) as [kept' |] eqn:Hl; cbn [mbind option_bind].
      * destruct (proj1 (IH kept') eq_refl) as [Hall ->].
        assert (Hb : (if b then x :: filter (fun x => keep x = Some true) l
                      else filter (fun x => keep x = Some true) l)
                     = if decide (Some b = Some true)
                       then x :: filter (fun x => keep x = Some true) l
                       else filter (fun x => keep x = Some true) l).
        { destruct b; [now rewrite decide_True | now rewrite decide_False]. }
        rewrite Hb. split.
        -- intros [= <-]. split; [split; [eauto | exact Hall] | reflexivity].
        -- intros [_ ->]. reflexivity.
      * split; [discriminate |]. intros [[_ Hall] _].
        assert (Hsome : None = Some (filter (fun x => keep x = Some true) l))
          by (apply IH; now split).
        discriminate.
    + split; [discriminate |]. intros [[[b Hb] _] _]. congruence.
Qed.

Lemma array_filter_None {A : Type} (keep : A -> option bool) (l : list A) :
  ScrapeStep2.array_filter keep l = None <-> exists x, x ∈ l /\ keep x = None.
Proof.
  split.
  - intros Hnone.
    destruct (decide (Forall (fun x => is_Some (keep x)) l)) as [Hall | Hex].
    + assert (Hsome : ScrapeStep2.array_filter keep l
                      = Some (filter (fun x => keep x = Some true) l))
        by (apply array_filter_Some; now split).
      congruence.
    + apply not_Forall_Exists in Hex; [| intros x; apply _].
      apply Exists_exists in Hex as (x & Hx & Hn). exists x. split; [exact Hx |].
      destruct (keep x) as [b |] eqn:Hk; [elim Hn; rewrite Hk; eauto | reflexivity].
  - intros (x & Hx & Hn). destruct (ScrapeStep2.array_filter keep l) as [kept |] eqn:Hl;
      [| reflexivity].
    apply array_filter_Some in Hl as [Hall _].
    apply (proj1 (Forall_forall _ _) Hall) in Hx as [b Hb]. congruence.
Qed.

Section Extractor.

Variable toLowerCase : jsstring -> jsstring.
Variable sort : (ScrapeStep2.field -> ScrapeStep2.field -> Z)
                -> list ScrapeStep2.field -> list ScrapeStep2.field.
Hypothesis sort_permutation : forall cmp l, Permutation (sort cmp l) l.

Lemma relevant_None el :
  ScrapeStep2.relevant toLowerCase el = None <-> ScrapeStep2.getLabel el = None.
Proof. unfold ScrapeStep2.relevant. destruct (ScrapeStep2.getLabel el); cbn; split; congruence. Qed.

Lemma toField_None el :
  ScrapeStep2.toField toLowerCase el = None <-> ScrapeStep2.getLabel el = None.
Proof. unfold ScrapeStep2.toField. destruct (ScrapeStep2.getLabel el); cbn; split; congruence. Qed.

(** The page evaluation throws exactly when a label lookup does. *)
Lemma evaluate_None inputs :
  ScrapeStep2.evaluate toLowerCase sort inputs = None
  <-> exists el, el ∈ inputs /\ ScrapeStep2.getLabel el = None.
Proof.
  unfold ScrapeStep2.evaluate. split.
  - intros Hnone.
    destruct (ScrapeStep2.array_filter _ inputs) as [kept |] eqn:Hf; cbn in Hnone.
    + apply array_filter_Some in Hf as [_ ->].
      destruct (mapM _ _) as [result |] eqn:Hm; cbn in Hnone; [discriminate |].
      apply mapM_None in Hm. apply Exists_exists in Hm as (el & Hel & Hn).
      apply list_elem_of_filter in Hel as [_ Hel]. apply toField_None in Hn. eauto.
    + apply array_filter_None in Hf as (el & Hel & Hn). apply relevant_None in Hn. eauto.
  - intros (el & Hel & Hn). apply relevant_None in Hn.
    assert (Hf : ScrapeStep2.array_filter (ScrapeStep2.relevant toLowerCase) inputs = None)
      by (apply array_filter_None; eauto).
    now rewrite Hf.
Qed.

(** What the page evaluation returns: the first six, after sorting, of the
    fields of the elements the filter keeps. *)
Lemma evaluate_Some inputs fields :
  ScrapeStep2.evaluate toLowerCase sort inputs = Some fields ->
  exists result,
    Forall2 (fun el f => ScrapeStep2.toField toLowerCase el = Some f)
      (filter (fun el => ScrapeStep2.relevant toLowerCase el = Some true) inputs) result
    /\ fields = take 6 (sort (ScrapeStep2.panFirst toLowerCase) result).
Proof.
  unfold ScrapeStep2.evaluate. intros Hsome.
  destruct (ScrapeStep2.array_filter _ inputs) as [kept |] eqn:Hf; cbn in Hsome;
    [| discriminate].
  apply array_filter_Some in Hf as [_ ->].
  destruct (mapM _ _) as [result |] eqn:Hm; cbn in Hsome; [| discriminate].
  injection Hsome as <-. apply mapM_Some in Hm. eauto.
Qed.

Lemma evaluate_length inputs fields :
  ScrapeStep2.evaluate toLowerCase sort inputs = Some fields ->
  length fields
  = (length (filter (fun el => ScrapeStep2.relevant toLowerCase el = Some true) inputs)
     `min` 6)%nat.
Proof.
  intros (result & Hres & ->)%evaluate_Some.
  rewrite length_take, (Permutation_length (sort_permutation _ _)).
  rewrite <- (Forall2_length _ _ _ Hres). lia.
Qed.

Lemma evaluate_nothing_relevant inputs :
  (forall el, el ∈ inputs -> ScrapeStep2.relevant toLowerCase el = Some false) ->
  ScrapeStep2.evaluate toLowerCase sort inputs = Some [].
Proof.
  intros Hnone.
  destruct (ScrapeStep2.evaluate toLowerCase sort inputs) as [fields |] eqn:He.
  - pose proof (evaluate_length inputs fields He) as Hlen.
    assert (Hf : filter (fun el => ScrapeStep2.relevant toLowerCase el = Some true) inputs = []).
    { destruct (filter _ inputs) as [|el kept] eqn:Hk; [reflexivity |].
      assert (Hel : el ∈ filter (fun el => ScrapeStep2.relevant toLowerCase el = Some true)
                         inputs) by (rewrite Hk; apply elem_of_cons; now left).
      apply list_elem_of_filter in Hel as [Hrel Hel]. rewrite (Hnone el Hel) in Hrel.
      discriminate. }
    rewrite Hf in Hlen. cbn in Hlen. now destruct fields.
  - apply evaluate_None in He as (el & Hel & Hn). apply relevant_None in Hn.
    rewrite (Hnone el Hel) in Hn. discriminate.
Qed.

(** C8. Whenever the extractor writes a document its list of fields is not
    empty: if the keyword filter keeps none of the elements, the document
    written is the hand-authored default, which holds the PAN, pincode,
    state and city fields; and once navigation succeeds on a page where the
    filter keeps nothing, that default is written. *)
Theorem run_never_writes_empty_schema
  (first second : bool) (inputs : list ScrapeStep2.element) :
  (forall doc, ScrapeStep2.run toLowerCase sort first second inputs = Some doc ->
     ScrapeStep2.fields doc <> []
     /\ ((forall el, el ∈ inputs -> ScrapeStep2.relevant toLowerCase el <> Some true) ->
         doc = ScrapeStep2.createFallback))
  /\ (ScrapeStep2.navigate first second = true ->
      (forall el, el ∈ inputs -> ScrapeStep2.relevant toLowerCase el = Some false) ->
      ScrapeStep2.run toLowerCase sort first second inputs
      = Some ScrapeStep2.createFallback)
  /\ map ScrapeStep2.id (ScrapeStep2.fields ScrapeStep2.createFallback)
     = [str "panNumber"; str "pincode"; str "state"; str "city"].
Proof.
  split; [| split; [| reflexivity]].
  - unfold ScrapeStep2.run. destruct (ScrapeStep2.navigate first second); [| discriminate].
    intros doc Hdoc.
    destruct (ScrapeStep2.evaluate toLowerCase sort inputs) as [fields |] eqn:He;
      cbn in Hdoc; [| discriminate].
    injection Hdoc as <-. split.
    + destruct fields as [|f l]; cbn; discriminate.
    + intros Hnone.
      assert (Hno : forall el, el ∈ inputs -> ScrapeStep2.relevant toLowerCase el = Some false).
      { intros el Hel. specialize (Hnone el Hel).
        destruct (ScrapeStep2.relevant toLowerCase el) as [[|] |] eqn:Hr;
          [contradiction | reflexivity |].
        apply relevant_None in Hr.
        assert (Hthrow : ScrapeStep2.evaluate toLowerCase sort inputs = None)
          by (apply evaluate_None; eauto).
        congruence. }
      rewrite (evaluate_nothing_relevant inputs Hno) in He. injection He as <-. reflexivity.
  - intros Hnav Hnone. unfold ScrapeStep2.run.
    rewrite Hnav, (evaluate_nothing_relevant inputs Hnone). reflexivity.
Qed.

End Extractor.

(** A page whose only element is a labelled select with a keyword in its
    placeholder attribute: the filter reads the [placeholder] property,
    which a select lacks, keeps nothing, and the default is written. *)
Lemma run_never_writes_empty_schema_witness :
  ScrapeStep2.run ScrapeStep2.ascii_toLowerCase ScrapeStep2.insertion_sort false true
    [region_select]
  = Some ScrapeStep2.createFallback
  /\ ScrapeStep2.fields ScrapeStep2.createFallback <> [].
Proof.
  pose proof (run_never_writes_empty_schema ScrapeStep2.ascii_toLowerCase
                ScrapeStep2.insertion_sort insertion_sort_permutation
                false true [region_select]) as (Hwritten & Hdefault & _).
  assert (Hrun : ScrapeStep2.run ScrapeStep2.ascii_toLowerCase ScrapeStep2.insertion_sort
                   false true [region_select]
                 = Some ScrapeStep2.createFallback).
  { apply Hdefault; [reflexivity |].
    intros el Hel. apply list_elem_of_singleton in Hel as ->. vm_compute. reflexivity. }
  split; [exact Hrun |]. now apply (Hwritten _ Hrun).
Defined.

(** ** The repository's own tests, run on the embedding *)

Example test_aadhaar_correct :
  valid (validateAadhaar (VStr (str "234567890123"))) = true.
Proof. vm_compute. reflexivity. Qed.

Example test_aadhaar_starting_with_1 :
  validateAadhaar (VStr (str "123456789012"))
  = Invalid (str "Invalid Aadhaar format. Must be 12 digits starting with 2-9") None.
Proof. vm_compute. reflexivity. Qed.

Example test_aadhaar_rejected :
  map (fun s => valid (validateAadhaar (VStr (str s))))
      ["23456789012"; "23456789012a"; ""]%string
  = [false; false; false].
Proof. vm_compute. reflexivity. Qed.

Example test_pan :
  map (fun s => valid (validatePAN (VStr (str s))))
      ["ABCDE1234F"; "ABCD1234EF"; "ABCDE1234"; "abcde1234f"]%string
  = [true; false; false; false].
Proof. vm_compute. reflexivity. Qed.

Example test_otp :
  map (fun s => valid (validateOTP (VStr (str s)))) ["123456"; "12345"; "12345a"]%string
  = [true; false; false].
Proof. vm_compute. reflexivity. Qed.

Example test_pincode :
  map (fun s => valid (validatePincode (VStr (str s)))) ["560011"; "56001"; "56001a"]%string
  = [true; false; false].
Proof. vm_compute. reflexivity. Qed.

Example test_submission_complete :
  validateSubmission
    (VObj (<[str "entrepreneurName" := VStr (str "Test User")]>
             (<[str "panHolderName" := VStr (str "Test User")]> example_submission)))
  = Valid (VObj (<[str "entrepreneurName" := VStr (str "Test User")]>
                   (<[str "panHolderName" := VStr (str "Test User")]> example_submission))).
Proof. vm_compute. reflexivity. Qed.

Example test_submission_missing_fields :
  exists details,
    validateSubmission
      (VObj {[ str "aadhaarNumber" := VStr (str "234567890123");
               str "entrepreneurName" := VStr (str "Test User") ]})
    = Invalid (str "Validation failed") (Some details)
    /\ length details = 11%nat.
Proof. eexists. split; vm_compute; reflexivity. Qed.

Example test_submission_invalid_aadhaar :
  validateSubmission
    (VObj (<[str "aadhaarNumber" := VStr (str "123456789012")]> example_submission))
  = Invalid (str "Validation failed")
      (Some [{| code := invalid_string; path := [str "aadhaarNumber"];
                message := str "Invalid Aadhaar format" |}]).
Proof. vm_compute. reflexivity. Qed.

(** The double quote is code unit 34. *)
Example test_sanitize_script_tags :
  sanitizeInput
    {[ str "name" := VStr (str "<script>alert(" ++ [34] ++ str "xss" ++ [34]
                             ++ str ")</script>John Doe");
       str "email" := VStr (str "test@example.com") ]}
  = {[ str "name" := VStr (str "John Doe"); str "email" := VStr (str "test@example.com") ]}.
Proof. vm_compute. reflexivity. Qed.

Example test_sanitize_dangerous_attributes :
  sanitizeInput
    {[ str "name" := VStr (str "John Doe<img src=" ++ [34] ++ str "x" ++ [34]
                             ++ str " onerror=" ++ [34] ++ str "alert(1)" ++ [34] ++ str ">");
       str "description" := VStr (str "javascript:alert(" ++ [34] ++ str "xss" ++ [34]
                                    ++ str ")") ]}
  = {[ str "name" := VStr (str "John Doe<img src=" ++ [34] ++ str "x" ++ [34]
                             ++ str " " ++ [34] ++ str "alert(1)" ++ [34] ++ str ">");
       str "description" := VStr (str "alert(" ++ [34] ++ str "xss" ++ [34] ++ str ")") ]}.
Proof. vm_compute. reflexivity. Qed.

Example test_sanitize_safe_content :
  sanitizeInput
    {[ str "name" := VStr (str "John Doe"); str "email" := VStr (str "john@example.com");
       str "phone" := VStr (str "+91-98765-43210") ]}
  = {[ str "name" := VStr (str "John Doe"); str "email" := VStr (str "john@example.com");
       str "phone" := VStr (str "+91-98765-43210") ]}.
Proof. vm_compute. reflexivity. Qed.

Example test_api_invalid_pan :
  Server.status (Server.validate_pan {[ str "panNumber" := VStr (str "BADPAN0000X") ]})
  = 400%nat.
Proof. vm_compute. reflexivity. Qed.

(** * Further properties *)

(** ** The single-field validators, in full *)

Lemma six_digit_regex_format s : test otpRegex s = six_digit_format s.
Proof.
  rewrite (test_anchored otpRegex _ s eq_refl).
  cbn [ignoreCase otpRegex matcher]. unfold digit, six_digit_format.
  rewrite matcher_exactly, take_class_spec. cbn [after before].
  rewrite (forallb_ext_in_range 48 57 is_digit) by reflexivity.
  destruct (length s =? 6)%nat eqn:Hlen.
  - apply Nat.eqb_eq in Hlen.
    replace (6 <=? length s)%nat with true by (symmetry; apply Nat.leb_le; lia).
    rewrite take_ge, drop_ge by lia. cbn [andb].
    now destruct (forallb is_digit s).
  - apply Nat.eqb_neq in Hlen. cbn [andb].
    destruct ((6 <=? length s)%nat && forallb is_digit (take 6 s)) eqn:H1; [| reflexivity].
    cbn [matcher after].
    destruct (drop 6 s) eqn:Hend; [| reflexivity].
    apply andb_true_iff in H1 as [H1 _]. apply Nat.leb_le in H1.
    apply (f_equal length) in Hend. rewrite length_drop in Hend. cbn in Hend. lia.
Qed.

Lemma final_object_single key (v : value) :
  key <> str "__proto__" ->
  final_object [(key, {| issues := []; output := Some v |}, true)] = {[ key := v ]}.
Proof.
  intros Hkey. unfold final_object. cbn [foldl output].
  rewrite bool_decide_eq_false_2 by exact Hkey. cbn [negb andb].
  rewrite orb_true_r. apply insert_empty.
Qed.

Lemma validate_field_characterised key re msg s :
  key <> str "__proto__" ->
  validate_field [(key, ZString [CkRegex re msg])] key (VStr s)
  = if test re s then Valid (VObj {[ key := VStr s ]}) else Invalid msg None.
Proof.
  intros Hkey. rewrite validate_field_string.
  destruct (test re s); [| reflexivity]. now rewrite final_object_single.
Qed.

(** X1. [validatePAN] on a string: the PAN format is answered with the
    parsed object that holds the string under [panNumber], anything else
    with the format message. *)
Theorem validatePAN_characterised (s : jsstring) :
  validatePAN (VStr s)
  = if pan_format s
    then Valid (VObj {[ str "panNumber" := VStr s ]})
    else Invalid (str "Invalid PAN format. Expected: ABCDE1234F") None.
Proof.
  unfold validatePAN, panSchema.
  rewrite validate_field_characterised by discriminate.
  now rewrite panRegex_format.
Qed.

(** X2. [validateOTP] on a string: exactly the strings of six digits are
    valid, and the answer carries the string under [otp]. *)
Theorem validateOTP_characterised (s : jsstring) :
  validateOTP (VStr s)
  = if six_digit_format s
    then Valid (VObj {[ str "otp" := VStr s ]})
    else Invalid (str "Invalid OTP format. Must be 6 digits") None.
Proof.
  unfold validateOTP, otpSchema.
  rewrite validate_field_characterised by discriminate.
  now rewrite six_digit_regex_format.
Qed.

(** X3. [validatePincode] on a string: exactly the strings of six digits
    are valid, and the answer carries the string under [pincode]. *)
Theorem validatePincode_characterised (s : jsstring) :
  validatePincode (VStr s)
  = if six_digit_format s
    then Valid (VObj {[ str "pincode" := VStr s ]})
    else Invalid (str "Invalid PIN code format. Must be 6 digits") None.
Proof.
  unfold validatePincode, pincodeSchema.
  rewrite validate_field_characterised by discriminate.
  change pincodeRegex with otpRegex. now rewrite six_digit_regex_format.
Qed.

Lemma validate_field_not_string key checks v :
  (forall s, v <> VStr s) ->
  validate_field [(key, ZString checks)] key v
  = Invalid (message (invalid_type_issue [key] (str "string") v)) None.
Proof.
  intros Hv. unfold validate_field, safeParse, parse_object, parse_pairs, get, has.
  cbn [map]. rewrite lookup_singleton_eq. cbn [default from_option id].
  destruct v; try reflexivity. now elim (Hv s).
Qed.

(** X4. A value that is not a string is rejected by each of the four
    single-field validators with zod's type message: ``Required'' for
    [undefined], ``Expected string, received T'' otherwise; the format
    message is not used. *)
Theorem validators_reject_non_strings (v : value) :
  (forall s, v <> VStr s) ->
  let type_error :=
    Invalid (match v with
             | VUndefined => str "Required"
             | _ => str "Expected string, received " ++ parsedType v
             end) None in
  validateAadhaar v = type_error /\ validatePAN v = type_error
  /\ validateOTP v = type_error /\ validatePincode v = type_error.
Proof.
  intros Hv. cbv zeta.
  unfold validateAadhaar, validatePAN, validateOTP, validatePincode,
    aadhaarSchema, panSchema, otpSchema, pincodeSchema.
  rewrite !validate_field_not_string by exact Hv.
  destruct v; repeat split; try reflexivity; now elim (Hv s).
Qed.

Lemma validators_reject_non_strings_witness :
  validateAadhaar (VNum 234567890123)
  = Invalid (str "Expected string, received number") None
  /\ validateOTP VUndefined = Invalid (str "Required") None.
Proof.
  split.
  - apply (validators_reject_non_strings (VNum 234567890123)). discriminate.
  - apply (validators_reject_non_strings VUndefined). discriminate.
Defined.

(** ** The validation endpoints *)

Lemma validate_field_valid key re msg s :
  valid (validate_field [(key, ZString [CkRegex re msg])] key (VStr s)) = test re s.
Proof. rewrite validate_field_string. now destruct (test re s). Qed.

Lemma validate_field_not_string_valid key checks v :
  (forall s, v <> VStr s) -> valid (validate_field [(key, ZString checks)] key v) = false.
Proof. intros Hv. now rewrite validate_field_not_string. Qed.

(** The common shape of the four handlers. *)
Lemma endpoint_status_200 (field : value) (result : validation_result)
  (required ok : jsstring) :
  Server.status
    (if negb (Server.truthy field) then
       {| Server.status := 400; Server.json := Server.RequiredError required |}
     else
       match result with
       | Valid _ => {| Server.status := 200; Server.json := Server.FieldOk true ok |}
       | Invalid error _ =>
           {| Server.status := 400; Server.json := Server.FieldError false error |}
       end) = 200%nat
  <-> Server.truthy field = true /\ valid result = true.
Proof.
  destruct (Server.truthy field), result; cbn; split; try easy; intros [? ?]; easy.
Qed.

Lemma get_string (o : gmap jsstring value) key s :
  get o key = VStr s <-> o !! key = Some (VStr s).
Proof.
  unfold get. destruct (o !! key) as [v|]; cbn; split; congruence.
Qed.

(** What the four handlers share: a truthy field that the validator accepts
    is a string that passes the pattern of the field. *)
Lemma endpoint_accepts (reqBody : gmap jsstring value) key re msg (fmt : jsstring -> bool) :
  (forall s, test re s = fmt s) ->
  fmt [] = false ->
  (Server.truthy (get reqBody key) = true
   /\ valid (validate_field [(key, ZString [CkRegex re msg])] key (get reqBody key)) = true)
  <-> exists s, reqBody !! key = Some (VStr s) /\ fmt s = true.
Proof.
  intros Hfmt Hnil. split.
  - intros [_ Hvalid].
    destruct (get reqBody key) as [| | | |s| |] eqn:Hget;
      try (rewrite validate_field_not_string_valid in Hvalid by discriminate; discriminate).
    exists s. split; [now apply get_string |].
    now rewrite validate_field_valid, Hfmt in Hvalid.
  - intros (s & Hs & Hs'). apply get_string in Hs. rewrite Hs.
    split; [destruct s; [congruence | reflexivity] |].
    now rewrite validate_field_valid, Hfmt.
Qed.

(** X5. The handlers of the four validation routes, for a request that has
    passed the middleware in front of them (rate limiter and JSON body
    parser) and reaches them with [req.body]: a handler answers 200 exactly
    when its field of [req.body] is a string of the field's format, and 400
    in every other case: a missing field, a falsy value, a value that is
    not a string (a JSON number of twelve digits, say) or a string of
    another shape.  A handler sets no other status. *)
Theorem validation_handlers_accept_exactly_the_formats (reqBody : gmap jsstring value) :
  (Server.status (Server.validate_aadhaar reqBody) = 200%nat
   <-> exists s, reqBody !! str "aadhaarNumber" = Some (VStr s) /\ aadhaar_format s = true)
  /\ (Server.status (Server.validate_pan reqBody) = 200%nat
      <-> exists s, reqBody !! str "panNumber" = Some (VStr s) /\ pan_format s = true)
  /\ (Server.status (Server.validate_otp reqBody) = 200%nat
      <-> exists s, reqBody !! str "otp" = Some (VStr s) /\ six_digit_format s = true)
  /\ (Server.status (Server.validate_pincode reqBody) = 200%nat
      <-> exists s, reqBody !! str "pincode" = Some (VStr s) /\ six_digit_format s = true)
  /\ (forall r, In r [Server.validate_aadhaar reqBody; Server.validate_pan reqBody;
                      Server.validate_otp reqBody; Server.validate_pincode reqBody] ->
        Server.status r = 200%nat \/ Server.status r = 400%nat).
Proof.
  split; [| split; [| split; [| split]]].
  - unfold Server.validate_aadhaar. cbv zeta. rewrite endpoint_status_200.
    apply endpoint_accepts; [apply aadhaarRegex_format | reflexivity].
  - unfold Server.validate_pan. cbv zeta. rewrite endpoint_status_200.
    apply endpoint_accepts; [apply panRegex_format | reflexivity].
  - unfold Server.validate_otp. cbv zeta. rewrite endpoint_status_200.
    apply endpoint_accepts; [apply six_digit_regex_format | reflexivity].
  - unfold Server.validate_pincode. cbv zeta. rewrite endpoint_status_200.
    apply endpoint_accepts; [apply six_digit_regex_format | reflexivity].
  - intros r Hr. cbn [In] in Hr.
    unfold Server.validate_aadhaar, Server.validate_pan, Server.validate_otp,
      Server.validate_pincode in Hr. cbv zeta in Hr.
    repeat (destruct Hr as [<- | Hr];
            [ match goal with
              | |- context [if negb ?b then _ else _] => destruct b
              end; cbn [negb];
              [ match goal with
                | |- context [match ?r with Valid _ => _ | Invalid _ _ => _ end] =>
                    destruct r
                end; cbn; auto
              | cbn; auto ]
            | ]).
    destruct Hr.
Qed.

(** ** The submission endpoint, further *)

Lemma string_regex_clean re msg p v :
  issues (parse (ZString [CkRegex re msg]) p v) = [] ->
  exists s, v = VStr s /\ test re s = true.
Proof.
  destruct v; cbn; try discriminate. intros H. exists s. split; [reflexivity |].
  now destruct (test re s).
Qed.

Lemma string_min_clean msg p v :
  issues (parse (ZString [CkMin 1 msg]) p v) = [] ->
  exists s, v = VStr s /\ s <> [].
Proof.
  destruct v; cbn; try discriminate. intros H. exists s. split; [reflexivity |].
  now destruct s.
Qed.

Lemma flag_clean msg p v :
  issues (parse (ZRefine ZBoolean is_true msg) p v) = [] -> v = VBool true.
Proof.
  destruct v as [| |[|]| | | |]; cbn; try discriminate. reflexivity.
Qed.

Lemma submission_row_lookup aadhaar name otp org pan holder dob pincode state city k :
  k ∉ submission_fields -> k <> str "status" ->
  submission_row aadhaar name otp org pan holder dob pincode state city !! k = None.
Proof.
  intros Hnin Hst. unfold submission_row, submission_fields in *.
  cbn [list_to_map foldr fst snd].
  repeat (apply not_elem_of_cons in Hnin as [? Hnin]).
  repeat (rewrite lookup_insert_ne by congruence).
  apply lookup_empty.
Qed.

(** What the endpoint's schema accepts: an object whose thirteen fields are
    well formed; the parsed data holds these fields and no other. *)
Lemma server_accepts_shape (data : gmap jsstring value) d :
  safeParse Server.submissionSchema (VObj data) = Success d ->
  exists aadhaar name otp org pan holder dob pincode state city,
    (forall k, k ∈ submission_fields ->
       data !! k
       = submission_row aadhaar name otp org pan holder dob pincode state city !! k)
    /\ d = VObj (delete (str "status")
                  (submission_row aadhaar name otp org pan holder dob pincode state city))
    /\ aadhaar_format aadhaar = true /\ six_digit_format otp = true
    /\ pan_format pan = true /\ six_digit_format pincode = true
    /\ name <> [] /\ org <> [] /\ holder <> [] /\ dob <> [] /\ state <> [] /\ city <> [].
Proof.
  intros H. apply safeParse_Success in H as (data' & Heq & Hall & ->).
  injection Heq as <-.
  assert (Hget : forall k v, get data k = v -> v <> VUndefined -> data !! k = Some v).
  { intros k v <- Hv. now apply get_defined. }
  pose proof (Hall (str "aadhaarNumber") _ ltac:(cbn; tauto)) as H1.
  pose proof (Hall (str "entrepreneurName") _ ltac:(cbn; tauto)) as H2.
  pose proof (Hall (str "consent") _ ltac:(cbn; tauto)) as H3.
  pose proof (Hall (str "otp") _ ltac:(cbn; tauto)) as H4.
  pose proof (Hall (str "otpVerified") _ ltac:(cbn; tauto)) as H5.
  pose proof (Hall (str "organisationType") _ ltac:(cbn; tauto)) as H6.
  pose proof (Hall (str "panNumber") _ ltac:(cbn; tauto)) as H7.
  pose proof (Hall (str "panHolderName") _ ltac:(cbn; tauto)) as H8.
  pose proof (Hall (str "dob") _ ltac:(cbn; tauto)) as H9.
  pose proof (Hall (str "panConsent") _ ltac:(cbn; tauto)) as H10.
  pose proof (Hall (str "pincode") _ ltac:(cbn; tauto)) as H11.
  pose proof (Hall (str "state") _ ltac:(cbn; tauto)) as H12.
  pose proof (Hall (str "city") _ ltac:(cbn; tauto)) as H13.
  apply string_regex_clean in H1 as (aadhaar & G1 & F1).
  apply string_min_clean in H2 as (name & G2 & F2).
  apply flag_clean in H3 as G3.
  apply string_regex_clean in H4 as (otp & G4 & F4).
  apply flag_clean in H5 as G5.
  apply string_min_clean in H6 as (org & G6 & F6).
  apply string_regex_clean in H7 as (pan & G7 & F7).
  apply string_min_clean in H8 as (holder & G8 & F8).
  apply string_min_clean in H9 as (dob & G9 & F9).
  apply flag_clean in H10 as G10.
  apply string_regex_clean in H11 as (pincode & G11 & F11).
  apply string_min_clean in H12 as (state & G12 & F12).
  apply string_min_clean in H13 as (city & G13 & F13).
  exists aadhaar, name, otp, org, pan, holder, dob, pincode, state, city.
  assert (Hdata : forall k, k ∈ submission_fields ->
            data !! k
            = submission_row aadhaar name otp org pan holder dob pincode state city !! k).
  { intros k Hk. unfold submission_fields in Hk.
    repeat (apply elem_of_cons in Hk as [-> | Hk];
            [ erewrite Hget by (eassumption || discriminate); reflexivity |]).
    now apply elem_of_nil in Hk. }
  split; [exact Hdata |].
  rewrite aadhaarRegex_format in F1. rewrite six_digit_regex_format in F4.
  rewrite panRegex_format in F7.
  change pincodeRegex with otpRegex in F11. rewrite six_digit_regex_format in F11.
  repeat (split; [| try assumption]); try assumption.
  f_equal. apply map_eq. intros k.
  rewrite final_object_clean.
  2:{ intros key sch Hin. split; [now apply (server_keys_ordinary key sch) |].
      now apply Hall. }
  rewrite server_schema_fields.
  destruct (decide (k ∈ submission_fields)) as [Hin | Hnin].
  - rewrite lookup_delete_ne; [now apply Hdata |].
    intros <-. revert Hin. vm_compute. intros Hin.
    apply list_elem_of_In in Hin. cbn in Hin. intuition discriminate.
  - destruct (decide (k = str "status")) as [-> | Hst].
    + now rewrite lookup_delete_eq.
    + rewrite lookup_delete_ne by congruence. symmetry.
      now apply submission_row_lookup.
Qed.

Lemma create_data_row aadhaar name otp org pan holder dob pincode state city :
  Server.create_data
    (delete (str "status")
       (submission_row aadhaar name otp org pan holder dob pincode state city))
  = submission_row aadhaar name otp org pan holder dob pincode state city.
Proof.
  apply map_eq. intros k. rewrite create_data_lookup.
  destruct (decide (k = str "status")) as [-> | Hst]; [reflexivity |].
  destruct (decide (k ∈ submission_fields)) as [Hin | Hnin].
  - unfold submission_fields in Hin.
    repeat (apply elem_of_cons in Hin as [-> | Hin]; [reflexivity |]).
    now apply elem_of_nil in Hin.
  - symmetry. now apply submission_row_lookup.
Qed.

(** X6. The sink is only ever handed a well-formed row: the answer of
    [/submit] depends on the sink through nothing but what [create] does on
    rows whose Aadhaar, OTP, PAN and pincode have their formats, whose other
    strings are not empty, whose three flags are [true] and whose status is
    ``pending''. *)
Theorem submit_hands_the_sink_well_formed_rows
  (reqBody : value) (c c' : Server.PrismaClient) :
  (forall row, well_formed_row row -> Server.create c row = Server.create c' row) ->
  Server.submit reqBody (Some c) = Server.submit reqBody (Some c').
Proof.
  intros Hagree. unfold Server.submit.
  destruct (safeParse Server.submissionSchema reqBody) as [d | |] eqn:Hparse;
    try reflexivity.
  pose proof Hparse as Hobj. apply safeParse_Success in Hobj as (data & -> & _).
  apply server_accepts_shape in Hparse
    as (aadhaar & name & otp & org & pan & holder & dob & pincode & state & city
        & _ & -> & Hf).
  cbn [Server.props_of]. rewrite create_data_row.
  rewrite (Hagree (submission_row aadhaar name otp org pan holder dob pincode state city));
    [reflexivity |].
  exists aadhaar, name, otp, org, pan, holder, dob, pincode, state, city.
  split; [reflexivity | exact Hf].
Qed.

(** Two sinks that differ on the empty row only. *)
Lemma submit_hands_the_sink_well_formed_rows_witness :
  Server.submit (VObj example_submission) (Some storing_client)
  = Server.submit (VObj example_submission)
      (Some {| Server.create := fun row =>
                 if bool_decide (row = ∅) then Server.CreateThrows None
                 else Server.create storing_client row |}).
Proof.
  apply submit_hands_the_sink_well_formed_rows.
  intros row (aadhaar & name & otp & org & pan & holder & dob & pincode & state & city
              & -> & _).
  cbn [Server.create]. rewrite bool_decide_eq_false_2; [reflexivity |].
  intros Heq. apply (f_equal (fun m => m !! str "status")) in Heq.
  vm_compute in Heq. discriminate.
Defined.

(** X7. The handler of [/submit], reached with an array as [req.body] (a
    request whose JSON body is an array), answers 400 with a single issue,
    at the root path: ``Expected object, received array''.  Reached with
    the empty object (what the body parser leaves for a request without a
    body) it answers 400 with thirteen issues ``Required'', one for each
    declared field, in declaration order.  The sink is consulted in neither
    case. *)
Theorem submit_rejects_arrays_and_empty_bodies
  (items : list value) (client : option Server.PrismaClient) :
  Server.submit (VArr items) client
  = {| Server.status := 400;
       Server.json :=
         Server.ValidationFailed (str "Validation failed")
           [{| code := invalid_type; path := [];
               message := str "Expected object, received array" |}] |}
  /\ Server.submit (VObj ∅) client
     = {| Server.status := 400;
          Server.json :=
            Server.ValidationFailed (str "Validation failed")
              (map (fun key => {| code := invalid_type; path := [key];
                                  message := str "Required" |})
                 submission_fields) |}.
Proof. split; reflexivity. Qed.

(** X8. The schema of the endpoint and the schema of the service differ on
    long names only: a record the endpoint accepts is accepted by
    [validateSubmission] with the same data when both names have at most a
    hundred code units, and rejected with ``Name too long'' for each longer
    name otherwise. *)
Theorem endpoint_and_service_differ_on_long_names (data : gmap jsstring value) (d : value) :
  safeParse Server.submissionSchema (VObj data) = Success d ->
  exists name holder,
    data !! str "entrepreneurName" = Some (VStr name)
    /\ data !! str "panHolderName" = Some (VStr holder)
    /\ validateSubmission (VObj data)
       = if (length name <=? 100)%nat && (length holder <=? 100)%nat
         then Valid d
         else Invalid (str "Validation failed")
                (Some (name_too_long (str "entrepreneurName") name
                       ++ name_too_long (str "panHolderName") holder)).
Proof.
  intros Hparse. pose proof Hparse as Hshape.
  apply server_accepts_shape in Hshape
    as (aadhaar & name & otp & org & pan & holder & dob & pincode & state & city
        & Hdata & Hd & F1 & F4 & F7 & F11 & F2 & F6 & F8 & F9 & F12 & F13).
  exists name, holder.
  assert (Hget : forall k, k ∈ submission_fields ->
            get data k
            = get (submission_row aadhaar name otp org pan holder dob pincode state city) k).
  { intros k Hk. unfold get. now rewrite Hdata. }
  split; [rewrite Hdata by (vm_compute; apply list_elem_of_In; cbn; tauto); reflexivity |].
  split; [rewrite Hdata by (vm_compute; apply list_elem_of_In; cbn; tauto); reflexivity |].
  assert (Hiss : flat_map (fun '(key, sch) => issues (parse sch [key] (get data key)))
                   submissionSchema
                 = name_too_long (str "entrepreneurName") name
                   ++ name_too_long (str "panHolderName") holder).
  { unfold submissionSchema. cbn [flat_map].
    rewrite !Hget by (apply list_elem_of_In; cbn; tauto).
    change (get (submission_row aadhaar name otp org pan holder dob pincode state city)
              (str "aadhaarNumber")) with (VStr aadhaar).
    change (get (submission_row aadhaar name otp org pan holder dob pincode state city)
              (str "entrepreneurName")) with (VStr name).
    change (get (submission_row aadhaar name otp org pan holder dob pincode state city)
              (str "consent")) with (VBool true).
    change (get (submission_row aadhaar name otp org pan holder dob pincode state city)
              (str "otp")) with (VStr otp).
    change (get (submission_row aadhaar name otp org pan holder dob pincode state city)
              (str "otpVerified")) with (VBool true).
    change (get (submission_row aadhaar name otp org pan holder dob pincode state city)
              (str "organisationType")) with (VStr org).
    change (get (submission_row aadhaar name otp org pan holder dob pincode state city)
              (str "panNumber")) with (VStr pan).
    change (get (submission_row aadhaar name otp org pan holder dob pincode state city)
              (str "panHolderName")) with (VStr holder).
    change (get (submission_row aadhaar name otp org pan holder dob pincode state city)
              (str "dob")) with (VStr dob).
    change (get (submission_row aadhaar name otp org pan holder dob pincode state city)
              (str "panConsent")) with (VBool true).
    change (get (submission_row aadhaar name otp org pan holder dob pincode state city)
              (str "pincode")) with (VStr pincode).
    change (get (submission_row aadhaar name otp org pan holder dob pincode state city)
              (str "state")) with (VStr state).
    change (get (submission_row aadhaar name otp org pan holder dob pincode state city)
              (str "city")) with (VStr city).
    cbn [parse issues flat_map check_issues is_true output app].
    rewrite aadhaarRegex_format, F1, six_digit_regex_format, F4, panRegex_format, F7.
    change pincodeRegex with otpRegex. rewrite six_digit_regex_format, F11.
    destruct name; [congruence |]. destruct org; [congruence |].
    destruct holder; [congruence |]. destruct dob; [congruence |].
    destruct state; [congruence |]. destruct city; [congruence |].
    cbn [length Nat.ltb Nat.leb app]. unfold name_too_long.
    cbn [length Nat.ltb Nat.leb app]. now rewrite !app_nil_r. }
  unfold validateSubmission, safeParse, handleResult.
  rewrite issues_parse_object. cbn [app]. rewrite Hiss. unfold name_too_long.
  rewrite !Nat.ltb_antisym.
  destruct (length name <=? 100)%nat eqn:Hn; destruct (length holder <=? 100)%nat eqn:Hh;
    cbn [andb negb app]; try reflexivity.
  assert (Hclean : forall key sch, In (key, sch) submissionSchema ->
            issues (parse sch [key] (get data key)) = []).
  { intros key sch Hin.
    assert (Hnil : flat_map (fun '(key, sch) => issues (parse sch [key] (get data key)))
                     submissionSchema = []).
    { rewrite Hiss. unfold name_too_long. rewrite !Nat.ltb_antisym, Hn, Hh. reflexivity. }
    apply (proj1 (flat_map_nil _ _) Hnil (key, sch) Hin). }
  rewrite (output_parse_object_clean submissionSchema [] data Hclean).
  apply safeParse_Success in Hparse as (data' & Heq & Hall' & ->).
  injection Heq as <-. do 2 f_equal. apply map_eq. intros k.
  rewrite !final_object_clean.
  - now rewrite service_schema_fields, server_schema_fields.
  - intros key sch Hin. split; [now apply (server_keys_ordinary key sch) | now apply Hall'].
  - intros key sch Hin.
    split; [now apply (submission_keys_ordinary key sch) | now apply Hclean].
Qed.

(** A name of 101 letters: accepted by the endpoint, refused by the service. *)
Lemma endpoint_and_service_differ_on_long_names_witness :
  Server.status (Server.submit (VObj long_name_submission) None) = 202%nat
  /\ validateSubmission (VObj long_name_submission)
     = Invalid (str "Validation failed")
         (Some [{| code := too_big; path := [str "entrepreneurName"];
                   message := str "Name too long" |}]).
Proof.
  split; [vm_compute; reflexivity |].
  destruct (endpoint_and_service_differ_on_long_names long_name_submission
              (VObj long_name_submission))
    as (name & holder & Hn & Hh & Hv).
  - vm_compute. reflexivity.
  - vm_compute in Hn. vm_compute in Hh. injection Hn as <-. injection Hh as <-.
    rewrite Hv. vm_compute. reflexivity.
Defined.

(** ** The sanitizer, further *)

(** X9. [sanitizeInput] keeps the fields of a record apart: under every key
    but [__proto__] a string is replaced by its sanitized text, any other
    value is kept as it is, and no field is added. *)
Theorem sanitizeInput_copies_ordinary_fields (data : gmap jsstring value) (k : jsstring) :
  k <> str "__proto__" ->
  (forall s, data !! k = Some (VStr s) ->
     sanitizeInput data !! k = Some (VStr (sanitizeString s)))
  /\ (forall v, data !! k = Some v -> (forall s, v <> VStr s) ->
        sanitizeInput data !! k = Some v)
  /\ (data !! k = None -> sanitizeInput data !! k = None).
Proof.
  intros Hk. rewrite (sanitizeInput_lookup data k Hk). split; [| split].
  - intros s ->. reflexivity.
  - intros v -> Hv. destruct v; try reflexivity. now elim (Hv s).
  - intros ->. reflexivity.
Qed.

Lemma sanitizeInput_copies_ordinary_fields_witness :
  sanitizeInput {[ str "age" := VNum 42 ]} !! str "age" = Some (VNum 42).
Proof.
  apply (sanitizeInput_copies_ordinary_fields {[ str "age" := VNum 42 ]} (str "age"));
    [discriminate | vm_compute; reflexivity | discriminate].
Defined.

Lemma javascript_cannot_start bef c aft :
  c <> 106 -> c <> 74 -> exec_at javascriptSchemeRegex (MPos bef (c :: aft)) = None.
Proof.
  intros H1 H2. unfold exec_at. cbn [ast javascriptSchemeRegex ignoreCase].
  change (lit "javascript:") with (Seq (Chr 106) (lit "avascript:")).
  rewrite matcher_Seq.
  destruct (matcher true (Chr 106) (MPos bef (c :: aft)) _) as [z|] eqn:Hm; [| reflexivity].
  apply matcher_Chr_head in Hm as (ch & rest & Ha & Heq). cbn [after] in Ha.
  injection Ha as <- <-. exfalso. revert Heq. unfold canonicalize. cbn [andb].
  destruct ((97 <=? c) && (c <=? 122)) eqn:Hc; cbn; intros Heq; lia.
Qed.

Lemma replace_from_miss re repl bef c aft :
  exec_at re (MPos bef (c :: aft)) = None ->
  replace_from re repl bef (c :: aft) 0 = c :: replace_from re repl (c :: bef) aft 0.
Proof. intros H. cbn [replace_from]. now rewrite H. Qed.

Lemma replace_from_match re repl bef w rest b :
  w <> [] ->
  exec_at re (MPos bef (w ++ rest)) = Some (MPos b rest) ->
  replace_from re repl bef (w ++ rest) 0
  = repl ++ replace_from re repl (rev w ++ bef) rest 0.
Proof.
  intros Hw H. destruct w as [|c w]; [congruence |].
  cbn [app replace_from] in *. rewrite H. cbn [after length]. f_equal.
  replace (S (length (w ++ rest)) - length rest)%nat with (S (length w))
    by (rewrite length_app; lia).
  rewrite replace_from_skip. cbn [rev]. now rewrite <- app_assoc.
Qed.

Lemma javascript_scheme_matches bef rest :
  exec_at javascriptSchemeRegex (MPos bef (str "javascript:" ++ rest))
  = Some (MPos (rev (str "javascript:") ++ bef) rest).
Proof.
  unfold exec_at. cbn [ast javascriptSchemeRegex ignoreCase].
  erewrite (matcher_lit_prefix true "javascript:" Some); [| cbn [after]; reflexivity].
  reflexivity.
Qed.

(** X10. One pass is all there is: the scheme can be put together by the
    removal itself.  Text that wraps the scheme around itself comes out
    with the scheme in it. *)
Theorem sanitizeString_leaves_nested_scheme (t : jsstring) :
  60 ∉ t -> 58 ∉ t -> 61 ∉ t ->
  sanitizeString (str "javajavascript:script:" ++ t) = trim (str "javascript:" ++ t).
Proof.
  intros H60 H58 H61. unfold sanitizeString.
  rewrite (replace_absent scriptElementRegex [] 60 _ script_element_absent).
  2:{ rewrite elem_of_app. intros [Hin | Hin]; [| easy].
      apply list_elem_of_In in Hin. vm_compute in Hin. intuition discriminate. }
  assert (Hjs : replace javascriptSchemeRegex [] (str "javajavascript:script:" ++ t)
                = str "javascript:" ++ t).
  { unfold replace.
    change (str "javajavascript:script:" ++ t)
      with (106 :: 97 :: 118 :: 97 :: str "javascript:" ++ str "script:" ++ t).
    assert (H0 : forall bef rest,
              exec_at javascriptSchemeRegex
                (MPos bef (106 :: 97 :: 118 :: 97 :: 106 :: rest)) = None)
      by (intros; vm_compute; reflexivity).
    rewrite replace_from_miss by apply H0.
    do 3 (rewrite replace_from_miss; [| apply javascript_cannot_start; discriminate]).
    rewrite (replace_from_match javascriptSchemeRegex [] _ (str "javascript:") _ _
               ltac:(discriminate) (javascript_scheme_matches _ _)).
    cbn [app].
    rewrite (replace_from_copy javascriptSchemeRegex [] (fun c => c <> 106 /\ c <> 74)).
    - rewrite (replace_from_no_match javascriptSchemeRegex [] (fun aft => 58 ∉ aft)).
      + reflexivity.
      + intros c s Hc Hin. apply Hc. apply elem_of_cons. now right.
      + intros bef aft. apply javascript_scheme_absent.
      + exact H58.
    - intros bef c aft [? ?]. now apply javascript_cannot_start.
    - repeat (apply Forall_cons; split; [split; discriminate |]). apply Forall_nil_2. }
  rewrite Hjs.
  rewrite (replace_absent eventHandlerRegex [] 61 _ event_handler_absent); [reflexivity |].
  rewrite elem_of_app. intros [Hin | Hin]; [| easy].
  apply list_elem_of_In in Hin. vm_compute in Hin. intuition discriminate.
Qed.

Lemma sanitizeString_leaves_nested_scheme_witness :
  sanitizeString (str "javajavascript:script:alert(1)") = str "javascript:alert(1)".
Proof.
  change (str "javajavascript:script:alert(1)")
    with (str "javajavascript:script:" ++ str "alert(1)").
  rewrite (sanitizeString_leaves_nested_scheme (str "alert(1)")).
  - vm_compute. reflexivity.
  - intros Hin. apply list_elem_of_In in Hin. vm_compute in Hin. intuition discriminate.
  - intros Hin. apply list_elem_of_In in Hin. vm_compute in Hin. intuition discriminate.
  - intros Hin. apply list_elem_of_In in Hin. vm_compute in Hin. intuition discriminate.
Defined.

(** A literal under [ignoreCase] matches every text that canonicalizes to
    its own. *)
Lemma matcher_lit_fold ic (w : string) k : forall w' x rest,
  after x = w' ++ rest ->
  map (canonicalize ic) w' = map (canonicalize ic) (str w) ->
  matcher ic (lit w) x k = k (MPos (rev w' ++ before x) rest).
Proof.
  unfold lit. induction (str w) as [|c l IH]; intros w' x rest Ha Hw;
    cbn [fold_right matcher].
  - destruct w'; [| discriminate]. destruct x; cbn in *. now subst.
  - destruct w' as [|c' w']; [discriminate |]. cbn [map] in Hw. injection Hw as Hc Hw.
    cbn [app] in Ha. rewrite Ha, Hc, N.eqb_refl.
    rewrite (IH w' (advance x c' (w' ++ rest)) rest eq_refl Hw).
    cbn [advance before rev]. now rewrite <- app_assoc.
Qed.

Lemma is_word_char_canonicalize c :
  is_word_char (canonicalize true c) = is_word_char c.
Proof.
  unfold canonicalize. cbn [andb].
  destruct ((97 <=? c) && (c <=? 122)) eqn:Hc; [| reflexivity].
  unfold is_word_char. rewrite Hc.
  apply andb_true_iff in Hc as [H1%N.leb_le H2%N.leb_le].
  cbn [orb].
  replace ((65 <=? c - 32) && (c - 32 <=? 90)) with true; [now rewrite orb_true_r |].
  symmetry. apply andb_true_iff. split; apply N.leb_le; lia.
Qed.

Lemma script_element_matches_any_case bef opening body closing post :
  map (canonicalize true) opening = map (canonicalize true) (str "<script>") ->
  map (canonicalize true) closing = map (canonicalize true) (str "</script>") ->
  60 ∉ body ->
  exists b,
    exec_at scriptElementRegex (MPos bef (opening ++ body ++ closing ++ post))
    = Some (MPos b post).
Proof.
  intros Hopen Hclose Hbody.
  assert (Hopen' : exists w c, opening = w ++ [c] /\ c = 62
            /\ map (canonicalize true) w = map (canonicalize true) (str "<script")
            /\ exists w' l, w = w' ++ [l] /\ is_word_char l = true).
  { do 9 (try destruct opening as [|? opening]; try discriminate).
    change (str "<script>") with [60; 115; 99; 114; 105; 112; 116; 62] in Hopen.
    cbn [map] in Hopen. injection Hopen as E1 E2 E3 E4 E5 E6 E7 E8.
    exists [n; n0; n1; n2; n3; n4; n5], n6. repeat split.
    - apply (canonicalize_not_letter true _ 62) in E8; [exact E8 | left; reflexivity ..].
    - change (str "<script") with [60; 115; 99; 114; 105; 112; 116].
      cbn [map]. now rewrite E1, E2, E3, E4, E5, E6, E7.
    - exists [n; n0; n1; n2; n3; n4], n5. split; [reflexivity |].
      rewrite <- is_word_char_canonicalize, E7. reflexivity. }
  destruct Hopen' as (w & c & -> & -> & Hw & w' & l & -> & Hword).
  destruct closing as [|d closing]; [discriminate |].
  assert (Hd : d = 60).
  { change (str "</script>") with [60; 47; 115; 99; 114; 105; 112; 116; 62] in Hclose.
    cbn [map] in Hclose. injection Hclose as Hd _.
    apply (canonicalize_not_letter true _ 60) in Hd; [exact Hd | left; reflexivity ..]. }
  eexists. unfold exec_at. cbn [ast scriptElementRegex ignoreCase].
  rewrite matcher_Seq.
  erewrite (matcher_lit_fold true "<script" _ (w' ++ [l]) _
             ((62 :: body) ++ (d :: closing) ++ post)); [| | exact Hw].
  2:{ cbn [after]. rewrite <- !app_assoc. reflexivity. }
  cbn [before]. rewrite rev_app_distr. cbn [rev app].
  rewrite matcher_Seq, matcher_WordBoundary.
  cbn [before after is_word_at app]. rewrite Hword.
  change (is_word_char 62) with false. cbn [xorb].
  rewrite matcher_Seq, matcher_star.
  apply (star_class_greedy true true [CChar 60] _ _ (62 :: body) _ _
           ((d :: closing) ++ post)).
  - reflexivity.
  - apply Forall_cons. split; [reflexivity |].
    apply Forall_forall. intros c Hc. apply not_lt_class. intros ->. now apply Hbody.
  - cbn [app]. rewrite Hd. reflexivity.
  - cbn [after app length]. rewrite length_app. lia.
  - cbn [before]. rewrite matcher_Seq, matcher_star, rep_loop_star_step.
    rewrite matcher_Seq, matcher_NegLookahead.
    erewrite (matcher_lit_fold true "</script>" Some (d :: closing) _ post);
      [reflexivity | cbn [after]; reflexivity | exact Hclose].
Qed.

Lemma replace_script_element_any_case pre opening body closing post :
  map (canonicalize true) opening = map (canonicalize true) (str "<script>") ->
  map (canonicalize true) closing = map (canonicalize true) (str "</script>") ->
  60 ∉ pre -> 60 ∉ body -> 60 ∉ post ->
  replace scriptElementRegex [] (pre ++ opening ++ body ++ closing ++ post) = pre ++ post.
Proof.
  intros Hopen Hclose Hpre Hbody Hpost. unfold replace.
  assert (Hcopy : forall w bef rest, 60 ∉ w ->
            replace_from scriptElementRegex [] bef (w ++ rest) 0
            = w ++ replace_from scriptElementRegex [] (rev w ++ bef) rest 0).
  { intros w bef rest Hw.
    apply (replace_from_copy scriptElementRegex [] (fun c => c <> 60)).
    - intros b c aft Hc. now apply script_cannot_start.
    - apply Forall_forall. intros c Hc ->. now apply Hw. }
  rewrite (Hcopy pre [] _ Hpre). f_equal.
  destruct (script_element_matches_any_case (rev pre ++ []) opening body closing post
              Hopen Hclose Hbody) as [b Hb].
  rewrite !app_assoc in *. rewrite <- (app_assoc opening) in *.
  rewrite (replace_from_match scriptElementRegex [] _ (opening ++ body ++ closing) post b).
  - cbn [app]. rewrite <- (app_nil_r post) at 1. rewrite (Hcopy post _ [] Hpost).
    cbn [replace_from]. rewrite script_cannot_start by exact I. now rewrite app_nil_r.
  - destruct opening; discriminate.
  - exact Hb.
Qed.

(** X11. A script element in otherwise plain text is removed together with
    its content, in whatever letter case its tags are written, and the
    remaining text is trimmed. *)
Theorem sanitizeString_removes_script_element (pre opening body closing post : jsstring) :
  map (canonicalize true) opening = map (canonicalize true) (str "<script>") ->
  map (canonicalize true) closing = map (canonicalize true) (str "</script>") ->
  60 ∉ pre ++ post -> 58 ∉ pre ++ post -> 61 ∉ pre ++ post -> 60 ∉ body ->
  sanitizeString (pre ++ opening ++ body ++ closing ++ post) = trim (pre ++ post).
Proof.
  intros Hopen Hclose H60 H58 H61 Hbody. unfold sanitizeString.
  rewrite replace_script_element_any_case; [| assumption | assumption | | exact Hbody |].
  - rewrite (replace_absent javascriptSchemeRegex [] 58 _ javascript_scheme_absent H58).
    now rewrite (replace_absent eventHandlerRegex [] 61 _ event_handler_absent H61).
  - intros Hin. apply H60, elem_of_app. now left.
  - intros Hin. apply H60, elem_of_app. now right.
Qed.

Lemma sanitizeString_removes_script_element_witness :
  sanitizeString (str "Hi <ScRiPt>alert(document.cookie)</SCRIPT> there ")
  = str "Hi  there".
Proof.
  change (str "Hi <ScRiPt>alert(document.cookie)</SCRIPT> there ")
    with (str "Hi " ++ str "<ScRiPt>" ++ str "alert(document.cookie)"
          ++ str "</SCRIPT>" ++ str " there ").
  rewrite sanitizeString_removes_script_element;
    [vm_compute; reflexivity | reflexivity | reflexivity | absent ..].
Defined.

(** X12. Text without [<], [:] and [=] goes through the three removals
    untouched: only the surrounding white space is trimmed. *)
Theorem sanitizeString_trims_plain_text (s : jsstring) :
  60 ∉ s -> 58 ∉ s -> 61 ∉ s -> sanitizeString s = trim s.
Proof. apply sanitizeString_plain. Qed.

Lemma sanitizeString_trims_plain_text_witness :
  sanitizeString (str "  +91-98765-43210 ") = str "+91-98765-43210".
Proof.
  rewrite sanitizeString_trims_plain_text; [vm_compute; reflexivity | absent ..].
Defined.

(** ** The schema provider against the extraction endpoint *)

(** X13. Against the back end (unreachable, or the rate limiter followed
    by the handler of [/scraped-schema/:step]), [fetchSchema] resolves to
    the cached document exactly when the back end is reachable, the client
    is within its rate limit and the cache file of the step parses; the
    document is handed on as it is.  In every other case (back end down,
    429 from the limiter, no file, a file that is not JSON) it resolves to
    a static schema: the step-1 schema for step 1, the step-2 schema for
    any other step. *)
Theorem fetchSchema_serves_cache_or_static
  (reachable over_limit : bool) (cache : option Server.file_content) (step : Z) :
  Frontend.fetchSchema (Frontend.fetch_limited reachable over_limit cache) step
  = Frontend.Fulfilled
      match reachable, over_limit, cache with
      | true, false, Some (Server.Json data) => Frontend.Scraped data
      | _, _, _ => Frontend.Static (if (step =? 1)%Z then Schema.step1Schema
                                    else Schema.step2Schema)
      end.
Proof.
  destruct reachable; [| reflexivity].
  destruct over_limit; [reflexivity |].
  destruct cache as [[data | e] |]; reflexivity.
Qed.

(** ** The extractors *)

Lemma retry_from_spec goto attempts : forall remaining i,
  (i + remaining = attempts)%nat ->
  ScrapeStep1.retry_from goto attempts i remaining = true
  <-> remaining = 0%nat \/ exists j, (i <= j < attempts)%nat /\ goto j = true.
Proof.
  induction remaining as [|r IH]; intros i Hi; cbn [ScrapeStep1.retry_from].
  - split; [now left | reflexivity].
  - destruct (goto i) eqn:Hg.
    + split; [| reflexivity]. intros _. right. exists i. split; [lia | exact Hg].
    + destruct (i =? attempts - 1)%nat eqn:Hlast.
      * apply Nat.eqb_eq in Hlast. split; [discriminate |].
        intros [? | (j & Hj & Hgj)]; [lia |].
        assert (j = i) as -> by lia. congruence.
      * apply Nat.eqb_neq in Hlast. rewrite (IH (S i)) by lia. split.
        -- intros [? | (j & Hj & Hgj)]; [lia |]. right. exists j. split; [lia | exact Hgj].
        -- intros [? | (j & Hj & Hgj)]; [lia |]. right. exists j. split; [| exact Hgj].
           destruct (decide (j = i)) as [-> |]; [congruence | lia].
Qed.

(** X14. [navigateWithRetry] with [n] attempts returns normally exactly
    when one of the first [n] calls of [page.goto] succeeds, or [n] is 0
    (then it returns without navigating at all); otherwise it throws. *)
Theorem navigateWithRetry_succeeds_iff (goto : nat -> bool) (attempts : nat) :
  ScrapeStep1.navigateWithRetry goto attempts = true
  <-> attempts = 0%nat \/ exists j, (j < attempts)%nat /\ goto j = true.
Proof.
  unfold ScrapeStep1.navigateWithRetry. rewrite (retry_from_spec goto attempts attempts 0 eq_refl).
  split; (intros [? | (j & Hj & Hg)]; [now left | right; exists j; split; [lia | exact Hg]]).
Qed.





Section ExtractorFields.

Variable toLowerCase : jsstring -> jsstring.
Variable sort : (ScrapeStep2.field -> ScrapeStep2.field -> Z)
                -> list ScrapeStep2.field -> list ScrapeStep2.field.
Hypothesis sort_permutation : forall cmp l, Permutation (sort cmp l) l.

(** X16. The step-2 page evaluation throws exactly when the label lookup
    throws on one of the elements.  When it returns, it returns at most six
    fields: as many as the keyword filter keeps, up to six, each one built
    by [toField] from an element of the page that the filter keeps.  The
    filter reads the result of [getLabel] and the [placeholder] property,
    which a select lacks, not the placeholder attribute as such. *)
Theorem evaluate_returns_relevant_fields (inputs : list ScrapeStep2.element) :
  (ScrapeStep2.evaluate toLowerCase sort inputs = None
   <-> exists el, el ∈ inputs /\ ScrapeStep2.getLabel el = None)
  /\ forall fields, ScrapeStep2.evaluate toLowerCase sort inputs = Some fields ->
       length fields
       = (length (filter (fun el => ScrapeStep2.relevant toLowerCase el = Some true) inputs)
          `min` 6)%nat
       /\ forall f, f ∈ fields ->
            exists el, el ∈ inputs /\ ScrapeStep2.relevant toLowerCase el = Some true
                       /\ ScrapeStep2.toField toLowerCase el = Some f.
Proof.
  split; [apply (evaluate_None toLowerCase sort) |].
  intros fields He. split; [now apply (evaluate_length toLowerCase sort sort_permutation) |].
  apply (evaluate_Some toLowerCase sort) in He as (result & Hres & ->).
  intros f Hf. eapply elem_of_sublist in Hf; [| apply sublist_take].
  rewrite (sort_permutation _ _) in Hf.
  apply list_elem_of_lookup in Hf as [n Hf].
  destruct (Forall2_lookup_r _ _ _ _ _ Hres Hf) as (el & Hel & Hfield).
  apply list_elem_of_lookup_2, list_elem_of_filter in Hel as [Hrel Hel]. eauto.
Qed.


End ExtractorFields.

(** ** The form page *)

Lemma aadhaarStart_head s :
  test Page.aadhaarStart s
  = match s with c :: _ => (50 <=? c) && (c <=? 57) | [] => false end.
Proof.
  rewrite (test_anchored Page.aadhaarStart _ s eq_refl).
  cbn [ignoreCase Page.aadhaarStart matcher after].
  destruct s as [|c s]; [reflexivity |].
  rewrite set_matches_range. unfold in_range.
  now destruct ((50 <=? c) && (c <=? 57)).
Qed.

Lemma has_field_error_insert errors name m :
  Page.has_field_error (<[name := m]> errors) name = truthy_str m.
Proof. unfold Page.has_field_error. now rewrite lookup_insert_eq. Qed.

(** Once [onChange] has cleared it, the entry of an own field is falsy. *)
Lemma has_field_error_cleared errors name :
  Page.has_field_error
    (if Page.has_field_error errors name then <[name := []]> errors else errors) name
  = false.
Proof.
  destruct (Page.has_field_error errors name) eqn:H; [| exact H].
  apply has_field_error_insert.
Qed.

Lemma nonempty_length (s : jsstring) : truthy_str s = true -> (0 <? length s)%nat = true.
Proof. destruct s; [discriminate | reflexivity]. Qed.

Lemma pan_format_length s : pan_format s = true -> (length s =? 10)%nat = true.
Proof. unfold pan_format. now intros [[[H _]%andb_true_iff _]%andb_true_iff _]%andb_true_iff. Qed.

Lemma aadhaar_format_start s :
  aadhaar_format s = true ->
  (length s =? 12)%nat = true
  /\ match s with c :: _ => (50 <=? c) && (c <=? 57) | [] => false end = true.
Proof.
  unfold aadhaar_format. intros [[H _]%andb_true_iff H']%andb_true_iff. now split.
Qed.

(** X18. After the PAN field changes to the text [s], the page shows a
    field error exactly when [s] is not empty and the back end's
    [validatePAN] rejects it; for a text of ten characters the error shown
    is the validator's own message. *)
Theorem onChange_pan_agrees_with_validator (s : jsstring) (st : Page.state) :
  let st' := Page.onChange (str "panNumber") (Page.Text s) st in
  Page.has_field_error (Page.fieldErrors st') (str "panNumber")
  = truthy_str s && negb (valid (validatePAN (VStr s)))
  /\ (length s = 10%nat ->
      forall error, validatePAN (VStr s) = Invalid error None ->
                    Page.fieldErrors st' !! str "panNumber" = Some error).
Proof.
  unfold validatePAN, panSchema. rewrite validate_field_valid, validate_field_characterised
    by discriminate.
  rewrite panRegex_format.
  unfold Page.onChange. cbn zeta.
  change (bool_decide (str "panNumber" = str "aadhaarNumber")) with false.
  change (bool_decide (str "panNumber" = str "entrepreneurName")) with false.
  change (bool_decide (str "panNumber" = str "consent")) with false.
  change (bool_decide (str "panNumber" = str "panNumber")) with true.
  rewrite andb_false_r. cbn [orb andb Page.to_value Server.truthy].
  destruct (truthy_str s) eqn:Hs.
  - unfold Page.check_pan. rewrite (nonempty_length s Hs), panRegex_format.
    cbn [andb]. destruct (length s =? 10)%nat eqn:Hlen; cbn [negb andb].
    + destruct (pan_format s) eqn:Hfmt; cbn [negb Page.set_fieldErrors Page.fieldErrors];
        (split; [apply has_field_error_insert |]); intros _ error Herr;
        [discriminate | injection Herr as <-; apply lookup_insert_eq].
    + cbn [Page.set_fieldErrors Page.fieldErrors]. rewrite has_field_error_insert.
      destruct (pan_format s) eqn:Hfmt.
      * apply pan_format_length in Hfmt. congruence.
      * split; [reflexivity |]. intros H. apply Nat.eqb_neq in Hlen. contradiction.
  - destruct s; [| discriminate]. split.
    + destruct (Page.has_field_error (Page.fieldErrors st) (str "panNumber")) eqn:H;
        cbn [Page.set_fieldErrors Page.set_values Page.fieldErrors];
        [apply has_field_error_insert | exact H].
    + discriminate.
Qed.

(** X19. After the Aadhaar field changes to the text [s], the page shows a
    field error exactly when [s] is not empty and either is not twelve
    characters long or does not start with a digit from 2 to 9.  So a
    number the back end's [validateAadhaar] accepts never shows an error,
    while a text of twelve characters that starts with 2-9 shows none
    either, digits or not. *)
Theorem onChange_aadhaar_checks_length_and_start (s : jsstring) (st : Page.state) :
  let shown :=
    Page.has_field_error
      (Page.fieldErrors (Page.onChange (str "aadhaarNumber") (Page.Text s) st))
      (str "aadhaarNumber") in
  shown = truthy_str s
          && negb ((length s =? 12)%nat
                   && match s with c :: _ => (50 <=? c) && (c <=? 57) | [] => false end)
  /\ (valid (validateAadhaar (VStr s)) = true -> shown = false).
Proof.
  cbn zeta.
  assert (Hshown :
    Page.has_field_error
      (Page.fieldErrors (Page.onChange (str "aadhaarNumber") (Page.Text s) st))
      (str "aadhaarNumber")
    = truthy_str s
      && negb ((length s =? 12)%nat
               && match s with c :: _ => (50 <=? c) && (c <=? 57) | [] => false end)).
  { unfold Page.onChange. cbn zeta.
    change (bool_decide (str "aadhaarNumber" = str "aadhaarNumber")) with true.
    change (bool_decide (str "aadhaarNumber" = str "panNumber")) with false.
    cbn [orb andb Page.to_value Server.truthy].
    set (st2 := if Page.has_field_error (Page.fieldErrors st) (str "aadhaarNumber")
                then _ else _).
    match goal with |- context [Page.check_aadhaar _ _ ?x] => set (st3 := x) end.
    assert (H3 : Page.has_field_error (Page.fieldErrors st3) (str "aadhaarNumber") = false).
    { assert (H2 : Page.has_field_error (Page.fieldErrors st2) (str "aadhaarNumber") = false).
      { subst st2.
        destruct (Page.has_field_error (Page.fieldErrors st) (str "aadhaarNumber")) eqn:H;
          cbn [Page.set_fieldErrors Page.set_values Page.fieldErrors];
          [apply has_field_error_insert | exact H]. }
      subst st3.
      match goal with |- context [if ?b then Page.set_error _ _ else _] => now destruct b end. }
    destruct (truthy_str s) eqn:Hs; [| exact H3].
    unfold Page.check_aadhaar.
    rewrite (nonempty_length s Hs), aadhaarStart_head, aadhaarRegex_format. cbn [andb].
    destruct (length s =? 12)%nat eqn:Hlen; cbn [negb andb].
    - destruct (match s with c :: _ => (50 <=? c) && (c <=? 57) | [] => false end) eqn:Hc;
        cbn [negb].
      + destruct (aadhaar_format s); [| exact H3].
        cbn [Page.set_fieldErrors Page.fieldErrors]. apply has_field_error_insert.
      + cbn [Page.set_fieldErrors Page.fieldErrors]. apply has_field_error_insert.
    - cbn [Page.set_fieldErrors Page.fieldErrors]. apply has_field_error_insert. }
  split; [exact Hshown |].
  unfold validateAadhaar, aadhaarSchema. rewrite validate_field_valid, aadhaarRegex_format.
  intros [Hlen Hc]%aadhaar_format_start. rewrite Hshown, Hlen, Hc. apply andb_false_r.
Qed.

Lemma onChange_aadhaar_checks_length_and_start_witness :
  Page.has_field_error
    (Page.fieldErrors
       (Page.onChange (str "aadhaarNumber") (Page.Text (str "234567890123"))
          {| Page.values := ∅;
             Page.fieldErrors :=
               {[ str "aadhaarNumber" := str "Aadhaar number must be exactly 12 digits" ]};
             Page.error := VNull; Page.message := VNull; Page.loading := false |}))
    (str "aadhaarNumber")
  = false.
Proof.
  apply (onChange_aadhaar_checks_length_and_start (str "234567890123")).
  vm_compute. reflexivity.
Defined.

Lemma or_value_truthy a (fallback : jsstring) :
  fallback <> [] -> Server.truthy (Page.or_value a (VStr fallback)) = true.
Proof.
  intros Hf. unfold Page.or_value. destruct (Server.truthy a) eqn:Ha; [exact Ha |].
  destruct fallback; [contradiction | reflexivity].
Qed.

Lemma or_value_keeps a b :
  Server.truthy b = true -> Server.truthy (Page.or_value a b) = true.
Proof. intros Hb. unfold Page.or_value. now destruct (Server.truthy a) eqn:Ha. Qed.

(** X20. The pincode lookup only ever writes [state] and [city]: every
    other value, the field errors, the error and the message stay as they
    are, whatever the lookup service answers; and a state or city that is
    filled in is never replaced by an empty one. *)
Theorem autofill_touches_state_and_city (data : Frontend.awaited value) (st : Page.state) :
  let st' := Page.autofill data st in
  (forall key, key <> str "state" -> key <> str "city" ->
               Page.values st' !! key = Page.values st !! key)
  /\ (Server.truthy (get (Page.values st) (str "state")) = true ->
      Server.truthy (get (Page.values st') (str "state")) = true)
  /\ (Server.truthy (get (Page.values st) (str "city")) = true ->
      Server.truthy (get (Page.values st') (str "city")) = true)
  /\ Page.fieldErrors st' = Page.fieldErrors st
  /\ Page.error st' = Page.error st
  /\ Page.message st' = Page.message st.
Proof.
  cbn zeta. unfold Page.autofill.
  destruct data as [data |]; [| tauto].
  destruct (Server.truthy (Page.first_of _)); [| tauto].
  cbn [Page.set_values Page.values Page.fieldErrors Page.error Page.message].
  repeat split.
  - intros key Hs Hc. now rewrite !lookup_insert_ne by congruence.
  - intros Hst. unfold get at 1.
    rewrite lookup_insert_ne by discriminate. rewrite lookup_insert_eq.
    now apply or_value_keeps.
  - intros Hct. unfold get at 1. rewrite lookup_insert_eq. now apply or_value_keeps.
Qed.

Lemma autofill_touches_state_and_city_witness :
  Server.truthy
    (get (Page.values
            (Page.autofill
               (Frontend.Fulfilled
                  (VArr [VObj {[ str "Status" := VStr (str "Success");
                                 str "PostOffice" :=
                                   VArr [VObj {[ str "State" := VStr [];
                                                 str "District" := VStr (str "Bangalore") ]}] ]}]))
               {| Page.values := {[ str "state" := VStr (str "Karnataka") ]};
                  Page.fieldErrors := ∅; Page.error := VNull; Page.message := VNull;
                  Page.loading := false |}))
       (str "state"))
  = true.
Proof.
  apply autofill_touches_state_and_city. reflexivity.
Defined.

Lemma report_sets_error r (fallback : jsstring) st0 st1 :
  fallback <> [] ->
  Page.report r fallback st0 = Some st1 ->
  Server.truthy (Page.error st1) = true
  /\ Page.values st1 = Page.values st0 /\ Page.message st1 = Page.message st0
  /\ Page.fieldErrors st1 = Page.fieldErrors st0.
Proof.
  intros Hf. unfold Page.report, Page.member_or.
  destruct (Page.api_json r) as [d |]; [| discriminate].
  destruct d; try discriminate; intros [= <-]; cbn [Page.set_error Page.error];
    (split; [now apply or_value_truthy | auto]).
Qed.

(** X21. However the two requests turn out, [validateAndNext] ends with
    [loading] off, the field errors untouched, and in exactly one of three
    ways.  [otpVerified] is set and the success message shown exactly when
    the three required fields are filled, the Aadhaar request was answered
    ok, an OTP of length six is entered and the OTP request was answered
    ok.  The OTP field is revealed and the OTP-sent message shown exactly
    when the three required fields are filled, the Aadhaar request was
    answered ok and no OTP is entered.  In every other case an error is
    shown and values and message are untouched. *)
Theorem validateAndNext_outcomes
  (aadhaarResponse otpResponse : Frontend.awaited Page.ApiResponse) (st : Page.state) :
  let st' := Page.validateAndNext aadhaarResponse otpResponse st in
  let v := Page.values st in
  let otp := get v (str "otp") in
  let required :=
    Server.truthy (get v (str "aadhaarNumber"))
    && Server.truthy (get v (str "entrepreneurName"))
    && Server.truthy (get v (str "consent")) in
  let verified :=
    required && answered_ok aadhaarResponse && Server.truthy otp
    && negb (Page.length_differs otp 6) && answered_ok otpResponse in
  let revealed :=
    required && answered_ok aadhaarResponse && negb (Server.truthy otp) in
  Page.loading st' = false
  /\ Page.fieldErrors st' = Page.fieldErrors st
  /\ if verified then
       Page.error st' = VNull
       /\ Page.values st' = <[str "otpVerified" := VBool true]> v
       /\ Page.message st'
          = VStr (str "Your Aadhaar has been successfully verified. You can continue Pan Verification process.")
     else if revealed then
       Page.error st' = VNull
       /\ Page.values st' = <[str "showOtpField" := VBool true]> v
       /\ Page.message st'
          = VStr (str "OTP has been sent to your registered mobile number. Please enter the 6-digit OTP.")
     else
       Server.truthy (Page.error st') = true
       /\ Page.values st' = v /\ Page.message st' = Page.message st.
Proof.
  cbn zeta. unfold Page.validateAndNext. cbn zeta.
  set (st0 := Page.set_loading true (Page.set_error VNull st)).
  assert (Hreport : forall r (fallback : jsstring), fallback <> [] ->
            let st' := Page.finish (str "Network error during validation. Please try again.")
                         st0 (Page.report r fallback st0) in
            Page.loading st' = false /\ Page.fieldErrors st' = Page.fieldErrors st
            /\ Server.truthy (Page.error st') = true
            /\ Page.values st' = Page.values st /\ Page.message st' = Page.message st).
  { intros r fallback Hf. cbn zeta.
    destruct (Page.report r fallback st0) as [st1 |] eqn:Hr.
    - apply report_sets_error in Hr as (He & Hv & Hm & Hfe); [| exact Hf].
      cbn [Page.finish Page.set_loading Page.loading Page.fieldErrors Page.error
           Page.values Page.message]. rewrite Hv, Hm, Hfe. now repeat split.
    - now repeat split. }
  destruct (Server.truthy (get (Page.values st) (str "aadhaarNumber"))) eqn:Ha;
    [| now repeat split].
  destruct (Server.truthy (get (Page.values st) (str "entrepreneurName"))) eqn:Hn;
    [| now repeat split].
  destruct (Server.truthy (get (Page.values st) (str "consent"))) eqn:Hc;
    [| now repeat split].
  cbn [negb orb andb].
  destruct aadhaarResponse as [ra |]; cbn [answered_ok andb]; [| now repeat split].
  destruct (Page.api_ok ra) eqn:Hra; cbn [negb andb].
  2:{ destruct (Hreport ra (str "Invalid Aadhaar format")) as (H1 & H2 & H3 & H4 & H5);
        [discriminate |]. auto. }
  destruct (Server.truthy (get (Page.values st) (str "otp"))) eqn:Ho; cbn [negb andb];
    [| now repeat split].
  destruct (Page.length_differs (get (Page.values st) (str "otp")) 6) eqn:Hlen;
    cbn [negb andb]; [now repeat split |].
  destruct otpResponse as [ro |]; cbn [answered_ok]; [| now repeat split].
  destruct (Page.api_ok ro) eqn:Hro; cbn [negb].
  2:{ destruct (Hreport ro (str "Invalid OTP format")) as (H1 & H2 & H3 & H4 & H5);
        [discriminate |]. auto. }
  now repeat split.
Qed.

(** X22. However the two requests turn out, [submitForm] ends with
    [loading] off and never changes the values.  It shows either an error,
    leaving the message as it was, or a success message; the latter only
    when the eight fields of the PAN section are filled and both the PAN
    request and the submission were answered ok. *)
Theorem submitForm_outcomes
  (panResponse response : Frontend.awaited Page.ApiResponse) (st : Page.state) :
  let st' := Page.submitForm panResponse response st in
  let answered_ok (r : Frontend.awaited Page.ApiResponse) :=
    exists r', r = Frontend.Fulfilled r' /\ Page.api_ok r' = true in
  Page.loading st' = false
  /\ Page.values st' = Page.values st
  /\ Page.fieldErrors st' = Page.fieldErrors st
  /\ ((Server.truthy (Page.error st') = true /\ Page.message st' = Page.message st)
      \/ (Page.error st' = VNull
          /\ Server.truthy (Page.message st') = true
          /\ Forall (fun key => Server.truthy (get (Page.values st) key) = true)
               Page.pan_section
          /\ answered_ok panResponse /\ answered_ok response)).
Proof.
  cbn zeta. unfold Page.submitForm. cbn zeta.
  set (st0 := Page.set_error VNull (Page.set_loading true st)).
  destruct (existsb _ Page.pan_section) eqn:Hmissing; [now repeat split; try left |].
  assert (Hall : Forall (fun key => Server.truthy (get (Page.values st) key) = true)
                   Page.pan_section).
  { apply Forall_forall. intros key Hkey. apply list_elem_of_In in Hkey.
    destruct (Server.truthy (get (Page.values st) key)) eqn:Hk; [reflexivity |].
    assert (Hex : existsb (fun key => negb (Server.truthy (get (Page.values st) key)))
                    Page.pan_section = true).
    { apply existsb_exists. exists key. split; [exact Hkey | now rewrite Hk]. }
    congruence. }
  destruct panResponse as [rp |]; [| now repeat split; try left].
  destruct (Page.api_ok rp) eqn:Hrp; cbn [negb].
  2:{ destruct (Page.report rp (str "Invalid PAN format") st0) as [st1 |] eqn:Hr.
      - apply report_sets_error in Hr as (He & Hv & Hm & Hfe); [| discriminate].
        cbn [Page.finish Page.set_loading Page.loading Page.fieldErrors Page.error
             Page.values Page.message]. rewrite Hv, Hm, Hfe. repeat split. now left.
      - now repeat split; try left. }
  destruct response as [r |]; [| now repeat split; try left].
  destruct (Page.api_json r) as [result |]; [| now repeat split; try left].
  unfold Page.member_or.
  destruct (Page.api_ok r) eqn:Hr; cbn [negb].
  - destruct result; cbn [option_map Page.finish];
      try (now repeat split; try left);
      (do 3 (split; [reflexivity |]); right; split; [reflexivity |];
       split; [now apply or_value_truthy |]; split; [exact Hall |]; split; eauto).
  - destruct result; cbn [option_map Page.finish];
      try (now repeat split; try left);
      (do 3 (split; [reflexivity |]); left; split;
       [now apply or_value_truthy | reflexivity]).
Qed.

Lemma onChange_pan_agrees_with_validator_witness :
  Page.fieldErrors
    (Page.onChange (str "panNumber") (Page.Text (str "abcde1234f"))
       {| Page.values := ∅; Page.fieldErrors := ∅; Page.error := VNull;
          Page.message := VNull; Page.loading := false |})
  !! str "panNumber"
  = Some (str "Invalid PAN format. Expected: ABCDE1234F").
Proof.
  apply (onChange_pan_agrees_with_validator (str "abcde1234f")); vm_compute; reflexivity.
Defined.

(** A page with the region select, whose keyword sits in the placeholder
    attribute only, and the PAN input: one field. *)
Lemma evaluate_returns_relevant_fields_witness :
  exists fields,
    ScrapeStep2.evaluate ScrapeStep2.ascii_toLowerCase ScrapeStep2.insertion_sort
      [region_select; pan_input]
    = Some fields
    /\ length fields = 1%nat.
Proof.
  destruct (ScrapeStep2.evaluate ScrapeStep2.ascii_toLowerCase ScrapeStep2.insertion_sort
              [region_select; pan_input]) as [fields |] eqn:He;
    [| vm_compute in He; discriminate].
  exists fields. split; [reflexivity |].
  destruct (proj2 (evaluate_returns_relevant_fields ScrapeStep2.ascii_toLowerCase
                     ScrapeStep2.insertion_sort insertion_sort_permutation
                     [region_select; pan_input]) fields He) as [Hlen _].
  rewrite Hlen. vm_compute. reflexivity.
Defined.

